(** * The assertion engine of IBGRoboot

    A shallow embedding of [lib/assertion_response.js]: the runner
    [runAssertions], the classifier [classifyAssertion], the array-level
    evaluator [validateArrayLevel], the item fan-out [validateOnArrayItems]
    and the record evaluator [validateObjectLevel] with its twenty rules and
    the custom check bridge.

    Two functions of the modules around the engine are embedded as well,
    each in a module of its own: [buildHeaders] of
    [lib/send_http_request.js], on entries typed as its documentation types
    them ([Headers]), and the figures and the status of the object
    [buildReportData] of [lib/report_generator.js] returns ([Report]).

    Values are the data JSON.parse and js-yaml produce, plus [undefined],
    promises, and the built-in objects a property read can reach through the
    standard prototype chain.  A character of a string stands for one code
    unit (so the model covers strings whose code units are below 256), and a
    property list [VObj] stands for the object holding, for each key, the
    first binding of that key; data values hold no functions of their own.
    Every array or object node of a value is an allocation of its own: two
    occurrences are never the same reference.

    An exception is a completion [Abrupt]; the evaluators return completions
    and the runner catches them where the source has its try block.  The only
    code that can write to what the engine is handed is a custom validator:
    the evaluators therefore pass along, next to their verdict, the world
    outside the engine, the record and the inputs as a call leaves them.

    The parts of the host that are not code of this repository are taken as
    parameters: the regular expression engine, date parsing, the decimal
    rendering of numbers that are not small integers, the text of
    engine-raised errors ([Engine]), and the modules that [import()]
    resolves ([Modules]). *)

From Stdlib Require Import String Ascii List ZArith NArith Bool Lia Sorted.
From Stdlib Require Import SpecFloat DecimalString.
Import ListNotations.
Set Warnings "-register-all".
Local Open Scope list_scope.
Local Open Scope string_scope.

(** ** Strings *)

(** The double quote character, as a one-character string. *)
Definition dq : string := String (ascii_of_nat 34) EmptyString.

Definition quoted (s : string) : string := dq ++ s ++ dq.

Definition string_of_nat (n : nat) : string :=
  NilZero.string_of_uint (N.to_uint (N.of_nat n)).

Definition chars (s : string) : list ascii := list_ascii_of_string s.

(** WhiteSpace and LineTerminator code units below 256. *)
Definition is_space (c : ascii) : bool :=
  let n := nat_of_ascii c in
  ((9 <=? n)%nat && (n <=? 13)%nat) || (n =? 32)%nat || (n =? 160)%nat.

Fixpoint trim_start (s : string) : string :=
  match s with
  | String c s' => if is_space c then trim_start s' else s
  | EmptyString => EmptyString
  end.

Fixpoint trim_end (s : string) : string :=
  match s with
  | String c s' =>
      match trim_end s' with
      | EmptyString => if is_space c then EmptyString else String c EmptyString
      | t => String c t
      end
  | EmptyString => EmptyString
  end.

(** [String.prototype.trim] *)
Definition trim (s : string) : string := trim_end (trim_start s).

(** [String.prototype.includes] on two strings *)
Fixpoint string_includes (needle hay : string) : bool :=
  String.prefix needle hay ||
  match hay with
  | String _ hay' => string_includes needle hay'
  | EmptyString => false
  end.

Fixpoint concat_with (sep : string) (parts : list string) : string :=
  match parts with
  | [] => EmptyString
  | [p] => p
  | p :: rest => p ++ sep ++ concat_with sep rest
  end.

Definition mem_string (s : string) (l : list string) : bool :=
  existsb (String.eqb s) l.

(** ** Numbers: IEEE 754 binary64 *)

(** A number is a binary64 value in canonical form, as [num_of_Z] builds
    it; the comparisons below are those of IEEE 754 on such values. *)
Definition number := spec_float.

Definition num_of_Z (z : Z) : number := binary_normalize 53 1024 z 0 false.
Definition num_of_nat (n : nat) : number := num_of_Z (Z.of_nat n).

(** [a < b] on two numbers; false when either is NaN. *)
Definition num_lt (a b : number) : bool := SFltb a b.

Definition num_is_nan (a : number) : bool :=
  match a with S754_nan => true | _ => false end.

Definition num_is_zero (a : number) : bool :=
  match a with S754_zero _ => true | _ => false end.

(** The integer a finite number denotes, when it denotes one. *)
Definition num_to_Z (a : number) : option Z :=
  match a with
  | S754_zero _ => Some 0%Z
  | S754_finite s m e =>
      let mag :=
        match e with
        | Z0 => Some (Zpos m)
        | Zpos p => Some (Zpos m * 2 ^ Zpos p)%Z
        | Zneg p =>
            if (Zpos m mod 2 ^ Zpos p =? 0)%Z
            then Some (Zpos m / 2 ^ Zpos p)%Z else None
        end in
      option_map (fun z => if s then (- z)%Z else z) mag
  | _ => None
  end.

(** [Number.isInteger] *)
Definition num_is_integer (a : number) : bool :=
  match num_to_Z a with Some _ => true | None => false end.

(** SameValueZero on numbers: NaN equals NaN, and the two zeros are equal. *)
Definition num_same (a b : number) : bool :=
  (num_is_nan a && num_is_nan b) || SFeqb a b.

(** ** Values *)

Inductive ProtoClass : Type :=
| CObject | CArray | CString | CNumber | CBoolean | CFunction | CPromise.

Inductive JsVal : Type :=
| VUndefined
| VNull
| VBool (b : bool)
| VNum (n : number)
| VStr (s : string)
| VArr (items : list JsVal)
| VObj (props : list (string * JsVal))
| VPromise (settled : option JsVal)
    (* a promise: fulfilled with a value, or rejected *)
| VBuiltin (name : string)       (* a built-in function object *)
| VProto (c : ProtoClass).       (* a standard prototype object *)

Definition is_nullish (v : JsVal) : bool :=
  match v with VUndefined | VNull => true | _ => false end.

Definition is_undefined (v : JsVal) : bool :=
  match v with VUndefined => true | _ => false end.

Definition is_null (v : JsVal) : bool :=
  match v with VNull => true | _ => false end.

(** The [typeof] operator *)
Definition typeof (v : JsVal) : string :=
  match v with
  | VUndefined => "undefined"
  | VNull => "object"
  | VBool _ => "boolean"
  | VNum _ => "number"
  | VStr _ => "string"
  | VArr _ | VObj _ | VPromise _ => "object"
  | VBuiltin _ | VProto CFunction => "function"
  | VProto _ => "object"
  end.

(** ToBoolean *)
Definition truthy (v : JsVal) : bool :=
  match v with
  | VUndefined | VNull => false
  | VBool b => b
  | VNum n => negb (num_is_zero n || num_is_nan n)
  | VStr EmptyString => false
  | _ => true
  end.

(** [Array.isArray], with the elements *)
Definition as_array (v : JsVal) : option (list JsVal) :=
  match v with
  | VArr xs => Some xs
  | VProto CArray => Some []
  | _ => None
  end.

Definition isArray (v : JsVal) : bool :=
  match as_array v with Some _ => true | None => false end.

(** SameValueZero, the comparison of [Array.prototype.includes] and of [Set]:
    primitives by value, everything else by reference. *)
Definition same_value_zero (a b : JsVal) : bool :=
  match a, b with
  | VUndefined, VUndefined => true
  | VNull, VNull => true
  | VBool x, VBool y => Bool.eqb x y
  | VNum x, VNum y => num_same x y
  | VStr x, VStr y => String.eqb x y
  | _, _ => false
  end.

Definition set_has (xs : list JsVal) (v : JsVal) : bool :=
  existsb (same_value_zero v) xs.

(** The number of members of [new Set(xs)]: an element counts unless an
    earlier one is the same value. *)
Fixpoint set_size_from (seen xs : list JsVal) : nat :=
  match xs with
  | [] => 0
  | x :: rest =>
      if set_has seen x then set_size_from seen rest
      else S (set_size_from (x :: seen) rest)
  end.

Definition set_size (xs : list JsVal) : nat := set_size_from [] xs.

(** ** Errors raised by the engine, and completions *)

Inductive EngineError : Type :=
| ErrDestructure (v : JsVal)                (* const { a } = undefined *)
| ErrReadProperty (base key : JsVal)        (* null[key] *)
| ErrNotIterable (v : JsVal)                (* for (const x of 5) *)
| ErrNotAFunction (callee : string)         (* x.includes(...) with no such method *)
| ErrToObject (v : JsVal)                   (* Object.keys(null) *)
| ErrToPrimitive (v : JsVal)                (* `${ {toString: 1} }` *)
| ErrRegExp (pattern : string).             (* new RegExp("(") *)

Inductive Completion (A : Type) : Type :=
| Normal (a : A)
| Abrupt (e : EngineError).
Arguments Normal {A} a.
Arguments Abrupt {A} e.

Definition bind {A B} (c : Completion A) (k : A -> Completion B) : Completion B :=
  match c with
  | Normal a => k a
  | Abrupt e => Abrupt e
  end.

Notation "'let*' x ':=' c 'in' k" := (bind c (fun x => k))
  (at level 10, x name, c at level 100, k at level 200).

(** A value thrown by foreign code is any value; the engine throws errors. *)
Inductive Thrown : Type :=
| ThrowEngine (e : EngineError)
| ThrowValue (v : JsVal).

(** ** The host engine *)

Record Engine : Type := {
  (** Number::toString on a finite number other than an integer of magnitude
      at most 2^53 (for those the shortest round-trip digits are needed) *)
  float_to_string : number -> string;
  (** the [length] of a built-in function *)
  builtin_length : string -> nat;
  (** whether [new RegExp(p)] accepts the pattern *)
  regexp_valid : string -> bool;
  (** [new RegExp(p).test(s)] *)
  regexp_test : string -> string -> bool;
  (** [isNaN(new Date(s).getTime())] *)
  date_is_invalid : string -> bool;
  (** the [message] of an error the engine raises *)
  error_text : EngineError -> string
}.

(** ** Property keys and own properties *)

(** A canonical array index: the decimal form of an integer below 2^32 - 1. *)
Definition array_index (s : string) : option N :=
  match NilEmpty.uint_of_string s with
  | Some u =>
      let n := N.of_uint u in
      if String.eqb (NilZero.string_of_uint (N.to_uint n)) s && (n <? 4294967295)%N
      then Some n else None
  | None => None
  end.

Fixpoint lookup (k : string) (props : list (string * JsVal)) : option JsVal :=
  match props with
  | [] => None
  | (k', v) :: rest => if String.eqb k k' then Some v else lookup k rest
  end.

Fixpoint insert_index (e : N * string) (l : list (N * string)) : list (N * string) :=
  match l with
  | [] => [e]
  | e' :: rest =>
      if (fst e <=? fst e')%N then e :: l else e' :: insert_index e rest
  end.

Fixpoint dedup (seen : list string) (l : list string) : list string :=
  match l with
  | [] => []
  | k :: rest =>
      if mem_string k seen then dedup seen rest else k :: dedup (k :: seen) rest
  end.

(** The own enumerable string keys of an ordinary object, in the order of
    [Object.keys] and [for ... in]: array indices ascending, then the other
    keys in insertion order. *)
Definition ordered_keys (props : list (string * JsVal)) : list string :=
  let ks := dedup [] (map fst props) in
  let idx :=
    fold_right
      (fun k acc =>
         match array_index k with Some n => insert_index (n, k) acc | None => acc end)
      [] ks in
  map snd idx ++
  filter (fun k => match array_index k with Some _ => false | None => true end) ks.

Definition index_keys (n : nat) : list string := map string_of_nat (seq 0 n).

(** The names of the string-keyed own properties of the standard prototype
    objects (ECMAScript 2023 with Annex B). *)
Definition proto_names (c : ProtoClass) : list string :=
  match c with
  | CObject =>
      ["constructor"; "__defineGetter__"; "__defineSetter__"; "hasOwnProperty";
       "__lookupGetter__"; "__lookupSetter__"; "isPrototypeOf";
       "propertyIsEnumerable"; "toString"; "valueOf"; "__proto__";
       "toLocaleString"]
  | CArray =>
      ["length"; "constructor"; "at"; "concat"; "copyWithin"; "fill"; "find";
       "findIndex"; "findLast"; "findLastIndex"; "lastIndexOf"; "pop"; "push";
       "reverse"; "shift"; "unshift"; "slice"; "sort"; "splice"; "includes";
       "indexOf"; "join"; "keys"; "entries"; "values"; "forEach"; "filter";
       "flat"; "flatMap"; "map"; "every"; "some"; "reduce"; "reduceRight";
       "toLocaleString"; "toString"; "toReversed"; "toSorted"; "toSpliced";
       "with"]
  | CString =>
      ["length"; "constructor"; "anchor"; "at"; "big"; "blink"; "bold";
       "charAt"; "charCodeAt"; "codePointAt"; "concat"; "endsWith";
       "fontcolor"; "fontsize"; "fixed"; "includes"; "indexOf";
       "isWellFormed"; "italics"; "lastIndexOf"; "link"; "localeCompare";
       "match"; "matchAll"; "normalize"; "padEnd"; "padStart"; "repeat";
       "replace"; "replaceAll"; "search"; "slice"; "small"; "split"; "strike";
       "sub"; "substr"; "substring"; "sup"; "startsWith"; "toString";
       "toWellFormed"; "trim"; "trimStart"; "trimLeft"; "trimEnd";
       "trimRight"; "toLocaleLowerCase"; "toLocaleUpperCase"; "toLowerCase";
       "toUpperCase"; "valueOf"]
  | CNumber =>
      ["constructor"; "toExponential"; "toFixed"; "toPrecision"; "toString";
       "valueOf"; "toLocaleString"]
  | CBoolean => ["constructor"; "toString"; "valueOf"]
  | CFunction =>
      (* without the poisoned accessors [arguments] and [caller] *)
      ["length"; "name"; "constructor"; "apply"; "bind"; "call"; "toString"]
  | CPromise => ["constructor"; "then"; "catch"; "finally"]
  end.

Definition constructor_name (c : ProtoClass) : string :=
  match c with
  | CObject => "Object" | CArray => "Array" | CString => "String"
  | CNumber => "Number" | CBoolean => "Boolean" | CFunction => "Function"
  | CPromise => "Promise"
  end.

(** The prototype a value inherits from; [None] past the end of the chain. *)
Definition proto_of (v : JsVal) : option ProtoClass :=
  match v with
  | VUndefined | VNull => None
  | VBool _ => Some CBoolean
  | VNum _ => Some CNumber
  | VStr _ => Some CString
  | VArr _ => Some CArray
  | VObj _ => Some CObject
  | VPromise _ => Some CPromise
  | VBuiltin _ => Some CFunction
  | VProto CObject => None
  | VProto _ => Some CObject
  end.

(** [Object.prototype.hasOwnProperty.call(v, k)] for a value that is not
    nullish. *)
Definition has_own (v : JsVal) (k : string) : bool :=
  match v with
  | VObj props => match lookup k props with Some _ => true | None => false end
  | VArr xs =>
      String.eqb k "length" ||
      match array_index k with
      | Some n => (n <? N.of_nat (length xs))%N
      | None => false
      end
  | VStr s =>
      String.eqb k "length" ||
      match array_index k with
      | Some n => (n <? N.of_nat (String.length s))%N
      | None => false
      end
  | VBuiltin _ => String.eqb k "length" || String.eqb k "name"
  | VProto c => mem_string k (proto_names c)
  | _ => false
  end.

(** [Object.keys(v)] for a value that is not nullish; also the keys a
    [for ... in] loop visits. *)
Definition own_keys (v : JsVal) : list string :=
  match v with
  | VObj props => ordered_keys props
  | VArr xs => index_keys (length xs)
  | VStr s => index_keys (String.length s)
  | _ => []
  end.

(** What reading the member [k] of the prototype object [c] gives when the
    read started at [receiver]. *)
Definition proto_member (c : ProtoClass) (k : string) (receiver : JsVal) : JsVal :=
  if String.eqb k "__proto__" then
    match proto_of receiver with Some c' => VProto c' | None => VNull end
  else if String.eqb k "constructor" then VBuiltin (constructor_name c)
  else if String.eqb k "length" then VNum (num_of_Z 0)
  else if String.eqb k "name" then VStr EmptyString
  else if String.eqb k "trimLeft" then VBuiltin "trimStart"
  else if String.eqb k "trimRight" then VBuiltin "trimEnd"
  else VBuiltin k.

Section Semantics.

Variable eng : Engine.

(** Number::toString.  An integer of magnitude at most 2^53 prints as its
    decimal digits. *)
Definition number_to_string (n : number) : string :=
  match n with
  | S754_nan => "NaN"
  | S754_infinity false => "Infinity"
  | S754_infinity true => "-Infinity"
  | _ =>
      match num_to_Z n with
      | Some z =>
          if (Z.abs z <=? 2 ^ 53)%Z then NilZero.string_of_int (Z.to_int z)
          else float_to_string eng n
      | None => float_to_string eng n
      end
  end.

(** ToString.  An object with a [toString] property of its own (data, so not
    callable) has no primitive value. *)
Fixpoint to_string (v : JsVal) : Completion string :=
  match v with
  | VUndefined => Normal "undefined"
  | VNull => Normal "null"
  | VBool true => Normal "true"
  | VBool false => Normal "false"
  | VNum n => Normal (number_to_string n)
  | VStr s => Normal s
  | VArr xs =>
      let* parts :=
        (fix each (l : list JsVal) : Completion (list string) :=
           match l with
           | [] => Normal []
           | x :: rest =>
               let* p := (if is_nullish x then Normal EmptyString else to_string x) in
               let* ps := each rest in
               Normal (p :: ps)
           end) xs in
      Normal (concat_with "," parts)
  | VObj props =>
      match lookup "toString" props with
      | Some _ => Abrupt (ErrToPrimitive v)
      | None => Normal "[object Object]"
      end
  | VPromise _ => Normal "[object Promise]"
  | VBuiltin name => Normal ("function " ++ name ++ "() { [native code] }")
  | VProto CObject => Normal "[object Object]"
  | VProto CArray => Normal EmptyString
  | VProto CString => Normal EmptyString
  | VProto CNumber => Normal "0"
  | VProto CBoolean => Normal "false"
  | VProto CFunction => Normal "function () { [native code] }"
  | VProto CPromise => Normal "[object Promise]"
  end.

Fixpoint map_completion {A B} (f : A -> Completion B) (l : list A)
  : Completion (list B) :=
  match l with
  | [] => Normal []
  | x :: rest =>
      let* y := f x in
      let* ys := map_completion f rest in
      Normal (y :: ys)
  end.

(** [Array.prototype.join] on the elements of an array *)
Definition array_join (sep : string) (xs : list JsVal) : Completion string :=
  let* parts :=
    map_completion
      (fun x => if is_nullish x then Normal EmptyString else to_string x) xs in
  Normal (concat_with sep parts).

(** The data properties a value holds itself. *)
Definition own_value (v : JsVal) (k : string) : option JsVal :=
  match v with
  | VObj props => lookup k props
  | VArr xs =>
      if String.eqb k "length" then Some (VNum (num_of_nat (length xs)))
      else match array_index k with
           | Some n => nth_error xs (N.to_nat n)
           | None => None
           end
  | VStr s =>
      if String.eqb k "length" then Some (VNum (num_of_nat (String.length s)))
      else match array_index k with
           | Some n =>
               option_map (fun c => VStr (String c EmptyString))
                          (String.get (N.to_nat n) s)
           | None => None
           end
  | VBuiltin name =>
      if String.eqb k "name" then Some (VStr name)
      else if String.eqb k "length"
           then Some (VNum (num_of_nat (builtin_length eng name)))
           else None
  | VProto c =>
      if mem_string k (proto_names c) then Some (proto_member c k v) else None
  | _ => None
  end.

(** [v[k]] for a value that is not nullish: the own property, or the member
    inherited through the prototype chain, or [undefined]. *)
Definition get (v : JsVal) (k : string) : JsVal :=
  match own_value v k with
  | Some x => x
  | None =>
      match proto_of v with
      | Some c =>
          if mem_string k (proto_names c) then proto_member c k v
          else if mem_string k (proto_names CObject) then proto_member CObject k v
          else VUndefined
      | None => VUndefined
      end
  end.

(** [o[k]] *)
Definition get_prop (o k : JsVal) : Completion JsVal :=
  if is_nullish o then Abrupt (ErrReadProperty o k)
  else let* key := to_string k in Normal (get o key).

(** [const { name } = inputs] reads [inputs.name]; it throws on a nullish
    right-hand side before any name is read. *)
Definition destructure (inputs : JsVal) : Completion unit :=
  if is_nullish inputs then Abrupt (ErrDestructure inputs) else Normal tt.

(** [const { name = dflt } = inputs] *)
Definition get_default (inputs : JsVal) (name : string) (dflt : JsVal) : JsVal :=
  match get inputs name with
  | VUndefined => dflt
  | v => v
  end.

(** [Object.prototype.hasOwnProperty.call(o, k)] *)
Definition hasOwnProperty_call (o k : JsVal) : Completion bool :=
  let* key := to_string k in
  if is_nullish o then Abrupt (ErrToObject o) else Normal (has_own o key).

(** [o.hasOwnProperty(k)]: the method is looked up on [o] first. *)
Definition hasOwnProperty_method (o k : JsVal) : Completion bool :=
  if is_nullish o then Abrupt (ErrReadProperty o (VStr "hasOwnProperty"))
  else match get o "hasOwnProperty" with
       | VBuiltin "hasOwnProperty" =>
           let* key := to_string k in Normal (has_own o key)
       | _ => Abrupt (ErrNotAFunction "hasOwnProperty")
       end.

(** [Object.keys(o)] *)
Definition object_keys (o : JsVal) : Completion (list string) :=
  if is_nullish o then Abrupt (ErrToObject o) else Normal (own_keys o).

(** The values a [for (const x of v)] loop visits. *)
Definition iterate (v : JsVal) : Completion (list JsVal) :=
  match v with
  | VArr xs => Normal xs
  | VStr s => Normal (map (fun c => VStr (String c EmptyString)) (chars s))
  | VProto CArray | VProto CString => Normal []
  | _ => Abrupt (ErrNotIterable v)
  end.

(** [new Set(v)]: the elements, in order, possibly with repetitions. *)
Definition new_set (v : JsVal) : Completion (list JsVal) :=
  if is_nullish v then Normal [] else iterate v.

(** [recv.includes(arg)]: [Array.prototype.includes] on an array,
    [String.prototype.includes] on a string. *)
Definition includes_method (recv arg : JsVal) : Completion bool :=
  match recv with
  | VUndefined | VNull => Abrupt (ErrReadProperty recv (VStr "includes"))
  | VArr xs => Normal (set_has xs arg)
  | VProto CArray => Normal false
  | VStr s => let* needle := to_string arg in Normal (string_includes needle s)
  | VProto CString =>
      let* needle := to_string arg in Normal (string_includes needle EmptyString)
  | _ => Abrupt (ErrNotAFunction "includes")
  end.

(** [recv.join(sep)] *)
Definition join_method (recv : JsVal) (sep : string) : Completion string :=
  match recv with
  | VUndefined | VNull => Abrupt (ErrReadProperty recv (VStr "join"))
  | VArr xs => array_join sep xs
  | VProto CArray => Normal EmptyString
  | _ => Abrupt (ErrNotAFunction "join")
  end.

(** [new RegExp(pattern)]; the regular expression is kept as its source. *)
Definition regexp_new (pattern : JsVal) : Completion string :=
  let* p := (if is_undefined pattern then Normal EmptyString
             else to_string pattern) in
  if regexp_valid eng p then Normal p else Abrupt (ErrRegExp p).

(** [re.test(v)] *)
Definition regexp_test_value (re : string) (v : JsVal) : Completion bool :=
  let* s := to_string v in Normal (regexp_test eng re s).

(** [typeof bound === "number" && len < bound] *)
Definition below_bound (len : nat) (bound : JsVal) : bool :=
  match bound with
  | VNum b => num_lt (num_of_nat len) b
  | _ => false
  end.

(** [typeof bound === "number" && len > bound] *)
Definition above_bound (len : nat) (bound : JsVal) : bool :=
  match bound with
  | VNum b => num_lt b (num_of_nat len)
  | _ => false
  end.

End Semantics.

(** ** The record evaluator: the rules of [validateObjectLevel] *)

(** The [{ pass, msg }] object the evaluators return. *)
Record Verdict : Type := { pass : bool; msg : string }.

Definition passing : Verdict :=
  {| pass := true; msg := "Assertion passed." |}.

Definition failing (m : string) : Verdict := {| pass := false; msg := m |}.

(** A loop [for (const x of xs) { if (...) { pass = false; msg = m; break; } }]:
    the body answers [Some m] when it fails and breaks. *)
Fixpoint for_each {A} (body : A -> Completion (option string)) (xs : list A)
  : Completion (option string) :=
  match xs with
  | [] => Normal None
  | x :: rest =>
      let* r := body x in
      match r with
      | Some m => Normal (Some m)
      | None => for_each body rest
      end
  end.

Definition verdict_of (r : option string) : Verdict :=
  match r with
  | Some m => failing m
  | None => passing
  end.

(** [Array.isArray(inputs) ? inputs : [inputs]] *)
Definition as_list (inputs : JsVal) : list JsVal :=
  match as_array inputs with
  | Some xs => xs
  | None => [inputs]
  end.

(** [t === v] for the string [t] a [typeof] gives *)
Definition is_string (t : string) (v : JsVal) : bool :=
  match v with
  | VStr s => String.eqb t s
  | _ => false
  end.

(** Arrays and objects are held by reference, everything else by value.
    What a callee can have made, in place, of a value it was handed: an
    array stays an array and an object an object, and a value of another
    kind is as it was. *)
Definition mutated (before after : JsVal) : JsVal :=
  match before, after with
  | VArr _, VArr _ => after
  | VObj _, VObj _ => after
  | _, _ => before
  end.

(** [v || dflt] *)
Definition or_else (v dflt : JsVal) : JsVal := if truthy v then v else dflt.

Section Rules.

Variable eng : Engine.

#[local] Abbreviation get := (get eng).
#[local] Abbreviation get_prop := (get_prop eng).
#[local] Abbreviation to_string := (to_string eng).

(** 1. Schema Compliance *)
Definition case_SchemaCompliance (obj inputs : JsVal) : Completion Verdict :=
  let* _ := destructure inputs in
  let schema := get inputs "schema" in
  let strict := get_default eng inputs "strict" (VBool false) in
  if negb (truthy schema) || negb (String.eqb (typeof schema) "object") then
    Normal (failing "No schema object provided in inputs.")
  else
    let* r :=
      for_each
        (fun fieldName =>
           let expectedType := get schema fieldName in
           let* actual := get_prop obj (VStr fieldName) in
           if negb (is_string (typeof actual) expectedType) then
             let* expected := to_string expectedType in
             Normal (Some ("Field " ++ quoted fieldName ++ " should be type "
                           ++ quoted expected ++ " but got "
                           ++ quoted (typeof actual) ++ "."))
           else Normal None)
        (own_keys schema) in
    match r with
    | Some m => Normal (failing m)
    | None =>
        if truthy strict then
          let* keys := object_keys obj in
          let* r' :=
            for_each
              (fun key =>
                 let* own := hasOwnProperty_method eng schema (VStr key) in
                 if negb own then
                   Normal (Some ("Strict schema compliance failed. Unexpected field "
                                 ++ quoted key ++ "."))
                 else Normal None)
              keys in
          Normal (verdict_of r')
        else Normal passing
    end.

(** 2. Required Fields *)
Definition case_RequiredFields (obj inputs : JsVal) : Completion Verdict :=
  let requiredFields := as_list inputs in
  let* r :=
    for_each
      (fun field =>
         let* own := hasOwnProperty_call eng obj field in
         if negb own then
           let* f := to_string field in
           Normal (Some ("Missing required field: " ++ quoted f ++ "."))
         else Normal None)
      requiredFields in
  Normal (verdict_of r).

(** 3. No Additional Fields *)
Definition case_NoAdditionalFields (obj inputs : JsVal) : Completion Verdict :=
  let allowedFields := as_list inputs in
  let* keys := object_keys obj in
  let* r :=
    for_each
      (fun key =>
         if negb (set_has allowedFields (VStr key)) then
           Normal (Some ("Unexpected field found: " ++ quoted key ++ "."))
         else Normal None)
      keys in
  Normal (verdict_of r).

(** 4. String Field Validation *)
Definition case_StringFieldValidation (obj inputs : JsVal) : Completion Verdict :=
  match as_array inputs with
  | Some fields =>
      let* r :=
        for_each
          (fun field =>
             let* v := get_prop obj field in
             let* f := to_string field in
             match v with
             | VStr s =>
                 if (String.length (trim s) =? 0)%nat then
                   Normal (Some ("Field " ++ quoted f ++ " cannot be an empty string."))
                 else Normal None
             | _ => Normal (Some ("Field " ++ quoted f ++ " is not a string."))
             end)
          fields in
      Normal (verdict_of r)
  | None =>
      let* _ := destructure inputs in
      let fields := get inputs "fields" in
      let minLength := get inputs "minLength" in
      let maxLength := get inputs "maxLength" in
      let pattern := get inputs "pattern" in
      let* fs := iterate fields in
      let* r :=
        for_each
          (fun field =>
             let* v := get_prop obj field in
             let* f := to_string field in
             match v with
             | VStr s =>
                 let trimmed := trim s in
                 if below_bound (String.length trimmed) minLength then
                   let* b := to_string minLength in
                   Normal (Some ("Field " ++ quoted f ++ " length is below minimum "
                                 ++ b ++ "."))
                 else if above_bound (String.length trimmed) maxLength then
                   let* b := to_string maxLength in
                   Normal (Some ("Field " ++ quoted f ++ " length exceeds maximum "
                                 ++ b ++ "."))
                 else if truthy pattern then
                   let* re := regexp_new eng pattern in
                   if negb (regexp_test eng re trimmed) then
                     let* p := to_string pattern in
                     Normal (Some ("Field " ++ quoted f
                                   ++ " does not match pattern: " ++ p))
                   else Normal None
                 else Normal None
             | _ => Normal (Some ("Field " ++ quoted f ++ " is not a string."))
             end)
          fs in
      Normal (verdict_of r)
  end.

(** 5. Number Field Validation *)
Definition case_NumberFieldValidation (obj inputs : JsVal) : Completion Verdict :=
  match as_array inputs with
  | Some fields =>
      let* r :=
        for_each
          (fun field =>
             let* v := get_prop obj field in
             let* f := to_string field in
             match v with
             | VNum _ => Normal None
             | _ => Normal (Some ("Field " ++ quoted f ++ " is not a number."))
             end)
          fields in
      Normal (verdict_of r)
  | None =>
      let* _ := destructure inputs in
      let fields := get inputs "fields" in
      let min := get inputs "min" in
      let max := get inputs "max" in
      let integerOnly := get_default eng inputs "integerOnly" (VBool false) in
      let* fs := iterate fields in
      let* r :=
        for_each
          (fun field =>
             let* value := get_prop obj field in
             let* f := to_string field in
             match value with
             | VNum n =>
                 if match min with VNum lo => num_lt n lo | _ => false end then
                   let* b := to_string min in
                   Normal (Some ("Field " ++ quoted f ++ " is below minimum value "
                                 ++ b ++ "."))
                 else if match max with VNum hi => num_lt hi n | _ => false end then
                   let* b := to_string max in
                   Normal (Some ("Field " ++ quoted f ++ " exceeds maximum value "
                                 ++ b ++ "."))
                 else if truthy integerOnly && negb (num_is_integer n) then
                   Normal (Some ("Field " ++ quoted f ++ " must be an integer."))
                 else Normal None
             | _ => Normal (Some ("Field " ++ quoted f ++ " is not a number."))
             end)
          fs in
      Normal (verdict_of r)
  end.

(** 6. Boolean Field Validation *)
Definition case_BooleanFieldValidation (obj inputs : JsVal) : Completion Verdict :=
  let boolFields := as_list inputs in
  let* r :=
    for_each
      (fun field =>
         let* v := get_prop obj field in
         let* f := to_string field in
         match v with
         | VBool _ => Normal None
         | _ => Normal (Some ("Field " ++ quoted f ++ " is not a boolean."))
         end)
      boolFields in
  Normal (verdict_of r).

(** 7. Array Validation, on a field of a record *)
Definition case_ArrayValidation (obj inputs : JsVal) : Completion Verdict :=
  let* _ := destructure inputs in
  let field := get inputs "field" in
  let minLength := get inputs "minLength" in
  let maxLength := get inputs "maxLength" in
  let enforceUnique := get inputs "enforceUnique" in
  let* arr := get_prop obj field in
  let* f := to_string field in
  match as_array arr with
  | None => Normal (failing ("Field " ++ quoted f ++ " is not an array."))
  | Some xs =>
      if below_bound (length xs) minLength then
        let* b := to_string minLength in
        Normal (failing ("Array " ++ quoted f ++ " length is below minimum " ++ b ++ "."))
      else if above_bound (length xs) maxLength then
        let* b := to_string maxLength in
        Normal (failing ("Array " ++ quoted f ++ " length exceeds maximum " ++ b ++ "."))
      else if truthy enforceUnique && negb (set_size xs =? length xs)%nat then
        Normal (failing ("Array " ++ quoted f ++ " contains duplicate elements."))
      else Normal passing
  end.

(** 8. Nested Object Validation *)
Definition case_NestedObjectValidation (obj inputs : JsVal) : Completion Verdict :=
  let* _ := destructure inputs in
  let field := get inputs "field" in
  let requiredFields := get inputs "requiredFields" in
  let* nestedObj := get_prop obj field in
  let* f := to_string field in
  if negb (String.eqb (typeof nestedObj) "object") || is_null nestedObj
     || isArray nestedObj then
    Normal (failing ("Field " ++ quoted f ++ " is not a valid nested object."))
  else
    let* rfs := iterate requiredFields in
    let* r :=
      for_each
        (fun rf =>
           let* own := hasOwnProperty_call eng nestedObj rf in
           if negb own then
             let* n := to_string rf in
             Normal (Some ("Missing nested field " ++ quoted n ++ " in object "
                           ++ quoted f ++ "."))
           else Normal None)
        rfs in
    Normal (verdict_of r).

(** 9. Pattern Matching *)
Definition case_PatternMatching (obj inputs : JsVal) : Completion Verdict :=
  let* _ := destructure inputs in
  let field := get inputs "field" in
  let pattern := get inputs "pattern" in
  let* regex := regexp_new eng pattern in
  let* v := get_prop obj field in
  let val := or_else v (VStr EmptyString) in
  let* matched := regexp_test_value eng regex val in
  if negb matched then
    let* f := to_string field in
    let* p := to_string pattern in
    Normal (failing ("Field " ++ quoted f ++ " does not match pattern: " ++ p))
  else Normal passing.

(** 10. Enumeration Validation *)
Definition case_EnumerationValidation (obj inputs : JsVal) : Completion Verdict :=
  let* _ := destructure inputs in
  let field := get inputs "field" in
  let allowedValues := get inputs "allowedValues" in
  let* val := get_prop obj field in
  let* found := includes_method eng allowedValues val in
  if negb found then
    let* f := to_string field in
    let* v := to_string val in
    let* a := to_string allowedValues in
    Normal (failing ("Field " ++ quoted f ++ " has invalid value: " ++ quoted v
                     ++ ". Allowed: " ++ a))
  else Normal passing.

(** 11. Date Field Validation *)
Definition case_DateFieldValidation (obj inputs : JsVal) : Completion Verdict :=
  let* _ := destructure inputs in
  let field := get inputs "field" in
  let validateActualDate := get inputs "validateActualDate" in
  let* dateValue := get_prop obj field in
  let* f := to_string field in
  match dateValue with
  | VStr d =>
      if truthy validateActualDate && date_is_invalid eng d then
        Normal (failing ("Field " ++ quoted f ++ " is not a valid date: " ++ d))
      else Normal passing
  | _ => Normal (failing ("Field " ++ quoted f ++ " is not a string date."))
  end.

(** 12. Nullability *)
Definition case_Nullability (obj inputs : JsVal) : Completion Verdict :=
  let* _ := destructure inputs in
  let nonNullable := get_default eng inputs "nonNullable" (VArr []) in
  let nullable := get_default eng inputs "nullable" (VArr []) in
  let* nn := iterate nonNullable in
  let* r :=
    for_each
      (fun field =>
         let* v := get_prop obj field in
         if is_null v then
           let* f := to_string field in
           Normal (Some ("Field " ++ quoted f ++ " should not be null."))
         else Normal None)
      nn in
  match r with
  | Some m => Normal (failing m)
  | None =>
      let* nl := iterate nullable in
      let* r' :=
        for_each
          (fun field =>
             let* own := hasOwnProperty_call eng obj field in
             if own then
               let* v := get_prop obj field in
               if negb (is_null v) then
                 let* f := to_string field in
                 Normal (Some ("Field " ++ quoted f ++ " must be null if present."))
               else Normal None
             else Normal None)
          nl in
      Normal (verdict_of r')
  end.

(** 13. Default Values *)
Definition case_DefaultValues (obj inputs : JsVal) : Completion Verdict :=
  let* _ := destructure inputs in
  let field := get inputs "field" in
  let defaultValue := get inputs "defaultValue" in
  let* own := hasOwnProperty_call eng obj field in
  if negb own then
    let* f := to_string field in
    let* d := to_string defaultValue in
    Normal (failing ("Missing field " ++ quoted f ++ ". Expected a default of "
                     ++ quoted d ++ "."))
  else Normal passing.

(** 14. Strict Validation *)
Definition case_StrictValidation (obj inputs : JsVal) : Completion Verdict :=
  let* _ := destructure inputs in
  let allowedFields := get_default eng inputs "allowedFields" (VArr []) in
  let* allowedSet := new_set allowedFields in
  let* keys := object_keys obj in
  let* r :=
    for_each
      (fun key =>
         if negb (set_has allowedSet (VStr key)) then
           Normal (Some ("Strict validation failed: unexpected field "
                         ++ quoted key ++ "."))
         else Normal None)
      keys in
  Normal (verdict_of r).

(** 15. Custom Logic *)
Definition case_CustomLogic (obj inputs : JsVal) : Completion Verdict :=
  let* _ := destructure inputs in
  let ifField := get inputs "ifField" in
  let thenField := get inputs "thenField" in
  let* a := get_prop obj ifField in
  if truthy a then
    let* b := get_prop obj thenField in
    if is_undefined b then
      let* i := to_string ifField in
      let* t := to_string thenField in
      Normal (failing ("If " ++ quoted i ++ " is present, " ++ quoted t
                       ++ " must be set."))
    else Normal passing
  else Normal passing.

(** 16. Data Transformation *)
Definition case_DataTransformation (obj inputs : JsVal) : Completion Verdict :=
  let* _ := destructure inputs in
  let field := get inputs "field" in
  let expectedTypeAfterCoercion := get inputs "expectedTypeAfterCoercion" in
  let* v := get_prop obj field in
  if negb (is_string (typeof v) expectedTypeAfterCoercion) then
    let* f := to_string field in
    let* t := to_string expectedTypeAfterCoercion in
    Normal (failing ("Field " ++ quoted f ++ " is not coerced to type "
                     ++ quoted t ++ "."))
  else Normal passing.

(** 17. Multi-Type Fields *)
Definition case_MultiTypeFields (obj inputs : JsVal) : Completion Verdict :=
  let* _ := destructure inputs in
  let field := get inputs "field" in
  let allowedTypes := get inputs "allowedTypes" in
  let* v := get_prop obj field in
  let actualType := typeof v in
  let* found := includes_method eng allowedTypes (VStr actualType) in
  if negb found then
    let* f := to_string field in
    let* joined := join_method eng allowedTypes ", " in
    Normal (failing ("Field " ++ quoted f ++ " has type " ++ quoted actualType
                     ++ " but must be one of [" ++ joined ++ "]."))
  else Normal passing.

(** 18. Error Messaging *)
Definition case_ErrorMessaging (obj inputs : JsVal) : Completion Verdict :=
  let* _ := destructure inputs in
  let errorField := get_default eng inputs "errorField" (VStr "error") in
  let messageContains := get inputs "messageContains" in
  let* errMsg := get_prop obj errorField in
  match errMsg with
  | VStr e =>
      if truthy messageContains then
        let* needle := to_string messageContains in
        if negb (string_includes needle e) then
          Normal (failing ("Error message does not contain: " ++ quoted needle
                           ++ ". Actual: " ++ quoted e))
        else Normal passing
      else Normal passing
  | _ =>
      let* f := to_string errorField in
      Normal (failing ("Expected a string in " ++ quoted f ++ " but got "
                       ++ typeof errMsg ++ "."))
  end.

(** 19. Read-Only Fields *)
Definition case_ReadOnlyFields (obj inputs : JsVal) : Completion Verdict :=
  let readOnlyFields := as_list inputs in
  let* r :=
    for_each
      (fun roField =>
         let* own := hasOwnProperty_method eng obj roField in
         if own then
           let* f := to_string roField in
           Normal (Some ("Read-only field " ++ quoted f
                         ++ " should not be present or changed."))
         else Normal None)
      readOnlyFields in
  Normal (verdict_of r).

(** 20. Disallowed Pattern *)
Definition case_DisallowedPattern (obj inputs : JsVal) : Completion Verdict :=
  let* _ := destructure inputs in
  let field := get inputs "field" in
  let disallowedPattern := get inputs "disallowedPattern" in
  let* re := regexp_new eng disallowedPattern in
  let* v := get_prop obj field in
  let* matched := regexp_test_value eng re (or_else v (VStr EmptyString)) in
  if matched then
    let* f := to_string field in
    let* p := to_string disallowedPattern in
    Normal (failing ("Field " ++ quoted f
                     ++ " has disallowed characters matching: " ++ p))
  else Normal passing.

(** The default branch of the switch *)
Definition case_default (assertion : string) : Verdict :=
  {| pass := true;
     msg := "Unrecognized assertion type: " ++ quoted assertion ++ ". Skipping." |}.

End Rules.

(** ** The catalog of assertion kinds *)

Inductive AssertionKind : Type :=
| SchemaCompliance | RequiredFields | NoAdditionalFields
| StringFieldValidation | NumberFieldValidation | BooleanFieldValidation
| ArrayValidation | NestedObjectValidation | PatternMatching
| EnumerationValidation | DateFieldValidation | Nullability | DefaultValues
| StrictValidation | CustomLogic | DataTransformation | MultiTypeFields
| ErrorMessaging | ReadOnlyFields | DisallowedPattern | Custom
| Unrecognized.

(** The case labels of the switch in [validateObjectLevel]. *)
Definition catalog : list (string * AssertionKind) :=
  [ ("Schema Compliance", SchemaCompliance);
    ("Required Fields", RequiredFields);
    ("No Additional Fields", NoAdditionalFields);
    ("String Field Validation", StringFieldValidation);
    ("Number Field Validation", NumberFieldValidation);
    ("Boolean Field Validation", BooleanFieldValidation);
    ("Array Validation", ArrayValidation);
    ("Nested Object Validation", NestedObjectValidation);
    ("Pattern Matching", PatternMatching);
    ("Enumeration Validation", EnumerationValidation);
    ("Date Field Validation", DateFieldValidation);
    ("Nullability", Nullability);
    ("Default Values", DefaultValues);
    ("Strict Validation", StrictValidation);
    ("Custom Logic", CustomLogic);
    ("Data Transformation", DataTransformation);
    ("Multi-Type Fields", MultiTypeFields);
    ("Error Messaging", ErrorMessaging);
    ("Read-Only Fields", ReadOnlyFields);
    ("Disallowed Pattern", DisallowedPattern);
    ("Custom", Custom) ].

Fixpoint find_kind (assertion : string) (table : list (string * AssertionKind))
  : AssertionKind :=
  match table with
  | [] => Unrecognized
  | (label, k) :: rest =>
      if String.eqb assertion label then k else find_kind assertion rest
  end.

(** Which case of the switch a kind string selects. *)
Definition kind_of (assertion : string) : AssertionKind :=
  find_kind assertion catalog.

Definition recognized (assertion : string) : bool :=
  mem_string assertion (map fst catalog).

(** ** External validator modules *)

Inductive CallOutcome : Type :=
| Returns (v : JsVal)
| Throws (t : Thrown).

(** What a call [validate(obj, rest)] does.  The callee holds a reference to
    the record, and [rest] holds the very arrays and objects the inputs
    hold, so next to changing the world outside the engine the call may
    leave the record and [rest] changed. *)
Record CallEffect (W : Type) : Type := {
  world_after : W;
  record_after : JsVal;
  rest_after : JsVal;
  outcome : CallOutcome
}.
Arguments world_after {W} _.
Arguments record_after {W} _.
Arguments rest_after {W} _.
Arguments outcome {W} _.

Definition Validator (W : Type) : Type := W -> JsVal -> JsVal -> CallEffect W.

(** The [validate] member of a module namespace. *)
Inductive Export (W : Type) : Type :=
| NotExported                       (* customModule.validate is undefined *)
| NotCallable                       (* exported, but typeof is not function *)
| Callable (validate : Validator W).
Arguments NotExported {W}.
Arguments NotCallable {W}.
Arguments Callable {W} validate.

Inductive ImportOutcome (W : Type) : Type :=
| ImportRejected (t : Thrown)
| ImportResolved (validate : Export W).
Arguments ImportRejected {W} t.
Arguments ImportResolved {W} validate.

(** [await import(specifier)] *)
Record Modules (W : Type) : Type := {
  import_module : string -> W -> W * ImportOutcome W
}.
Arguments import_module {W} _ _ _.

(** ** The engine *)

(** An assertion object [{ assertion, inputs }] and a result
    [{ assertion, passed, message }]. *)
Record AssertionObj : Type := { assertion : string; inputs : JsVal }.

Record AssertionResult : Type := {
  result_assertion : string;
  passed : bool;
  message : JsVal
}.

Section Runner.

Variable eng : Engine.
Variable W : Type.
Variable mods : Modules W.

(** What an evaluation leaves behind: the world, the record and the inputs
    it was given, and the completion of the call. *)
Definition Evaluated : Type := (W * JsVal * JsVal * Completion Verdict)%type.

Definition pure_case (w : W) (obj inputs : JsVal) (c : Completion Verdict)
  : Evaluated :=
  (w, obj, inputs, c).

(** [const { path, ...rest } = inputs]: the own enumerable properties of
    [inputs] other than [path], copied into a fresh object. *)
Definition rest_without_path (inputs : JsVal) : JsVal :=
  VObj (map (fun k => (k, get eng inputs k))
            (filter (fun k => negb (String.eqb k "path")) (own_keys inputs))).

(** The catch clause of the custom case:
    [msg = `Error running custom assertion script: ${err.message}`] *)
Definition custom_catch (err : Thrown) : Completion Verdict :=
  let* text :=
    match err with
    | ThrowEngine e => Normal (error_text eng e)
    | ThrowValue v =>
        let* m := get_prop eng v (VStr "message") in to_string eng m
    end in
  Normal (failing ("Error running custom assertion script: " ++ text)).

Definition invalid_structure : string :=
  "Custom script returned invalid structure. Must be { status: boolean, error: string }.".

(** The checks on what [validate] returned. *)
Definition custom_result (result : JsVal) : Verdict :=
  if negb (truthy result) then failing invalid_structure
  else
    match get eng result "status", get eng result "error" with
    | VBool status, VStr error =>
        if status then passing
        else failing (match error with
                      | EmptyString => "Custom assertion script failed."
                      | _ => error
                      end)
    | _, _ => failing invalid_structure
    end.

(** The inputs after a call that left [rest] as [rest_after]: [rest] is a
    fresh object, but every array or object it holds is the one the inputs
    hold under the same key. *)
Definition share_back (inputs rest_after : JsVal) : JsVal :=
  let held k := match rest_after with
                | VObj props => match lookup k props with
                                | Some v => v
                                | None => VUndefined
                                end
                | _ => VUndefined
                end in
  match inputs with
  | VObj props =>
      VObj (map (fun kv =>
                   if String.eqb (fst kv) "path" then kv
                   else (fst kv, mutated (snd kv) (held (fst kv))))
                props)
  | VArr xs =>
      VArr (map (fun iv => mutated (snd iv) (held (string_of_nat (fst iv))))
                (combine (seq 0 (length xs)) xs))
  | _ => inputs
  end.

(** The custom check bridge *)
Definition case_Custom (w : W) (obj inputs : JsVal) : Evaluated :=
  match destructure inputs with
  | Abrupt e => (w, obj, inputs, Abrupt e)
  | Normal _ =>
      let path := get eng inputs "path" in
      let rest := rest_without_path inputs in
      (* try *)
      match to_string eng path with
      | Abrupt e => (w, obj, inputs, custom_catch (ThrowEngine e))
      | Normal specifier =>
          let '(w1, imported) := import_module mods specifier w in
          match imported with
          | ImportRejected err => (w1, obj, inputs, custom_catch err)
          | ImportResolved (Callable validate) =>
              let call := validate w1 obj rest in
              (world_after call,
               mutated obj (record_after call),
               share_back inputs (rest_after call),
               match outcome call with
               | Throws err => custom_catch err
               | Returns result => Normal (custom_result result)
               end)
          | ImportResolved _ =>
              (w1, obj, inputs,
               Normal (failing "Custom script does not export a 'validate' function."))
          end
      end
  end.

(** [validateObjectLevel(obj, assertion, inputs)], awaited *)
Definition validateObjectLevel (w : W) (obj : JsVal) (assertion : string)
    (inputs : JsVal) : Evaluated :=
  match kind_of assertion with
  | SchemaCompliance => pure_case w obj inputs (case_SchemaCompliance eng obj inputs)
  | RequiredFields => pure_case w obj inputs (case_RequiredFields eng obj inputs)
  | NoAdditionalFields => pure_case w obj inputs (case_NoAdditionalFields obj inputs)
  | StringFieldValidation =>
      pure_case w obj inputs (case_StringFieldValidation eng obj inputs)
  | NumberFieldValidation =>
      pure_case w obj inputs (case_NumberFieldValidation eng obj inputs)
  | BooleanFieldValidation =>
      pure_case w obj inputs (case_BooleanFieldValidation eng obj inputs)
  | ArrayValidation => pure_case w obj inputs (case_ArrayValidation eng obj inputs)
  | NestedObjectValidation =>
      pure_case w obj inputs (case_NestedObjectValidation eng obj inputs)
  | PatternMatching => pure_case w obj inputs (case_PatternMatching eng obj inputs)
  | EnumerationValidation =>
      pure_case w obj inputs (case_EnumerationValidation eng obj inputs)
  | DateFieldValidation =>
      pure_case w obj inputs (case_DateFieldValidation eng obj inputs)
  | Nullability => pure_case w obj inputs (case_Nullability eng obj inputs)
  | DefaultValues => pure_case w obj inputs (case_DefaultValues eng obj inputs)
  | StrictValidation => pure_case w obj inputs (case_StrictValidation eng obj inputs)
  | CustomLogic => pure_case w obj inputs (case_CustomLogic eng obj inputs)
  | DataTransformation =>
      pure_case w obj inputs (case_DataTransformation eng obj inputs)
  | MultiTypeFields => pure_case w obj inputs (case_MultiTypeFields eng obj inputs)
  | ErrorMessaging => pure_case w obj inputs (case_ErrorMessaging eng obj inputs)
  | ReadOnlyFields => pure_case w obj inputs (case_ReadOnlyFields eng obj inputs)
  | DisallowedPattern => pure_case w obj inputs (case_DisallowedPattern eng obj inputs)
  | Custom => case_Custom w obj inputs
  | Unrecognized => pure_case w obj inputs (Normal (case_default assertion))
  end.

(** [classifyAssertion(assertionType)] *)
Definition arrayAssertions : list string := ["Array Validation"].

Definition classifyAssertion (assertionType : string) : bool * bool :=
  (mem_string assertionType arrayAssertions,
   negb (mem_string assertionType arrayAssertions)).

(** [validateArrayLevel(arrayData, assertion, inputs)], on the elements of
    the array *)
Definition validateArrayLevel (arrayData : list JsVal) (assertion : string)
    (inputs : JsVal) : Completion Verdict :=
  if String.eqb assertion "Array Validation" then
    let* _ := destructure inputs in
    let minLength := get eng inputs "minLength" in
    let maxLength := get eng inputs "maxLength" in
    if below_bound (length arrayData) minLength then
      let* b := to_string eng minLength in
      Normal (failing ("Array length is below minimum " ++ b
                       ++ ". Actual length = " ++ string_of_nat (length arrayData)))
    else if above_bound (length arrayData) maxLength then
      let* b := to_string eng maxLength in
      Normal (failing ("Array length exceeds maximum " ++ b
                       ++ ". Actual length = " ++ string_of_nat (length arrayData)))
    else Normal passing
  else
    Normal {| pass := true;
              msg := "Unrecognized array-level assertion: " ++ quoted assertion
                     ++ ". Skipping." |}.

(** [Array.prototype.push] *)
Definition push {A} (l : list A) (x : A) : list A := (l ++ [x])%list.

(** [typeof item !== "object" || item === null] *)
Definition not_an_object (item : JsVal) : bool :=
  negb (String.eqb (typeof item) "object") || is_null item.

(** The loop of [validateOnArrayItems] from index [i] on.  Next to the two
    lists it fills, it gives back the world, the elements and the inputs as
    the calls left them. *)
Fixpoint items_loop (w : W) (assertion : string) (inputs : JsVal) (i : nat)
    (items : list JsVal) (failedIndices : list nat) (subMessages : list string)
  : W * list JsVal * JsVal * Completion (list nat * list string) :=
  match items with
  | [] => (w, [], inputs, Normal (failedIndices, subMessages))
  | item :: rest =>
      if not_an_object item then
        let wrapped := VObj [("value", item)] in
        let '(w1, _, inputs1, local) :=
          validateObjectLevel w wrapped assertion inputs in
        match local with
        | Abrupt e => (w1, item :: rest, inputs1, Abrupt e)
        | Normal v =>
            let localPass := pass v in
            let localMsg := msg v in
            let '(w2, rest', inputs2, r) :=
              if negb localPass then
                items_loop w1 assertion inputs1 (S i) rest
                  (push failedIndices i)
                  (push subMessages
                        ("Index " ++ string_of_nat i ++ ": " ++ localMsg))
              else
                items_loop w1 assertion inputs1 (S i) rest failedIndices subMessages in
            (w2, item :: rest', inputs2, r)
        end
      else
        let '(w1, item', inputs1, local) :=
          validateObjectLevel w item assertion inputs in
        match local with
        | Abrupt e => (w1, item' :: rest, inputs1, Abrupt e)
        | Normal v =>
            let localPass := pass v in
            let localMsg := msg v in
            let '(w2, rest', inputs2, r) :=
              if negb localPass then
                items_loop w1 assertion inputs1 (S i) rest
                  (push failedIndices i)
                  (push subMessages
                        ("Index " ++ string_of_nat i ++ ": " ++ localMsg))
              else
                items_loop w1 assertion inputs1 (S i) rest failedIndices subMessages in
            (w2, item' :: rest', inputs2, r)
        end
  end.

(** [validateOnArrayItems(arrayData, assertion, inputs)], awaited, on the
    elements of the array *)
Definition validateOnArrayItems (w : W) (arrayData : list JsVal)
    (assertion : string) (inputs : JsVal)
  : W * list JsVal * JsVal * Completion Verdict :=
  let '(w', items', inputs', r) :=
    items_loop w assertion inputs 0 arrayData [] [] in
  (w', items', inputs',
   let* lists := r in
   let '(failedIndices, subMessages) := lists in
   if (0 <? length failedIndices)%nat then
     Normal (failing ("Item(s) at index ["
                      ++ concat_with ", " (map string_of_nat failedIndices)
                      ++ "] failed. Reasons: "
                      ++ concat_with " | " subMessages))
   else Normal passing).

(** The promise an async function hands to a caller that does not await it:
    an object that settles to what the call computes. *)
Definition promise_of (c : Completion Verdict) : JsVal :=
  VPromise match c with
           | Normal v => Some (VObj [("pass", VBool (pass v)); ("msg", VStr (msg v))])
           | Abrupt _ => None
           end.

(** The state around a run: the world outside the engine, and the response
    object the caller handed in. *)
Record Store : Type := { world : W; responseData : JsVal }.

Definition result (assertion : string) (passed : bool) (message : JsVal)
  : AssertionResult :=
  {| result_assertion := assertion; passed := passed; message := message |}.

(** The catch clause of the runner *)
Definition caught (assertion : string) (err : EngineError) : AssertionResult :=
  result assertion false
    (VStr ("Error during assertion " ++ quoted assertion ++ ": "
           ++ error_text eng err)).

(** The result object pushed after [const { pass, msg } = ...; if (!pass) ...] *)
Definition outcome_of (assertion : string) (pass msg : JsVal) : AssertionResult :=
  if negb (truthy pass) then result assertion false msg
  else result assertion true (VStr "Assertion passed.").

(** The body of the loop of [runAssertions]: the store and the assertion
    object as the turn leaves them, and the result it pushes. *)
Definition run_one (isArr : bool) (st : Store) (assertionObj : AssertionObj)
  : Store * AssertionObj * AssertionResult :=
  let '{| assertion := assertion; inputs := inputs |} := assertionObj in
  if isArr then
    let arrayData :=
      match as_array (responseData st) with Some xs => xs | None => [] end in
    let '(arrayCheck, objectCheck) := classifyAssertion assertion in
    if arrayCheck then
      match validateArrayLevel arrayData assertion inputs with
      | Normal v =>
          (st, assertionObj, outcome_of assertion (VBool (pass v)) (VStr (msg v)))
      | Abrupt err => (st, assertionObj, caught assertion err)
      end
    else if objectCheck then
      (* the call is not awaited: what is destructured is its promise, and
         the work of the call goes on after the run has returned *)
      let promise :=
        promise_of
          (snd (validateOnArrayItems (world st) arrayData assertion inputs)) in
      (st, assertionObj,
       outcome_of assertion (get eng promise "pass") (get eng promise "msg"))
    else
      (st, assertionObj,
       result assertion true
         (VStr ("Unrecognized assertion type: " ++ quoted assertion
                ++ ". Skipping.")))
  else
    let '(w', obj', inputs', r) :=
      validateObjectLevel (world st) (responseData st) assertion inputs in
    let st' := {| world := w'; responseData := obj' |} in
    let assertionObj' := {| assertion := assertion; inputs := inputs' |} in
    match r with
    | Normal v =>
        (st', assertionObj', outcome_of assertion (VBool (pass v)) (VStr (msg v)))
    | Abrupt err => (st', assertionObj', caught assertion err)
    end.

(** The loop of [runAssertions]: [results] is the array the results are
    pushed to. *)
Fixpoint run_loop (isArr : bool) (st : Store) (results : list AssertionResult)
    (assertions : list AssertionObj)
  : Store * list AssertionObj * list AssertionResult :=
  match assertions with
  | [] => (st, [], results)
  | assertionObj :: rest =>
      let '(st1, assertionObj', r) := run_one isArr st assertionObj in
      let '(st2, rest', results') := run_loop isArr st1 (push results r) rest in
      (st2, assertionObj' :: rest', results')
  end.

(** [runAssertions(responseData, assertions)], awaited: the store and the
    assertion objects as the run leaves them, and the results. *)
Definition runAssertions (st : Store) (assertions : list AssertionObj)
  : Store * list AssertionObj * list AssertionResult :=
  let isArr := isArray (responseData st) in
  run_loop isArr st [] assertions.

End Runner.

Arguments world {W} _.
Arguments responseData {W} _.

(** ** A concrete host, for running the engine on examples *)

(** An engine whose regular expressions are literal texts: a pattern is
    valid unless it is an unbalanced opening parenthesis, and it matches the
    subjects that contain it. *)
Definition sample_engine : Engine :=
  {| float_to_string := fun _ => "0.5";
     builtin_length := fun _ => 0;
     regexp_valid := fun p => negb (String.eqb p "(");
     regexp_test := fun p s => string_includes p s;
     date_is_invalid := fun s => negb (string_includes "-" s);
     error_text := fun e =>
       match e with
       | ErrDestructure _ => "Cannot destructure"
       | ErrReadProperty _ _ => "Cannot read properties"
       | ErrNotIterable _ => "is not iterable"
       | ErrNotAFunction f => f ++ " is not a function"
       | ErrToObject _ => "Cannot convert undefined or null to object"
       | ErrToPrimitive _ => "Cannot convert object to primitive value"
       | ErrRegExp p => "Invalid regular expression: /" ++ p ++ "/"
       end |}.

(** An [Error] object with the given message, as a thrown value. *)
Definition error_object (text : string) : Thrown :=
  ThrowValue (VObj [("message", VStr text)]).

Definition status_error (status : bool) (error : string) : JsVal :=
  VObj [("status", VBool status); ("error", VStr error)].

(** A validator that answers [r] and leaves everything as it was, counting
    its calls in the world. *)
Definition answering (r : JsVal) : Validator nat :=
  fun w obj rest =>
    {| world_after := S w; record_after := obj; rest_after := rest;
       outcome := Returns r |}.

(** A validator that passes once and, on its way, sets the field [seen]
    of the record it is given. *)
Definition marking : Validator nat :=
  fun w obj rest =>
    {| world_after := S w;
       record_after :=
         match obj with
         | VObj props => VObj (("seen", VBool true) :: props)
         | _ => obj
         end;
       rest_after := rest;
       outcome := Returns (status_error true EmptyString) |}.

(** A validator that passes and empties every array its configuration
    holds. *)
Definition emptying : Validator nat :=
  fun w obj rest =>
    {| world_after := S w;
       record_after := obj;
       rest_after :=
         match rest with
         | VObj props =>
             VObj (map (fun kv => (fst kv,
                                   match snd kv with VArr _ => VArr [] | v => v end))
                       props)
         | _ => rest
         end;
       outcome := Returns (status_error true EmptyString) |}.

Definition sample_modules : Modules nat :=
  {| import_module := fun specifier w =>
       if String.eqb specifier "./ok.js" then
         (w, ImportResolved (Callable (answering (status_error true EmptyString))))
       else if String.eqb specifier "./bad.js" then
         (w, ImportResolved (Callable (answering (status_error false "bad"))))
       else if String.eqb specifier "./async.js" then
         (w, ImportResolved
               (Callable (answering (VPromise (Some (status_error true EmptyString))))))
       else if String.eqb specifier "./shape.js" then
         (w, ImportResolved (Callable (answering (VStr "fine"))))
       else if String.eqb specifier "./throws.js" then
         (w, ImportResolved
               (Callable (fun w obj rest =>
                  {| world_after := w; record_after := obj; rest_after := rest;
                     outcome := Throws (error_object "boom") |})))
       else if String.eqb specifier "./marks.js" then
         (w, ImportResolved (Callable marking))
       else if String.eqb specifier "./empties.js" then
         (w, ImportResolved (Callable emptying))
       else if String.eqb specifier "./empty.js" then
         (w, ImportResolved NotExported)
       else if String.eqb specifier "./data.js" then
         (w, ImportResolved NotCallable)
       else
         (w, ImportRejected (error_object ("Cannot find module " ++ specifier)))
  |}.

Definition num (z : Z) : JsVal := VNum (num_of_Z z).

Definition spec_of (assertion : string) (inputs : JsVal) : AssertionObj :=
  {| assertion := assertion; inputs := inputs |}.

Definition sample_run (response : JsVal) (assertions : list AssertionObj)
  : list AssertionResult :=
  snd (runAssertions sample_engine nat sample_modules
         {| world := 0; responseData := response |} assertions).

(** ** The aggregation rule of the fan-out, in the words of the specification *)

(** The failing elements among the verdicts of the elements from index [i]
    on: each with its index and its message, in the order of the elements. *)
Fixpoint failing_entries (i : nat) (verdicts : list Verdict) : list (nat * string) :=
  match verdicts with
  | [] => []
  | v :: rest =>
      if pass v then failing_entries (S i) rest
      else (i, msg v) :: failing_entries (S i) rest
  end.

(** The sub-message of a failing element *)
Definition index_message (e : nat * string) : string :=
  "Index " ++ string_of_nat (fst e) ++ ": " ++ snd e.

(** Passed iff zero elements failed; on failure the message lists every
    failing index, then one sub-message per failing index. *)
Definition aggregate (verdicts : list Verdict) : Verdict :=
  match failing_entries 0 verdicts with
  | [] => passing
  | failed =>
      failing ("Item(s) at index ["
               ++ concat_with ", " (map (fun e => string_of_nat (fst e)) failed)
               ++ "] failed. Reasons: "
               ++ concat_with " | " (map index_message failed))
  end.

(** The record an element is evaluated as: itself if it is an object, else
    wrapped as [{ value: element }]. *)
Definition item_record (item : JsVal) : JsVal :=
  if not_an_object item then VObj [("value", item)] else item.

(** ** Ways a custom check can fail *)

(** The contract failures the specification lists for a custom check, and
    the plain rejection: [validate] returning [{ status: false, error }]. *)
Inductive BridgeFailure : Type :=
| ModuleNotFound (err : Thrown)     (* import(path) rejects with err *)
| NoValidateExport                  (* the module has no validate export *)
| ExportNotCallable                 (* validate is exported, not a function *)
| MalformedReturn (r : JsVal)       (* validate returns r, not of the shape *)
| InvocationThrows (err : Thrown)   (* validate throws err *)
| Rejects (error : string).         (* validate returns { status: false, error } *)

Section Bridge.

Variable eng : Engine.
Variable W : Type.
Variable mods : Modules W.

(** A value of the shape [{ status: boolean, error: string }]. *)
Definition well_shaped (r : JsVal) : Prop :=
  truthy r = true
  /\ exists (status : bool) (error : string),
       get eng r "status" = VBool status /\ get eng r "error" = VStr error.

(** The failure [f] is what happens when the module named [specifier] is
    imported in the world [w] and its validator, if it has one, is called on
    [obj] and [rest]. *)
Definition exhibits (w : W) (obj rest : JsVal) (specifier : string)
    (f : BridgeFailure) : Prop :=
  match f with
  | ModuleNotFound err =>
      exists w1, import_module mods specifier w = (w1, ImportRejected err)
  | NoValidateExport =>
      exists w1, import_module mods specifier w = (w1, ImportResolved NotExported)
  | ExportNotCallable =>
      exists w1, import_module mods specifier w = (w1, ImportResolved NotCallable)
  | MalformedReturn r =>
      exists w1 validate,
        import_module mods specifier w = (w1, ImportResolved (Callable validate))
        /\ outcome (validate w1 obj rest) = Returns r
        /\ ~ well_shaped r
  | InvocationThrows err =>
      exists w1 validate,
        import_module mods specifier w = (w1, ImportResolved (Callable validate))
        /\ outcome (validate w1 obj rest) = Throws err
  | Rejects error =>
      exists w1 validate,
        import_module mods specifier w = (w1, ImportResolved (Callable validate))
        /\ outcome (validate w1 obj rest) = Returns (status_error false error)
  end.

(** The text of [err.message] for a thrown error: an error the engine raises
    has its text, and an error object holds a text under [message].  A
    thrown value that holds no text there has no message. *)
Definition error_message (err : Thrown) : option string :=
  match err with
  | ThrowEngine e => Some (error_text eng e)
  | ThrowValue (VObj props) =>
      match lookup "message" props with
      | Some (VStr text) => Some text
      | _ => None
      end
  | ThrowValue _ => None
  end.

(** The message that explains a failure: for an import that is rejected or
    a call that throws, the message of the error after a fixed preamble; for
    a missing or uncallable export and for a malformed return value, a fixed
    sentence; for a rejection, the validator's own [error], or a fixed
    sentence when that is empty.  A thrown value without a message has no
    explanation of its own. *)
Definition explanation (f : BridgeFailure) : option string :=
  match f with
  | ModuleNotFound err | InvocationThrows err =>
      option_map (fun text => "Error running custom assertion script: " ++ text)
                 (error_message err)
  | NoValidateExport | ExportNotCallable =>
      Some "Custom script does not export a 'validate' function."
  | MalformedReturn _ => Some invalid_structure
  | Rejects EmptyString => Some "Custom assertion script failed."
  | Rejects error => Some error
  end.

End Bridge.

(** Whether the record with the properties [props] holds [null] under [name]. *)
Definition exactly_null (props : list (string * JsVal)) (name : string) : bool :=
  match lookup name props with
  | Some VNull => true
  | _ => false
  end.

Definition sample_store (response : JsVal) : Store nat :=
  {| world := 0; responseData := response |}.

Definition pure_assertions : list AssertionObj :=
  [spec_of "Nullability" (VObj [("nonNullable", VArr [VStr "id"])]);
   spec_of "Required Fields" (VArr [VStr "id"]);
   spec_of "Bogus" VUndefined].

Definition custom_spec (path : string) : AssertionObj :=
  spec_of "Custom" (VObj [("path", VStr path); ("config", VStr "Body is title")]).

(** The message of the non-null check of "Nullability". *)
Definition should_not_be_null (name : string) : string :=
  "Field " ++ quoted name ++ " should not be null.".

(** ** Messages of the rules *)

Definition missing_required_field (name : string) : string :=
  "Missing required field: " ++ quoted name ++ ".".

Definition unexpected_field_found (key : string) : string :=
  "Unexpected field found: " ++ quoted key ++ ".".

Definition strict_unexpected_field (key : string) : string :=
  "Strict validation failed: unexpected field " ++ quoted key ++ ".".

Definition read_only_present (name : string) : string :=
  "Read-only field " ++ quoted name ++ " should not be present or changed.".

Definition must_be_null (name : string) : string :=
  "Field " ++ quoted name ++ " must be null if present.".

Definition cannot_be_empty (name : string) : string :=
  "Field " ++ quoted name ++ " cannot be an empty string.".

Definition contains_duplicates (name : string) : string :=
  "Array " ++ quoted name ++ " contains duplicate elements.".

Definition missing_nested_field (field name : string) : string :=
  "Missing nested field " ++ quoted name ++ " in object " ++ quoted field ++ ".".

(** The case labels of [validateObjectLevel] whose rule begins by reading
    names out of [inputs]: [const { ... } = inputs]. *)
Definition destructuring_kinds : list string :=
  ["Schema Compliance"; "String Field Validation"; "Number Field Validation";
   "Array Validation"; "Nested Object Validation"; "Pattern Matching";
   "Enumeration Validation"; "Date Field Validation"; "Nullability";
   "Default Values"; "Strict Validation"; "Custom Logic"; "Data Transformation";
   "Multi-Type Fields"; "Error Messaging"; "Disallowed Pattern"; "Custom"].

(** The indices of the verdicts that did not pass, ascending. *)
Definition failed_indices (verdicts : list Verdict) : list nat :=
  filter (fun j => negb (pass (nth j verdicts passing)))
         (seq 0 (length verdicts)).

(** ** Request headers: [buildHeaders] *)

Module Headers.

(** An entry [{ key, value }] of the [headers] list of a suite, as the
    documentation of [buildHeaders] types it: two texts. *)
Record HeaderEntry : Type := { key : string; value : string }.

(** The own property [k] of an ordinary object set to [v]: overwritten where
    it stands, or added after the others. *)
Fixpoint put (k : string) (v : JsVal) (props : list (string * JsVal))
  : list (string * JsVal) :=
  match props with
  | [] => [(k, v)]
  | (k', v') :: rest =>
      if String.eqb k k' then (k', v) :: rest else (k', v') :: put k v rest
  end.

(** [result[key] = value] for a text [value], on an object that was created
    as [{}] and only ever assigned to in this way.  The name [__proto__] is
    the accessor of [Object.prototype]: its setter does nothing with a value
    that is neither an object nor [null]. *)
Definition assign_text (result : list (string * JsVal)) (h : HeaderEntry)
  : list (string * JsVal) :=
  if String.eqb (key h) "__proto__" then result
  else put (key h) (VStr (value h)) result.

(** [buildHeaders(headersArr)] *)
Definition buildHeaders (headersArr : list HeaderEntry) : JsVal :=
  VObj (fold_left assign_text headersArr []).

End Headers.

(** ** The report: the figures of [buildReportData] *)

Module Report.

(** An element [{ testCase, assertions }] of the list [sendHTTPRequest]
    returns: the description of a test case, and the results [runAssertions]
    gave for it. *)
Record TestCaseResult : Type := {
  testCase : JsVal;
  assertions : list AssertionResult
}.

(** The counters the [forEach] of [buildReportData] updates. *)
Record Counters : Type := {
  totalTests : nat;
  totalPassedTests : nat;
  totalFailedTests : nat;
  totalSkippedTests : nat
}.

(** The body of the [forEach], without the markup it appends. *)
Definition count_test_case (c : Counters) (tc : TestCaseResult) : Counters :=
  let total := totalTests c + 1 in
  let allAssertionsPass := forallb passed (assertions tc) in
  let testCasePassed := allAssertionsPass in
  if testCasePassed then
    {| totalTests := total;
       totalPassedTests := totalPassedTests c + 1;
       totalFailedTests := totalFailedTests c;
       totalSkippedTests := totalSkippedTests c |}
  else
    {| totalTests := total;
       totalPassedTests := totalPassedTests c;
       totalFailedTests := totalFailedTests c + 1;
       totalSkippedTests := totalSkippedTests c |}.

(** The figures and the status among the placeholders of the object
    [buildReportData] returns.  The rows of markup and the dates it also
    holds are not part of this record. *)
Record ReportFigures : Type := {
  STATUS_CLASS : string;
  STATUS_TEXT : string;
  ALL_TESTS_TOTAL : nat;
  ALL_TESTS_PASS : nat;
  ALL_TESTS_FAIL : nat;
  ALL_TESTS_SKIP : nat;
  ALL_TESTS_PASS_PERCENT : string;
  ALL_TESTS_FAIL_PERCENT : string;
  ALL_TESTS_SKIP_PERCENT : string
}.

Section Figures.

Variable eng : Engine.

(** [(count / total) * 100 || 0] *)
Definition percent (count total : nat) : number :=
  let p := SFmul 53 1024 (SFdiv 53 1024 (num_of_nat count) (num_of_nat total))
                 (num_of_Z 100) in
  if num_is_zero p || num_is_nan p then num_of_Z 0 else p.

(** [x.toFixed(0)]: below 10^21 in magnitude, the digits of the nearest
    integer, the larger one of two that are as near. *)
Definition toFixed_0 (x : number) : string :=
  match x with
  | S754_zero _ => "0"
  | S754_finite s m e =>
      if SFltb (S754_finite false m e) (num_of_Z (10 ^ 21)) then
        let n :=
          match e with
          | Zneg p => ((2 * Zpos m + 2 ^ Zpos p) / 2 ^ (Zpos p + 1))%Z
          | _ => (Zpos m * 2 ^ e)%Z
          end in
        (if s then "-" else EmptyString)
        ++ NilZero.string_of_uint (N.to_uint (Z.to_N n))
      else number_to_string eng x
  | _ => number_to_string eng x
  end.

(** [buildReportData(testResults, testSuiteName)]: the figures *)
Definition buildReportData (testResults : list TestCaseResult)
    (testSuiteName : JsVal) : ReportFigures :=
  let counted :=
    fold_left count_test_case testResults
      {| totalTests := 0; totalPassedTests := 0; totalFailedTests := 0;
         totalSkippedTests := 0 |} in
  let total := totalTests counted in
  let pass := totalPassedTests counted in
  let fail := totalFailedTests counted in
  let skip := totalSkippedTests counted in
  let passPercent := percent pass total in
  let failPercent := percent fail total in
  let skipPercent := percent skip total in
  let overallPassed := (fail =? 0)%nat in
  let statusText :=
    if overallPassed then "All tests passed" else "Some tests failed" in
  let statusClass := if overallPassed then "status-passed" else "status-failed" in
  {| STATUS_CLASS := statusClass;
     STATUS_TEXT := statusText;
     ALL_TESTS_TOTAL := total;
     ALL_TESTS_PASS := pass;
     ALL_TESTS_FAIL := fail;
     ALL_TESTS_SKIP := skip;
     ALL_TESTS_PASS_PERCENT := toFixed_0 passPercent;
     ALL_TESTS_FAIL_PERCENT := toFixed_0 failPercent;
     ALL_TESTS_SKIP_PERCENT := toFixed_0 skipPercent |}.

End Figures.

End Report.

(** * Properties *)

(** ** The runner: one result per assertion *)

Section RunnerFacts.

Variable eng : Engine.
Variable W : Type.
Variable mods : Modules W.


Lemma outcome_of_assertion (a : string) (p m : JsVal) :
  result_assertion (outcome_of a p m) = a.
Proof. unfold outcome_of. now destruct (truthy p). Qed.

(** Whatever path the dispatch takes, the result pushed for an assertion
    object carries that object's kind. *)
Lemma run_one_assertion (isArr : bool) (st : Store W) (a : AssertionObj) :
  result_assertion (snd (run_one eng W mods isArr st a)) = assertion a.
Proof.
  destruct a as [kind ins]. unfold run_one. cbn [assertion].
  destruct isArr.
  - destruct (classifyAssertion kind) as [arrayCheck objectCheck].
    destruct arrayCheck.
    + destruct (validateArrayLevel eng _ kind ins); cbn;
        auto using outcome_of_assertion.
    + destruct objectCheck; cbn; auto using outcome_of_assertion.
  - destruct (validateObjectLevel eng W mods (world st) (responseData st) kind ins)
      as [[[w' obj'] ins'] [v | err]]; cbn; auto using outcome_of_assertion.
Qed.

(** One turn of the loop, in projections. *)
Lemma run_loop_cons_eq (isArr : bool) (st : Store W)
    (results : list AssertionResult) (a : AssertionObj) (rest : list AssertionObj) :
  let turn := run_one eng W mods isArr st a in
  let after := run_loop eng W mods isArr (fst (fst turn))
                        (push results (snd turn)) rest in
  run_loop eng W mods isArr st results (a :: rest)
  = (fst (fst after), snd (fst turn) :: snd (fst after), snd after).
Proof.
  cbn [run_loop].
  destruct (run_one eng W mods isArr st a) as [[st1 a'] r]. cbn [fst snd].
  now destruct (run_loop eng W mods isArr st1 (push results r) rest) as [[st2 rest'] out].
Qed.

Lemma run_loop_length (isArr : bool) (assertions : list AssertionObj) :
  forall st results,
    length (snd (run_loop eng W mods isArr st results assertions))
    = length results + length assertions.
Proof.
  induction assertions as [| a rest IH]; intros st results.
  - cbn. lia.
  - rewrite run_loop_cons_eq. cbn [snd].
    rewrite IH. unfold push. rewrite length_app. cbn. lia.
Qed.

Lemma run_loop_kinds (isArr : bool) (assertions : list AssertionObj) :
  forall st results,
    map result_assertion (snd (run_loop eng W mods isArr st results assertions))
    = (map result_assertion results ++ map assertion assertions)%list.
Proof.
  induction assertions as [| a rest IH]; intros st results.
  - cbn. now rewrite app_nil_r.
  - rewrite run_loop_cons_eq. cbn [snd].
    rewrite IH. unfold push. rewrite map_app, <- app_assoc. cbn.
    now rewrite run_one_assertion.
Qed.

(** A run over a single assertion is one turn of the loop. *)
Lemma runAssertions_single (st : Store W) (a : AssertionObj) :
  snd (runAssertions eng W mods st [a])
  = [snd (run_one eng W mods (isArray (responseData st)) st a)].
Proof.
  unfold runAssertions. now rewrite run_loop_cons_eq.
Qed.

(** ** The fan-out call that is never awaited *)

(** A promise has no property named [pass] or [msg]. *)
Lemma promise_has_no_verdict (c : Completion Verdict) :
  get eng (promise_of c) "pass" = VUndefined
  /\ get eng (promise_of c) "msg" = VUndefined.
Proof. split; reflexivity. Qed.

(** On a collection, every kind other than "Array Validation" is reported as
    failed with an undefined message, whatever the fan-out computes. *)
Lemma run_one_item_level_on_array (st : Store W) (kind : string) (ins : JsVal) :
  String.eqb kind "Array Validation" = false ->
  run_one eng W mods true st (spec_of kind ins)
  = (st, spec_of kind ins, result kind false VUndefined).
Proof.
  intros Hk. unfold run_one, spec_of, classifyAssertion, arrayAssertions.
  cbn [mem_string existsb]. rewrite Hk. cbn [orb negb].
  reflexivity.
Qed.

(** The array of results is only ever appended to. *)
Lemma run_loop_results (isArr : bool) (assertions : list AssertionObj) :
  forall st results,
    run_loop eng W mods isArr st results assertions
    = (fst (run_loop eng W mods isArr st [] assertions),
       (results ++ snd (run_loop eng W mods isArr st [] assertions))%list).
Proof.
  induction assertions as [| a rest IH]; intros st results.
  - cbn. now rewrite app_nil_r.
  - rewrite !run_loop_cons_eq. cbv zeta.
    rewrite IH. rewrite (IH _ (push [] _)). cbn [fst snd].
    unfold push. now rewrite <- app_assoc.
Qed.

(** The result of the first assertion object heads the list, whatever it is,
    and the loop goes on with the remaining ones. *)
Lemma run_loop_cons (isArr : bool) (st : Store W) (a : AssertionObj)
    (rest : list AssertionObj) :
  snd (run_loop eng W mods isArr st [] (a :: rest))
  = snd (run_one eng W mods isArr st a)
    :: snd (run_loop eng W mods isArr
              (fst (fst (run_one eng W mods isArr st a))) [] rest).
Proof.
  rewrite run_loop_cons_eq. cbv zeta. cbn [snd].
  now rewrite run_loop_results.
Qed.

(** On a record response the evaluation is awaited inside the try block: an
    error it raises becomes a failed result whose message carries the text
    of the error. *)
Lemma run_one_catches_on_record
    (st : Store W) (kind : string) (ins : JsVal) (w' : W) (obj' ins' : JsVal)
    (err : EngineError) :
  validateObjectLevel eng W mods (world st) (responseData st) kind ins
  = (w', obj', ins', Abrupt err) ->
  snd (run_one eng W mods false st (spec_of kind ins))
  = result kind false
      (VStr ("Error during assertion " ++ quoted kind ++ ": "
             ++ error_text eng err)).
Proof. intros H. unfold run_one, spec_of. now rewrite H. Qed.

(** C2: for every response and every list of assertion objects, the list
    [runAssertions] returns has as many results as there are assertion
    objects, and the i-th result carries the kind of the i-th assertion
    object. *)
Theorem runAssertions_one_result_per_spec
    (st : Store W) (assertions : list AssertionObj) :
  length (snd (runAssertions eng W mods st assertions)) = length assertions
  /\ map result_assertion (snd (runAssertions eng W mods st assertions))
     = map assertion assertions.
Proof.
  unfold runAssertions. split.
  - now rewrite run_loop_length.
  - now rewrite run_loop_kinds.
Qed.

(** C1: on a collection, whatever its elements, the item-level numeric
    check is reported as failed with an undefined message: [runAssertions]
    does not await the fan-out and reads [pass] and [msg] off its promise.
    The fan-out itself, awaited, passes on [[{a: 1}]], where zero elements
    fail, and on [[{a:1},{a:"x"},{a:3}]] it fails listing index 1 only. *)
Theorem runAssertions_loses_fan_out_verdict
    (w : W) (items : list JsVal) (ins : JsVal) :
  let kind := "Number Field Validation" in
  let fields := VArr [VStr "a"] in
  let good := [VObj [("a", num 1)]] in
  let mixed := [VObj [("a", num 1)]; VObj [("a", VStr "x")]; VObj [("a", num 3)]] in
  snd (runAssertions eng W mods {| world := w; responseData := VArr items |}
                     [spec_of kind ins])
  = [result kind false VUndefined]
  /\ snd (validateOnArrayItems eng W mods w good kind fields) = Normal passing
  /\ snd (validateOnArrayItems eng W mods w mixed kind fields)
     = Normal (failing ("Item(s) at index [1] failed. Reasons: Index 1: Field "
                        ++ quoted "a" ++ " is not a number.")).
Proof. repeat split; reflexivity. Qed.

(** C3: "Enumeration Validation" without [allowedValues] raises a TypeError.
    On the record [{a: 1}] the runner catches it, the message of the result
    carries the text of the error, and the assertion after it is evaluated;
    on the collection [[{a: 1}]] the error is raised inside the fan-out,
    which is not awaited, and the result has an undefined message. *)
Theorem runAssertions_drops_exception_on_array (w : W) :
  let kind := "Enumeration Validation" in
  let ins := VObj [("field", VStr "a")] in
  let next := spec_of "Required Fields" (VArr [VStr "a"]) in
  let record := VObj [("a", num 1)] in
  let err := ErrReadProperty VUndefined (VStr "includes") in
  snd (runAssertions eng W mods {| world := w; responseData := record |}
                     [spec_of kind ins; next])
  = [result kind false
       (VStr ("Error during assertion " ++ quoted kind ++ ": "
              ++ error_text eng err));
     result "Required Fields" true (VStr "Assertion passed.")]
  /\ snd (validateOnArrayItems eng W mods w [record] kind ins) = Abrupt err
  /\ snd (runAssertions eng W mods {| world := w; responseData := VArr [record] |}
                        [spec_of kind ins; next])
     = [result kind false VUndefined;
        result "Required Fields" false VUndefined].
Proof. repeat split; reflexivity. Qed.

(** The default branch of the switch gives a passing verdict whose message
    says the kind is unrecognized. *)
Lemma validateObjectLevel_unrecognized
    (w : W) (obj : JsVal) (kind : string) (ins : JsVal) :
  kind_of kind = Unrecognized ->
  validateObjectLevel eng W mods w obj kind ins
  = (w, obj, ins, Normal (case_default kind)).
Proof.
  intros Hk. unfold validateObjectLevel. now rewrite Hk.
Qed.

(** The runner copies the message of a verdict only when the verdict fails. *)
Lemma run_one_unrecognized_on_record (st : Store W) (kind : string) (ins : JsVal) :
  kind_of kind = Unrecognized ->
  run_one eng W mods false st (spec_of kind ins)
  = (st, spec_of kind ins, result kind true (VStr "Assertion passed.")).
Proof.
  intros Hk. unfold run_one, spec_of.
  rewrite validateObjectLevel_unrecognized by assumption.
  now destruct st.
Qed.

(** The classifier answers [objectCheck] exactly when it does not answer
    [arrayCheck]: the last branch of the dispatch on a collection, which
    would report an unrecognized kind, is never taken. *)
Lemma classifyAssertion_exclusive (kind : string) :
  snd (classifyAssertion kind) = negb (fst (classifyAssertion kind)).
Proof. reflexivity. Qed.

Lemma unrecognized_is_item_level (kind : string) :
  kind_of kind = Unrecognized -> String.eqb kind "Array Validation" = false.
Proof.
  intros Hk. destruct (String.eqb_spec kind "Array Validation") as [-> | _];
    [discriminate Hk | reflexivity].
Qed.

Lemma run_one_unrecognized_on_array (st : Store W) (kind : string) (ins : JsVal) :
  kind_of kind = Unrecognized ->
  run_one eng W mods true st (spec_of kind ins)
  = (st, spec_of kind ins, result kind false VUndefined).
Proof.
  intros Hk. apply run_one_item_level_on_array.
  now apply unrecognized_is_item_level.
Qed.

(** C4: for the kind "Bogus", which no case of the switch recognizes, the
    record evaluator answers a passing verdict with the diagnostic message;
    the runner reports a record response as passed with the message
    "Assertion passed.", and a collection response as failed with an
    undefined message. *)
Theorem runAssertions_unrecognized_kind
    (w : W) (props : list (string * JsVal)) (items : list JsVal) (ins : JsVal) :
  snd (validateObjectLevel eng W mods w (VObj props) "Bogus" ins)
  = Normal {| pass := true;
              msg := "Unrecognized assertion type: " ++ quoted "Bogus"
                     ++ ". Skipping." |}
  /\ snd (runAssertions eng W mods {| world := w; responseData := VObj props |}
                        [spec_of "Bogus" ins])
     = [result "Bogus" true (VStr "Assertion passed.")]
  /\ snd (runAssertions eng W mods {| world := w; responseData := VArr items |}
                        [spec_of "Bogus" ins])
     = [result "Bogus" false VUndefined].
Proof.
  split; [reflexivity | split].
  - rewrite runAssertions_single. cbn [snd isArray as_array responseData].
    now rewrite run_one_unrecognized_on_record.
  - rewrite runAssertions_single. cbn [snd isArray as_array responseData].
    now rewrite run_one_item_level_on_array.
Qed.

(** C10: for every kind and every inputs value, the fan-out over the empty
    collection passes, and it evaluates nothing: the world is as it was.
    On a single empty record "Required Fields" fails for whatever field it
    requires first. *)
Theorem validateOnArrayItems_empty_passes
    (w : W) (kind : string) (ins : JsVal) (name : string) (others : list JsVal) :
  validateOnArrayItems eng W mods w [] kind ins = (w, [], ins, Normal passing)
  /\ snd (validateObjectLevel eng W mods w (VObj []) "Required Fields"
            (VArr (VStr name :: others)))
     = Normal (failing ("Missing required field: " ++ quoted name ++ ".")).
Proof. split; reflexivity. Qed.

End RunnerFacts.

(** ** Kinds other than "Custom" leave the store alone *)

Lemma kind_of_Custom (kind : string) : kind_of kind = Custom -> kind = "Custom".
Proof.
  unfold kind_of, catalog. cbn [find_kind].
  repeat match goal with
         | |- context [String.eqb kind ?label] =>
             destruct (String.eqb_spec kind label) as [-> | _];
             [ first [ discriminate | reflexivity ] | ]
         end.
  discriminate.
Qed.

(** The default branch is taken exactly by the kinds outside the catalog. *)
Lemma unrecognized_iff_outside_catalog (kind : string) :
  kind_of kind = Unrecognized <-> recognized kind = false.
Proof.
  unfold kind_of, recognized, catalog.
  cbn [find_kind map fst mem_string existsb].
  repeat match goal with
         | |- context [String.eqb kind ?label] =>
             destruct (String.eqb kind label);
             [ cbn [orb]; split; discriminate | ]
         end.
  cbn [orb]. tauto.
Qed.

Section Purity.

Variable eng : Engine.
Variable W : Type.
Variable mods : Modules W.

Lemma validateObjectLevel_leaves_store
    (w : W) (obj : JsVal) (kind : string) (ins : JsVal) :
  kind <> "Custom" ->
  fst (validateObjectLevel eng W mods w obj kind ins) = (w, obj, ins).
Proof.
  intros Hk. unfold validateObjectLevel.
  destruct (kind_of kind) eqn:E; try reflexivity.
  now apply kind_of_Custom in E.
Qed.

Lemma run_one_leaves_store (isArr : bool) (st : Store W) (a : AssertionObj) :
  assertion a <> "Custom" ->
  fst (run_one eng W mods isArr st a) = (st, a).
Proof.
  destruct a as [kind ins]. cbn [assertion]. intros Hk. unfold run_one.
  destruct isArr.
  - destruct (classifyAssertion kind) as [arrayCheck objectCheck].
    destruct arrayCheck; [| destruct objectCheck]; try reflexivity.
    now destruct (validateArrayLevel eng _ kind ins).
  - pose proof (validateObjectLevel_leaves_store
                  (world st) (responseData st) kind ins Hk) as E.
    destruct (validateObjectLevel eng W mods (world st) (responseData st) kind ins)
      as [[[w' obj'] ins'] r].
    cbn in E. injection E as -> -> ->. destruct st. now destruct r.
Qed.

Lemma run_loop_leaves_store (isArr : bool) (assertions : list AssertionObj) :
  Forall (fun a => assertion a <> "Custom") assertions ->
  forall st results,
    fst (run_loop eng W mods isArr st results assertions) = (st, assertions).
Proof.
  induction 1 as [| a rest Ha _ IH]; intros st results.
  - reflexivity.
  - rewrite run_loop_cons_eq. cbv zeta. cbn [fst snd].
    rewrite (run_one_leaves_store isArr st a Ha). cbn [fst snd].
    now rewrite IH.
Qed.

(** C8: when no assertion object is of kind "Custom", a run leaves the
    world, the response object and the assertion objects as it found them,
    so running again on what it left gives the very same list of results. *)
Theorem runAssertions_idempotent (st : Store W) (assertions : list AssertionObj) :
  Forall (fun a => assertion a <> "Custom") assertions ->
  let first := runAssertions eng W mods st assertions in
  fst first = (st, assertions)
  /\ snd (runAssertions eng W mods (fst (fst first)) (snd (fst first)))
     = snd first.
Proof.
  intros Hpure first.
  assert (fst first = (st, assertions)) as E
      by (unfold first, runAssertions; now apply run_loop_leaves_store).
  split; [exact E | now rewrite E].
Qed.

End Purity.

Lemma runAssertions_idempotent_witness :
  Forall (fun a => assertion a <> "Custom") pure_assertions
  /\ fst (runAssertions sample_engine nat sample_modules
            (sample_store (VObj [("id", VNull)])) pure_assertions)
     = (sample_store (VObj [("id", VNull)]), pure_assertions)
  /\ snd (runAssertions sample_engine nat sample_modules
            (fst (fst (runAssertions sample_engine nat sample_modules
                         (sample_store (VObj [("id", VNull)])) pure_assertions)))
            (snd (fst (runAssertions sample_engine nat sample_modules
                         (sample_store (VObj [("id", VNull)])) pure_assertions))))
     = snd (runAssertions sample_engine nat sample_modules
              (sample_store (VObj [("id", VNull)])) pure_assertions).
Proof.
  assert (Forall (fun a => assertion a <> "Custom") pure_assertions) as H
      by (repeat constructor; discriminate).
  split; [exact H |].
  exact (runAssertions_idempotent sample_engine nat sample_modules
           (sample_store (VObj [("id", VNull)])) pure_assertions H).
Defined.

(** With a custom validator in the list the hypothesis is needed.  The
    validator of [marks.js] writes to the record it is handed, and the second
    run reports a field the first run did not see; the validator of
    [empties.js] empties the array its configuration holds, and the
    assertion object is left changed. *)
Example custom_validator_changes_later_runs :
  let st := sample_store (VObj [("a", num 1)]) in
  let assertions :=
    [spec_of "No Additional Fields" (VArr [VStr "a"]);
     spec_of "Custom" (VObj [("path", VStr "./marks.js")])] in
  let first := runAssertions sample_engine nat sample_modules st assertions in
  let second :=
    runAssertions sample_engine nat sample_modules
      (fst (fst first)) (snd (fst first)) in
  map passed (snd first) = [true; true]
  /\ map passed (snd second) = [false; true].
Proof. split; reflexivity. Qed.

Example custom_validator_changes_its_inputs :
  snd (fst (runAssertions sample_engine nat sample_modules
              (sample_store (VObj [("a", num 1)]))
              [spec_of "Custom"
                 (VObj [("path", VStr "./empties.js");
                        ("limits", VArr [num 1; num 2])])]))
  = [spec_of "Custom"
       (VObj [("path", VStr "./empties.js"); ("limits", VArr [])])].
Proof. reflexivity. Qed.

(** ** The fan-out, when awaited *)

(** The indices the aggregation rule lists are ascending, so none is listed
    twice. *)
Lemma failing_entries_ascending (verdicts : list Verdict) :
  forall i,
    StronglySorted lt (map fst (failing_entries i verdicts))
    /\ Forall (fun j => i <= j) (map fst (failing_entries i verdicts)).
Proof.
  induction verdicts as [| v rest IH]; intros i; cbn [failing_entries].
  - split; constructor.
  - destruct (IH (S i)) as [Hsorted Hbound].
    assert (Forall (fun j => i < j) (map fst (failing_entries (S i) rest))) as Hlt
        by (eapply Forall_impl; [| exact Hbound]; cbn; lia).
    destruct (pass v); cbn [map fst].
    + split; [exact Hsorted |].
      eapply Forall_impl; [| exact Hlt]. cbn. lia.
    + split; [now constructor |].
      constructor; [lia |].
      eapply Forall_impl; [| exact Hlt]. cbn. lia.
Qed.

(** An index is listed, with a message, exactly when the element at that
    index has a failing verdict with that message. *)
Lemma failing_entries_complete (verdicts : list Verdict) :
  forall i j m,
    In (j, m) (failing_entries i verdicts)
    <-> i <= j
        /\ exists v, nth_error verdicts (j - i) = Some v
                     /\ pass v = false /\ msg v = m.
Proof.
  induction verdicts as [| v rest IH]; intros i j m; cbn [failing_entries].
  - split; [intros [] |]. intros (_ & v & Hnth & _).
    now destruct (j - i).
  - assert (In (j, m) (failing_entries (S i) rest)
            <-> i < j /\ exists v', nth_error (v :: rest) (j - i) = Some v'
                                    /\ pass v' = false /\ msg v' = m) as Htail.
    { rewrite IH. split.
      - intros (Hle & v' & Hnth & Hrest). split; [lia |].
        exists v'. split; [| exact Hrest].
        replace (j - i) with (S (j - S i)) by lia. exact Hnth.
      - intros (Hlt & v' & Hnth & Hrest). split; [lia |].
        exists v'. split; [| exact Hrest].
        replace (j - i) with (S (j - S i)) in Hnth by lia. exact Hnth. }
    destruct (pass v) eqn:Hpass.
    + rewrite Htail. split.
      * intros (Hlt & Hex). split; [lia | exact Hex].
      * intros (Hle & v' & Hnth & Hfail & Hmsg).
        destruct (Nat.eq_dec i j) as [<- | Hne].
        -- rewrite Nat.sub_diag in Hnth. injection Hnth as <-. congruence.
        -- split; [lia |]. now exists v'.
    + cbn [In]. rewrite Htail. split.
      * intros [[= <- <-] | (Hlt & Hex)].
        -- split; [lia |]. exists v. now rewrite Nat.sub_diag.
        -- split; [lia | exact Hex].
      * intros (Hle & v' & Hnth & Hfail & Hmsg).
        destruct (Nat.eq_dec i j) as [<- | Hne].
        -- left. rewrite Nat.sub_diag in Hnth. injection Hnth as <-.
           now rewrite Hmsg.
        -- right. split; [lia |]. now exists v'.
Qed.

Lemma failing_entries_nil (verdicts : list Verdict) :
  forall i, failing_entries i verdicts = [] <-> forallb pass verdicts = true.
Proof.
  induction verdicts as [| v rest IH]; intros i; cbn [failing_entries forallb].
  - tauto.
  - destruct (pass v); cbn [andb]; [apply IH |]. split; discriminate.
Qed.

(** The aggregate passes iff zero elements failed. *)
Lemma aggregate_passes_iff_none_failed (verdicts : list Verdict) :
  pass (aggregate verdicts) = forallb pass verdicts.
Proof.
  unfold aggregate.
  destruct (failing_entries 0 verdicts) as [| e rest] eqn:E.
  - symmetry. now apply (failing_entries_nil verdicts 0).
  - cbn [pass failing]. symmetry. apply not_true_is_false.
    intros H. apply (failing_entries_nil verdicts 0) in H. congruence.
Qed.

Section FanOutFacts.

Variable eng : Engine.
Variable W : Type.
Variable mods : Modules W.

Lemma validateObjectLevel_pure
    (w : W) (obj : JsVal) (kind : string) (ins : JsVal) :
  kind <> "Custom" ->
  validateObjectLevel eng W mods w obj kind ins
  = (w, obj, ins, snd (validateObjectLevel eng W mods w obj kind ins)).
Proof.
  intros Hk.
  pose proof (validateObjectLevel_leaves_store eng W mods w obj kind ins Hk) as E.
  destruct (validateObjectLevel eng W mods w obj kind ins) as [[[w' obj'] ins'] r].
  cbn in *. now injection E as -> -> ->.
Qed.

(** For a kind other than "Custom", when every element is evaluated to a
    verdict, the loop leaves world, elements and inputs alone and appends
    the failing entries to its two lists. *)
Lemma items_loop_pure (w : W) (kind : string) (ins : JsVal) :
  kind <> "Custom" ->
  forall items verdicts i failedIndices subMessages,
    map (fun item =>
           snd (validateObjectLevel eng W mods w (item_record item) kind ins)) items
    = map Normal verdicts ->
    items_loop eng W mods w kind ins i items failedIndices subMessages
    = (w, items, ins,
       Normal ((failedIndices ++ map fst (failing_entries i verdicts))%list,
               (subMessages ++ map index_message (failing_entries i verdicts))%list)).
Proof.
  intros Hk.
  induction items as [| item rest IH];
    intros [| v verdicts] i failedIndices subMessages Hall;
    try discriminate Hall.
  - cbn. now rewrite !app_nil_r.
  - cbn [map] in Hall. injection Hall as Hhead Htail.
    cbn [items_loop failing_entries]. unfold item_record in Hhead.
    destruct (not_an_object item).
    + rewrite (validateObjectLevel_pure _ _ _ _ Hk), Hhead.
      destruct (pass v); cbn [negb]; rewrite (IH _ _ _ _ Htail); [reflexivity |].
      unfold push. now rewrite <- !app_assoc.
    + rewrite (validateObjectLevel_pure _ _ _ _ Hk), Hhead.
      destruct (pass v); cbn [negb]; rewrite (IH _ _ _ _ Htail); [reflexivity |].
      unfold push. now rewrite <- !app_assoc.
Qed.

(** The fan-out, awaited, follows the aggregation rule of the specification:
    for a kind other than "Custom", when every element is evaluated to a
    verdict, its answer is the aggregate of the verdicts. *)
Lemma validateOnArrayItems_aggregates
    (w : W) (kind : string) (ins : JsVal) (items : list JsVal)
    (verdicts : list Verdict) :
  kind <> "Custom" ->
  map (fun item =>
         snd (validateObjectLevel eng W mods w (item_record item) kind ins)) items
  = map Normal verdicts ->
  validateOnArrayItems eng W mods w items kind ins
  = (w, items, ins, Normal (aggregate verdicts)).
Proof.
  intros Hk Hall. unfold validateOnArrayItems.
  rewrite (items_loop_pure w kind ins Hk items verdicts 0 [] [] Hall).
  cbn [app bind]. unfold aggregate.
  destruct (failing_entries 0 verdicts) as [| e rest]; [reflexivity |].
  cbn [map length Nat.ltb Nat.leb].
  now rewrite !map_map.
Qed.

End FanOutFacts.

(** ** The array-level evaluator *)

Section ArrayLevel.

Variable eng : Engine.
Variable W : Type.
Variable mods : Modules W.

(** The verdict of the array-level "Array Validation" is settled by the
    length of the collection and the two bounds. *)
Lemma validateArrayLevel_length_only
    (arrayData : list JsVal) (props : list (string * JsVal)) :
  exists m,
    validateArrayLevel eng arrayData "Array Validation" (VObj props)
    = Normal
        {| pass :=
             negb (below_bound (length arrayData) (get eng (VObj props) "minLength")
                   || above_bound (length arrayData) (get eng (VObj props) "maxLength"));
           msg := m |}.
Proof.
  unfold validateArrayLevel.
  change (String.eqb "Array Validation" "Array Validation") with true.
  cbn [destructure is_nullish bind].
  destruct (below_bound (length arrayData) (get eng (VObj props) "minLength")) eqn:Hlo.
  - destruct (get eng (VObj props) "minLength"); try discriminate Hlo.
    cbn. eexists. reflexivity.
  - destruct (above_bound (length arrayData) (get eng (VObj props) "maxLength")) eqn:Hhi.
    + destruct (get eng (VObj props) "maxLength"); try discriminate Hhi.
      cbn. eexists. reflexivity.
    + cbn. eexists. reflexivity.
Qed.

(** C5, as amended: for every collection and every "Array Validation"
    assertion whose inputs are an object, the runner reports the collection
    as passed exactly when its length is neither below a numeric [minLength]
    nor above a numeric [maxLength]; neither [enforceUnique] nor the
    elements are consulted. *)
Theorem array_level_checks_length_only
    (w : W) (items : list JsVal) (props : list (string * JsVal)) :
  exists m,
    snd (runAssertions eng W mods {| world := w; responseData := VArr items |}
           [spec_of "Array Validation" (VObj props)])
    = [result "Array Validation"
         (negb (below_bound (length items) (get eng (VObj props) "minLength")
                || above_bound (length items) (get eng (VObj props) "maxLength")))
         (VStr m)].
Proof.
  rewrite runAssertions_single. cbn [snd isArray as_array responseData].
  unfold run_one, spec_of, classifyAssertion, arrayAssertions.
  cbn [mem_string existsb String.eqb Ascii.eqb Bool.eqb orb negb as_array responseData].
  destruct (validateArrayLevel_length_only items props) as [m E].
  rewrite E. cbn [snd pass msg]. unfold outcome_of. cbn [truthy].
  destruct (negb (below_bound (length items) (get eng (VObj props) "minLength")
                  || above_bound (length items) (get eng (VObj props) "maxLength")));
    cbn [negb]; eexists; reflexivity.
Qed.

End ArrayLevel.

(** C5, counterexample: uniqueness is requested and the collection [[1, 1]]
    repeats an element, yet the array-level evaluation passes. *)
Lemma array_level_ignores_enforceUnique :
  truthy (get sample_engine (VObj [("enforceUnique", VBool true)]) "enforceUnique")
  = true
  /\ set_size [num 1; num 1] <> length [num 1; num 1]
  /\ sample_run (VArr [num 1; num 1])
       [spec_of "Array Validation" (VObj [("enforceUnique", VBool true)])]
     = [result "Array Validation" true (VStr "Assertion passed.")].
Proof. repeat split. discriminate. Qed.

(** ** The custom check bridge *)

Section BridgeFacts.

Variable eng : Engine.
Variable W : Type.
Variable mods : Modules W.

(** On a record response the runner awaits the bridge and reports its
    verdict, or the error it raised. *)
Lemma run_one_custom_on_record (st : Store W) (ins : JsVal) :
  snd (run_one eng W mods false st (spec_of "Custom" ins))
  = match snd (case_Custom eng W mods (world st) (responseData st) ins) with
    | Normal v => outcome_of "Custom" (VBool (pass v)) (VStr (msg v))
    | Abrupt err => caught eng "Custom" err
    end.
Proof.
  unfold run_one, spec_of, validateObjectLevel.
  change (kind_of "Custom") with Custom.
  destruct (case_Custom eng W mods (world st) (responseData st) ins)
    as [[[w' obj'] ins'] [v | err]]; reflexivity.
Qed.

(** The verdict of the bridge, once the module is imported. *)
Lemma case_Custom_imported
    (w w1 : W) (obj : JsVal) (iprops : list (string * JsVal))
    (specifier : string) (imported : ImportOutcome W) :
  to_string eng (get eng (VObj iprops) "path") = Normal specifier ->
  import_module mods specifier w = (w1, imported) ->
  snd (case_Custom eng W mods w obj (VObj iprops))
  = match imported with
    | ImportRejected err => custom_catch eng err
    | ImportResolved (Callable validate) =>
        match outcome (validate w1 obj (rest_without_path eng (VObj iprops))) with
        | Throws err => custom_catch eng err
        | Returns r => Normal (custom_result eng r)
        end
    | ImportResolved _ =>
        Normal (failing "Custom script does not export a 'validate' function.")
    end.
Proof.
  intros Hpath Himport. unfold case_Custom.
  cbn [destructure is_nullish]. rewrite Hpath, Himport.
  now destruct imported as [err | [ | | validate]].
Qed.

Lemma custom_catch_fails (err : Thrown) (v : Verdict) :
  custom_catch eng err = Normal v -> pass v = false.
Proof.
  unfold custom_catch.
  destruct err as [e | thrown]; cbn [bind].
  - now intros [= <-].
  - destruct (get_prop eng thrown (VStr "message")) as [m | e]; cbn [bind];
      [| discriminate].
    destruct (to_string eng m) as [text | e]; cbn [bind]; [| discriminate].
    now intros [= <-].
Qed.

(** When what was thrown is an [Error] object, the message reported is the
    fixed prefix followed by the message of the error. *)
Lemma custom_catch_error_object (text : string) :
  custom_catch eng (error_object text)
  = Normal (failing ("Error running custom assertion script: " ++ text)).
Proof. reflexivity. Qed.

Lemma custom_result_true (props : list (string * JsVal)) (error : string) :
  lookup "status" props = Some (VBool true) ->
  lookup "error" props = Some (VStr error) ->
  custom_result eng (VObj props) = passing.
Proof.
  intros Hs He. unfold custom_result, get, own_value.
  cbn [truthy negb]. now rewrite Hs, He.
Qed.

Lemma custom_result_promise (settled : option JsVal) :
  custom_result eng (VPromise settled) = failing invalid_structure.
Proof. reflexivity. Qed.

Lemma custom_result_malformed (r : JsVal) :
  ~ well_shaped eng r -> custom_result eng r = failing invalid_structure.
Proof.
  intros Hbad. unfold custom_result.
  destruct (truthy r) eqn:Ht; cbn [negb]; [| reflexivity].
  destruct (get eng r "status") eqn:Hs; try reflexivity.
  destruct (get eng r "error") eqn:He; try reflexivity.
  exfalso. apply Hbad. split; [assumption |]. eauto.
Qed.

Lemma custom_result_rejects (error : string) :
  exists m,
    explanation eng (Rejects error) = Some m
    /\ m <> EmptyString
    /\ custom_result eng (status_error false error) = failing m.
Proof.
  destruct error as [| c rest]; eexists; (split; [reflexivity |]);
    split; (discriminate || reflexivity).
Qed.

(** The catch clause of the bridge reports an error that has a message with
    that message after the preamble. *)
Lemma custom_catch_error_message (err : Thrown) (text : string) :
  error_message eng err = Some text ->
  custom_catch eng err
  = Normal (failing ("Error running custom assertion script: " ++ text)).
Proof.
  destruct err as [e | v]; cbn [error_message].
  - now intros [= <-].
  - destruct v as [| | | | | | props | | |]; try discriminate.
    destruct (lookup "message" props) as [held |] eqn:Hm; [| discriminate].
    destruct held; try discriminate. intros [= <-].
    unfold custom_catch, get_prop. cbn [is_nullish to_string bind].
    unfold get, own_value. now rewrite Hm.
Qed.

(** Whatever is thrown, the verdict of the catch clause has a message. *)
Lemma custom_catch_says_something (err : Thrown) (v : Verdict) :
  custom_catch eng err = Normal v -> msg v <> EmptyString.
Proof.
  unfold custom_catch.
  destruct (match err with
            | ThrowEngine e => Normal (error_text eng e)
            | ThrowValue v0 =>
                let* m := get_prop eng v0 (VStr "message") in to_string eng m
            end) as [text | e]; cbn [bind]; [| discriminate].
  intros [= <-]. discriminate.
Qed.

(** C6, as amended: on a record response, when the module a "Custom"
    assertion names exports a callable [validate], what [validate] returns is
    inspected as it is, without awaiting it.  Returning an object whose
    [status] is [true] and whose [error] is a string gives a passed result;
    returning a promise, whatever it resolves to, gives a failed result that
    reports an invalid structure. *)
Theorem custom_validator_is_not_awaited
    (st : Store W) (iprops : list (string * JsVal)) (specifier : string)
    (w1 : W) (validate : Validator W) (r : JsVal) :
  isArray (responseData st) = false ->
  to_string eng (get eng (VObj iprops) "path") = Normal specifier ->
  import_module mods specifier (world st) = (w1, ImportResolved (Callable validate)) ->
  outcome (validate w1 (responseData st) (rest_without_path eng (VObj iprops)))
  = Returns r ->
  (forall props error,
      r = VObj props ->
      lookup "status" props = Some (VBool true) ->
      lookup "error" props = Some (VStr error) ->
      snd (runAssertions eng W mods st [spec_of "Custom" (VObj iprops)])
      = [result "Custom" true (VStr "Assertion passed.")])
  /\ (forall settled,
        r = VPromise settled ->
        snd (runAssertions eng W mods st [spec_of "Custom" (VObj iprops)])
        = [result "Custom" false (VStr invalid_structure)]).
Proof.
  intros Hrecord Hpath Himport Hcall.
  rewrite runAssertions_single, Hrecord, run_one_custom_on_record.
  rewrite (case_Custom_imported _ _ _ _ _ _ Hpath Himport), Hcall.
  split.
  - intros props error -> Hs He. now rewrite (custom_result_true _ _ Hs He).
  - intros settled ->. now rewrite custom_result_promise.
Qed.

(** A thrown error, on a record response: the result is a failed one with a
    message, and the message is the explanation when the error has one. *)
Lemma thrown_is_reported (kind : string) (err : Thrown) :
  let reported :=
    match custom_catch eng err with
    | Normal v => outcome_of kind (VBool (pass v)) (VStr (msg v))
    | Abrupt e => caught eng kind e
    end in
  (exists m, reported = result kind false (VStr m) /\ m <> EmptyString)
  /\ (forall text,
         error_message eng err = Some text ->
         reported
         = result kind false
             (VStr ("Error running custom assertion script: " ++ text))).
Proof.
  cbv zeta. split.
  - pose proof (custom_catch_fails err) as Hfails.
    pose proof (custom_catch_says_something err) as Hsays.
    destruct (custom_catch eng err) as [v | e].
    + destruct v as [p m]. specialize (Hfails _ eq_refl).
      specialize (Hsays _ eq_refl). cbn in Hfails, Hsays. subst p.
      exists m. now split.
    + eexists. split; [reflexivity | discriminate].
  - intros text Htext. now rewrite (custom_catch_error_message _ _ Htext).
Qed.

(** C7: a "Custom" assertion whose inputs are an object, and a contract
    failure (module not found, no [validate] export, export not callable,
    return value not of the shape, invocation throwing) or the rejection
    [{ status: false, error }].  On a response that is not an array the run
    gives one failed result with a message that is not empty, and the
    message is the explanation of the failure, which for
    [{ status: false, error: "bad" }] is "bad".  On an array response the
    evaluation is not awaited: the result is a failed one whose message is
    [undefined], whatever the failure is. *)
Theorem custom_failures_are_failed_results
    (st : Store W) (iprops : list (string * JsVal)) (specifier : string)
    (f : BridgeFailure) :
  to_string eng (get eng (VObj iprops) "path") = Normal specifier ->
  exhibits eng W mods (world st) (responseData st)
           (rest_without_path eng (VObj iprops)) specifier f ->
  let results :=
    snd (runAssertions eng W mods st [spec_of "Custom" (VObj iprops)]) in
  (isArray (responseData st) = false ->
   (exists m, results = [result "Custom" false (VStr m)] /\ m <> EmptyString)
   /\ (forall m,
          explanation eng f = Some m ->
          results = [result "Custom" false (VStr m)]))
  /\ (isArray (responseData st) = true ->
      results = [result "Custom" false VUndefined])
  /\ explanation eng (Rejects "bad") = Some "bad".
Proof.
  intros Hpath Hf. cbv zeta. split; [| split; [| reflexivity]].
  - intros Hshape.
    rewrite runAssertions_single, Hshape, run_one_custom_on_record.
    destruct f as [err | | | r | err | error]; cbn [exhibits] in Hf.
    + destruct Hf as [w1 Himport].
      rewrite (case_Custom_imported _ _ _ _ _ _ Hpath Himport).
      destruct (thrown_is_reported "Custom" err) as [(m & Hm & Hsome) Htext].
      split.
      * exists m. now rewrite Hm.
      * intros m'. cbn [explanation].
        destruct (error_message eng err) as [text |] eqn:Herr; [| discriminate].
        intros [= <-]. now rewrite (Htext text eq_refl).
    + destruct Hf as [w1 Himport].
      rewrite (case_Custom_imported _ _ _ _ _ _ Hpath Himport).
      split; [eexists; split; [reflexivity | discriminate] |].
      now intros m [= <-].
    + destruct Hf as [w1 Himport].
      rewrite (case_Custom_imported _ _ _ _ _ _ Hpath Himport).
      split; [eexists; split; [reflexivity | discriminate] |].
      now intros m [= <-].
    + destruct Hf as (w1 & validate & Himport & Hcall & Hbad).
      rewrite (case_Custom_imported _ _ _ _ _ _ Hpath Himport), Hcall.
      rewrite (custom_result_malformed _ Hbad).
      split; [eexists; split; [reflexivity | discriminate] |].
      now intros m [= <-].
    + destruct Hf as (w1 & validate & Himport & Hcall).
      rewrite (case_Custom_imported _ _ _ _ _ _ Hpath Himport), Hcall.
      destruct (thrown_is_reported "Custom" err) as [(m & Hm & Hsome) Htext].
      split.
      * exists m. now rewrite Hm.
      * intros m'. cbn [explanation].
        destruct (error_message eng err) as [text |] eqn:Herr; [| discriminate].
        intros [= <-]. now rewrite (Htext text eq_refl).
    + destruct Hf as (w1 & validate & Himport & Hcall).
      rewrite (case_Custom_imported _ _ _ _ _ _ Hpath Himport), Hcall.
      destruct (custom_result_rejects error) as (m & Hexpl & Hsome & ->).
      split; [exists m; now split |].
      intros m'. rewrite Hexpl. now intros [= <-].
  - intros Hshape. rewrite runAssertions_single, Hshape.
    now rewrite run_one_item_level_on_array.
Qed.

End BridgeFacts.

Lemma custom_validator_is_not_awaited_witness :
  isArray (responseData (sample_store (VObj [("a", num 1)]))) = false
  /\ import_module sample_modules "./ok.js" 0
     = (0, ImportResolved (Callable (answering (status_error true EmptyString))))
  /\ snd (runAssertions sample_engine nat sample_modules
            (sample_store (VObj [("a", num 1)]))
            [spec_of "Custom" (VObj [("path", VStr "./ok.js")])])
     = [result "Custom" true (VStr "Assertion passed.")].
Proof.
  split; [reflexivity | split; [reflexivity |]].
  exact (proj1
           (custom_validator_is_not_awaited sample_engine nat sample_modules
              (sample_store (VObj [("a", num 1)])) [("path", VStr "./ok.js")]
              "./ok.js" 0 (answering (status_error true EmptyString))
              (status_error true EmptyString)
              eq_refl eq_refl eq_refl eq_refl)
           _ EmptyString eq_refl eq_refl eq_refl).
Defined.

(** C6, counterexample: the module [async.js] exports a callable [validate]
    that returns a promise resolving to a well-shaped passing answer, and
    the result is a failed one. *)
Lemma custom_validator_returning_promise_fails :
  import_module sample_modules "./async.js" 0
  = (0, ImportResolved
          (Callable (answering (VPromise (Some (status_error true EmptyString))))))
  /\ sample_run (VObj [("a", num 1)])
       [spec_of "Custom" (VObj [("path", VStr "./async.js")])]
     = [result "Custom" false (VStr invalid_structure)].
Proof. split; reflexivity. Qed.

Lemma custom_failures_are_failed_results_witness :
  let ins := [("path", VStr "./bad.js")] in
  let record := VObj [("a", num 1)] in
  (exhibits sample_engine nat sample_modules 0 record
     (rest_without_path sample_engine (VObj ins)) "./bad.js" (Rejects "bad")
   /\ isArray record = false
   /\ explanation sample_engine (Rejects "bad") = Some "bad"
   /\ snd (runAssertions sample_engine nat sample_modules (sample_store record)
             [spec_of "Custom" (VObj ins)])
      = [result "Custom" false (VStr "bad")])
  /\ (exhibits sample_engine nat sample_modules 0 (VArr [record])
        (rest_without_path sample_engine (VObj ins)) "./bad.js" (Rejects "bad")
      /\ isArray (VArr [record]) = true
      /\ snd (runAssertions sample_engine nat sample_modules
                (sample_store (VArr [record])) [spec_of "Custom" (VObj ins)])
         = [result "Custom" false VUndefined]).
Proof.
  cbv zeta.
  assert (forall response,
             exhibits sample_engine nat sample_modules 0 response
               (rest_without_path sample_engine (VObj [("path", VStr "./bad.js")]))
               "./bad.js" (Rejects "bad")) as H
      by (intros response; exists 0, (answering (status_error false "bad"));
          split; reflexivity).
  split.
  - split; [exact (H _) | split; [reflexivity | split; [reflexivity |]]].
    exact (proj2 (proj1
             (custom_failures_are_failed_results sample_engine nat sample_modules
                (sample_store (VObj [("a", num 1)])) [("path", VStr "./bad.js")]
                "./bad.js" (Rejects "bad") eq_refl (H _))
             eq_refl) "bad" eq_refl).
  - split; [exact (H _) | split; [reflexivity |]].
    exact (proj1 (proj2
             (custom_failures_are_failed_results sample_engine nat sample_modules
                (sample_store (VArr [VObj [("a", num 1)]]))
                [("path", VStr "./bad.js")]
                "./bad.js" (Rejects "bad") eq_refl (H _)))
             eq_refl).
Defined.

(** Each of the listed contract failures, run on the sample modules. *)
Example custom_contract_failures_reported :
  map message
      (sample_run (VObj [("a", num 1)])
         (map custom_spec
              ["./missing.js"; "./empty.js"; "./data.js"; "./shape.js"; "./throws.js"]))
  = [VStr "Error running custom assertion script: Cannot find module ./missing.js";
     VStr "Custom script does not export a 'validate' function.";
     VStr "Custom script does not export a 'validate' function.";
     VStr invalid_structure;
     VStr "Error running custom assertion script: boom"].
Proof. reflexivity. Qed.

(** ** Nullability *)

Section NullabilityFacts.

Variable eng : Engine.
Variable W : Type.
Variable mods : Modules W.

(** Reading a field of a record gives [null] only when the record holds
    [null] under that name: nothing inherited is [null]. *)
Lemma get_is_null (props : list (string * JsVal)) (name : string) :
  is_null (get eng (VObj props) name) = exactly_null props name.
Proof.
  unfold get, own_value, exactly_null.
  destruct (lookup name props) as [v |]; [now destruct v |].
  cbn [proto_of].
  destruct (mem_string name (proto_names CObject)); [| reflexivity].
  unfold proto_member. cbn [proto_of].
  repeat match goal with
         | |- context [if ?b then _ else _] => destruct b
         end; reflexivity.
Qed.

(** The first loop of the rule stops at the first listed field that is
    exactly null. *)
Lemma nonNullable_loop (props : list (string * JsVal)) (names : list string) :
  for_each
    (fun field =>
       let* v := get_prop eng (VObj props) field in
       if is_null v then
         let* f := to_string eng field in
         Normal (Some ("Field " ++ quoted f ++ " should not be null."))
       else Normal None)
    (map VStr names)
  = Normal (option_map should_not_be_null (find (exactly_null props) names)).
Proof.
  induction names as [| n rest IH]; [reflexivity |].
  cbn [map for_each find].
  unfold get_prop at 1. cbn [is_nullish to_string bind].
  rewrite get_is_null.
  destruct (exactly_null props n); cbn [bind option_map]; [reflexivity |].
  exact IH.
Qed.

(** C9: for every record and every "Nullability" assertion whose
    [nonNullable] lists the field names [names], the non-null check fails at
    the first listed field that the record holds as exactly [null], and at no
    other: a listed field the record does not hold passes it, and the verdict
    is then the one the assertion has without any [nonNullable] list. *)
Theorem nullability_absent_passes_null_fails
    (w : W) (props iprops : list (string * JsVal)) (names : list string) :
  lookup "nonNullable" iprops = Some (VArr (map VStr names)) ->
  snd (validateObjectLevel eng W mods w (VObj props) "Nullability" (VObj iprops))
  = match find (exactly_null props) names with
    | Some name => Normal (failing (should_not_be_null name))
    | None =>
        snd (validateObjectLevel eng W mods w (VObj props) "Nullability"
               (VObj (("nonNullable", VArr []) :: iprops)))
    end.
Proof.
  intros Hlist. unfold validateObjectLevel.
  change (kind_of "Nullability") with Nullability. cbn [pure_case snd].
  unfold case_Nullability, get_default, get, own_value.
  cbn [destructure is_nullish bind lookup String.eqb Ascii.eqb Bool.eqb iterate for_each].
  rewrite Hlist. cbn [iterate bind].
  rewrite nonNullable_loop.
  destruct (find (exactly_null props) names); reflexivity.
Qed.

End NullabilityFacts.

Lemma nullability_absent_passes_null_fails_witness :
  lookup "nonNullable" [("nonNullable", VArr (map VStr ["name"; "id"]))]
  = Some (VArr (map VStr ["name"; "id"]))
  /\ snd (validateObjectLevel sample_engine nat sample_modules 0
            (VObj [("id", VNull)]) "Nullability"
            (VObj [("nonNullable", VArr (map VStr ["name"; "id"]))]))
     = Normal (failing (should_not_be_null "id")).
Proof.
  split; [reflexivity |].
  exact (nullability_absent_passes_null_fails sample_engine nat sample_modules 0
           [("id", VNull)] [("nonNullable", VArr (map VStr ["name"; "id"]))]
           ["name"; "id"] eq_refl).
Defined.

(** A field that is absent passes the check; the same field held as [null]
    fails it. *)
Example nullability_absent_versus_null :
  sample_run (VObj [("name", VStr "n")])
    [spec_of "Nullability" (VObj [("nonNullable", VArr [VStr "id"])])]
  = [result "Nullability" true (VStr "Assertion passed.")]
  /\ sample_run (VObj [("name", VStr "n"); ("id", VNull)])
       [spec_of "Nullability" (VObj [("nonNullable", VArr [VStr "id"])])]
     = [result "Nullability" false (VStr (should_not_be_null "id"))].
Proof. split; reflexivity. Qed.

(** ** The worked examples of the specification *)

Example required_fields_names_the_missing_field :
  sample_run (VObj [("id", num 1)])
    [spec_of "Required Fields" (VArr [VStr "id"; VStr "name"])]
  = [result "Required Fields" false
       (VStr ("Missing required field: " ++ quoted "name" ++ "."))].
Proof. reflexivity. Qed.

Example integer_only_and_maximum :
  sample_run (VObj [("price", VNum (binary_normalize 53 1024 21 (-1) false))])
    [spec_of "Number Field Validation"
       (VObj [("fields", VArr [VStr "price"]); ("integerOnly", VBool true)])]
  = [result "Number Field Validation" false
       (VStr ("Field " ++ quoted "price" ++ " must be an integer."))]
  /\ sample_run (VObj [("price", num 10)])
       [spec_of "Number Field Validation"
          (VObj [("fields", VArr [VStr "price"]); ("integerOnly", VBool true);
                 ("max", num 20)])]
     = [result "Number Field Validation" true (VStr "Assertion passed.")].
Proof. split; reflexivity. Qed.

Example strict_schema_cites_the_extra_field :
  sample_run (VObj [("id", num 1); ("extra", VBool true)])
    [spec_of "Schema Compliance"
       (VObj [("schema", VObj [("id", VStr "number")]); ("strict", VBool true)])]
  = [result "Schema Compliance" false
       (VStr ("Strict schema compliance failed. Unexpected field "
              ++ quoted "extra" ++ "."))].
Proof. reflexivity. Qed.

Example object_keys_order :
  own_keys (VObj [("b", num 3); ("10", num 1); ("2", num 3)]) = ["2"; "10"; "b"].
Proof. reflexivity. Qed.

Example bounds_compare_numbers_only :
  below_bound 2 (num 3) = true
  /\ below_bound 3 (num 3) = false
  /\ above_bound 4 (num 3) = true
  /\ below_bound 2 (VStr "3") = false.
Proof. repeat split. Qed.

(** * Further properties of the rules, the fan-out and the runner *)

(** ** Loops that stop at the first failure *)

(** A loop whose body fails on the elements that satisfy [cond], with the
    message [m], answers the message of the first such element. *)
Lemma for_each_find {A} (body : A -> Completion (option string))
    (cond : A -> bool) (m : A -> string) (xs : list A) :
  (forall x, In x xs -> body x = Normal (if cond x then Some (m x) else None)) ->
  for_each body xs = Normal (option_map m (find cond xs)).
Proof.
  induction xs as [| x rest IH]; intros Hbody; [reflexivity |].
  cbn [for_each find]. rewrite (Hbody x (or_introl eq_refl)).
  destruct (cond x); cbn [bind option_map]; [reflexivity |].
  apply IH. intros y Hy. apply Hbody. now right.
Qed.

Lemma mem_string_In (k : string) (l : list string) :
  mem_string k l = true <-> In k l.
Proof.
  unfold mem_string. rewrite existsb_exists. split.
  - intros (x & Hin & Heq). apply String.eqb_eq in Heq. now subst.
  - intros Hin. exists k. split; [assumption | apply String.eqb_refl].
Qed.

(** ** The own keys of a record *)

Lemma dedup_In (l seen : list string) (k : string) :
  In k (dedup seen l) <-> In k l /\ ~ In k seen.
Proof.
  revert seen. induction l as [| x rest IH]; intros seen; cbn [dedup].
  - cbn. tauto.
  - destruct (mem_string x seen) eqn:Hx.
    + apply mem_string_In in Hx. rewrite IH. cbn [In]. split.
      * intros [Hin Hns]. tauto.
      * intros [[-> | Hin] Hns]; [contradiction | tauto].
    + assert (~ In x seen) as Hnx
          by (intros H; apply mem_string_In in H; congruence).
      cbn [In]. rewrite IH. cbn [In]. split.
      * intros [-> | [Hin Hns]]; [tauto |]. split; [tauto |].
        intros H. apply Hns. now right.
      * intros [[-> | Hin] Hns]; [now left |].
        destruct (String.eqb_spec x k) as [-> | Hne]; [now left |].
        right. split; [assumption |]. intros [H | H]; [congruence | contradiction].
Qed.

Lemma insert_index_In (e e' : N * string) (l : list (N * string)) :
  In e (insert_index e' l) <-> e = e' \/ In e l.
Proof.
  induction l as [| x rest IH]; cbn [insert_index].
  - cbn. intuition congruence.
  - destruct (fst e' <=? fst x)%N; cbn [In]; [intuition congruence |].
    rewrite IH. intuition congruence.
Qed.

Lemma ordered_keys_In (props : list (string * JsVal)) (k : string) :
  In k (ordered_keys props) <-> In k (map fst props).
Proof.
  unfold ordered_keys.
  set (ks := dedup [] (map fst props)).
  assert (In k ks <-> In k (map fst props)) as Hks
      by (unfold ks; rewrite dedup_In; cbn; tauto).
  rewrite <- Hks. clearbody ks. clear Hks.
  rewrite in_app_iff, filter_In, in_map_iff.
  assert (forall l n,
             In (n, k)
                (fold_right
                   (fun k0 acc =>
                      match array_index k0 with
                      | Some n0 => insert_index (n0, k0) acc
                      | None => acc
                      end) [] l)
             <-> In k l /\ array_index k = Some n) as Hidx.
  { induction l as [| x rest IH]; intros n; cbn [fold_right].
    - cbn. tauto.
    - destruct (array_index x) as [nx |] eqn:Hx.
      + rewrite insert_index_In, IH. cbn [In]. split.
        * intros [[= -> ->] | [Hin Hn]]; [now split; [left |] | tauto].
        * intros [[-> | Hin] Hn]; [left; congruence | tauto].
      + rewrite IH. cbn [In]. split; [tauto |].
        intros [[-> | Hin] Hn]; [congruence | tauto]. }
  split.
  - intros [((n & k') & Heq & Hin) | [Hin _]]; [| assumption].
    cbn in Heq. subst k'. now apply Hidx in Hin.
  - intros Hin. destruct (array_index k) as [n |] eqn:Hk.
    + left. exists (n, k). split; [reflexivity |]. apply Hidx. now split.
    + right. now split.
Qed.

Lemma lookup_In (props : list (string * JsVal)) (k : string) :
  lookup k props <> None <-> In k (map fst props).
Proof.
  induction props as [| [k' v] rest IH]; cbn [lookup map fst In].
  - tauto.
  - destruct (String.eqb_spec k k') as [-> | Hne].
    + split; [now left | discriminate].
    + rewrite IH. split; [now right |]. intros [H | H]; [congruence | assumption].
Qed.

(** A record has a key among its own keys exactly when it holds a property
    under that key. *)
Lemma own_keys_has_own (props : list (string * JsVal)) (k : string) :
  In k (own_keys (VObj props)) <-> has_own (VObj props) k = true.
Proof.
  cbn [own_keys has_own]. rewrite ordered_keys_In, <- lookup_In.
  destruct (lookup k props); split; intros H; congruence.
Qed.

Lemma verdict_of_find_passing {A} (cond : A -> bool) (m : A -> string)
    (xs : list A) :
  verdict_of (option_map m (find cond xs)) = passing
  <-> (forall x, In x xs -> cond x = false).
Proof.
  destruct (find cond xs) as [x |] eqn:Hfind; cbn [option_map verdict_of].
  - split; [discriminate |]. intros Hall.
    apply find_some in Hfind. destruct Hfind as [Hin Hx].
    rewrite (Hall x Hin) in Hx. discriminate.
  - split; [| reflexivity]. intros _ x Hin.
    destruct (cond x) eqn:Hx; [| reflexivity].
    now rewrite (find_none _ _ Hfind x Hin) in Hx.
Qed.

Lemma set_has_strings (names : list string) (k : string) :
  set_has (map VStr names) (VStr k) = mem_string k names.
Proof.
  unfold set_has, mem_string. induction names as [| n rest IH]; [reflexivity |].
  cbn [map existsb same_value_zero]. now rewrite IH.
Qed.

Lemma find_map {A B} (f : A -> B) (cond : B -> bool) (xs : list A) :
  find cond (map f xs) = option_map f (find (fun x => cond (f x)) xs).
Proof.
  induction xs as [| x rest IH]; [reflexivity |].
  cbn [map find]. destruct (cond (f x)); [reflexivity | exact IH].
Qed.

Section RuleFacts.

Variable eng : Engine.
Variable W : Type.
Variable mods : Modules W.

(** Reading a property a record holds gives the value it holds. *)
Lemma get_own (props : list (string * JsVal)) (k : string) (v : JsVal) :
  lookup k props = Some v -> get eng (VObj props) k = v.
Proof. intros H. unfold get, own_value. now rewrite H. Qed.

(** A record that holds no property [hasOwnProperty] inherits the method. *)
Lemma get_hasOwnProperty (props : list (string * JsVal)) :
  lookup "hasOwnProperty" props = None ->
  get eng (VObj props) "hasOwnProperty" = VBuiltin "hasOwnProperty".
Proof. intros H. unfold get, own_value. now rewrite H. Qed.

Lemma case_RequiredFields_names (props : list (string * JsVal)) (names : list string) :
  case_RequiredFields eng (VObj props) (VArr (map VStr names))
  = Normal (verdict_of
              (option_map missing_required_field
                 (find (fun n => negb (has_own (VObj props) n)) names))).
Proof.
  unfold case_RequiredFields. cbn [as_list as_array].
  rewrite (for_each_find _ (fun v => match v with
                                     | VStr n => negb (has_own (VObj props) n)
                                     | _ => false
                                     end)
             (fun v => match v with
                       | VStr n => missing_required_field n
                       | _ => EmptyString
                       end)).
  - cbn [bind]. rewrite find_map. now destruct (find _ names).
  - intros x Hx. apply in_map_iff in Hx. destruct Hx as (n & <- & _).
    unfold hasOwnProperty_call. cbn [to_string bind is_nullish].
    now destruct (has_own (VObj props) n).
Qed.

Lemma case_NoAdditionalFields_list (props : list (string * JsVal))
    (allowed : list JsVal) :
  case_NoAdditionalFields (VObj props) (VArr allowed)
  = Normal (verdict_of
              (option_map unexpected_field_found
                 (find (fun k => negb (set_has allowed (VStr k)))
                       (own_keys (VObj props))))).
Proof.
  unfold case_NoAdditionalFields, object_keys.
  cbn [as_list as_array is_nullish bind].
  rewrite (for_each_find _ (fun k => negb (set_has allowed (VStr k)))
             unexpected_field_found); [reflexivity |].
  intros k _. now destruct (set_has allowed (VStr k)).
Qed.

(** X1: "Required Fields" on a record, given a list of field names, fails at
    the first name the record does not hold as a property of its own, with a
    message that names it, and passes when there is none; a bare name is
    taken as a list of one name. *)
Theorem required_fields_reports_first_missing
    (w : W) (props : list (string * JsVal)) (names : list string) (name : string) :
  snd (validateObjectLevel eng W mods w (VObj props) "Required Fields"
         (VArr (map VStr names)))
  = Normal (verdict_of
              (option_map missing_required_field
                 (find (fun n => negb (has_own (VObj props) n)) names)))
  /\ snd (validateObjectLevel eng W mods w (VObj props) "Required Fields"
            (VStr name))
     = snd (validateObjectLevel eng W mods w (VObj props) "Required Fields"
              (VArr [VStr name])).
Proof.
  split; [| reflexivity].
  unfold validateObjectLevel. change (kind_of "Required Fields") with RequiredFields.
  cbn [pure_case snd]. apply case_RequiredFields_names.
Qed.

(** X2: "No Additional Fields" with a list of allowed names and "Strict
    Validation" whose [allowedFields] is that list fail on the same records,
    at the same key: the first own key of the record, in the order of
    [Object.keys], that is not in the list. *)
Theorem no_additional_and_strict_agree
    (w : W) (props iprops : list (string * JsVal)) (allowed : list JsVal) :
  lookup "allowedFields" iprops = Some (VArr allowed) ->
  let extra :=
    find (fun k => negb (set_has allowed (VStr k))) (own_keys (VObj props)) in
  snd (validateObjectLevel eng W mods w (VObj props) "No Additional Fields"
         (VArr allowed))
  = Normal (verdict_of (option_map unexpected_field_found extra))
  /\ snd (validateObjectLevel eng W mods w (VObj props) "Strict Validation"
            (VObj iprops))
     = Normal (verdict_of (option_map strict_unexpected_field extra)).
Proof.
  intros Hallowed extra. unfold validateObjectLevel.
  change (kind_of "No Additional Fields") with NoAdditionalFields.
  change (kind_of "Strict Validation") with StrictValidation.
  cbn [pure_case snd]. split; [apply case_NoAdditionalFields_list |].
  unfold case_StrictValidation, get_default, object_keys.
  rewrite (get_own _ _ _ Hallowed).
  cbn [destructure is_nullish bind new_set iterate].
  rewrite (for_each_find _ (fun k => negb (set_has allowed (VStr k)))
             strict_unexpected_field); [reflexivity |].
  intros k _. now destruct (set_has allowed (VStr k)).
Qed.

(** X3: a record passes both "Required Fields" and "No Additional Fields"
    for one list of names exactly when the names of its properties are the
    names of the list. *)
Theorem required_and_no_additional_pin_keys
    (w : W) (props : list (string * JsVal)) (names : list string) :
  (snd (validateObjectLevel eng W mods w (VObj props) "Required Fields"
          (VArr (map VStr names))) = Normal passing
   /\ snd (validateObjectLevel eng W mods w (VObj props) "No Additional Fields"
             (VArr (map VStr names))) = Normal passing)
  <-> (forall k, In k (map fst props) <-> In k names).
Proof.
  unfold validateObjectLevel.
  change (kind_of "Required Fields") with RequiredFields.
  change (kind_of "No Additional Fields") with NoAdditionalFields.
  cbn [pure_case snd].
  rewrite case_RequiredFields_names, case_NoAdditionalFields_list.
  assert (forall v, Normal v = Normal passing <-> v = passing) as Hn
      by (intros v; split; [now intros [= ->] | now intros ->]).
  rewrite !Hn, !verdict_of_find_passing.
  assert (forall k, has_own (VObj props) k = true <-> In k (map fst props)) as Hown.
  { intros k. rewrite <- own_keys_has_own. cbn [own_keys]. apply ordered_keys_In. }
  split.
  - intros [Hreq Hno] k. split.
    + intros Hk. apply Hown, own_keys_has_own in Hk.
      specialize (Hno k Hk). rewrite set_has_strings in Hno.
      apply Bool.negb_false_iff, mem_string_In in Hno. exact Hno.
    + intros Hk. apply Hown. specialize (Hreq k Hk).
      now apply Bool.negb_false_iff in Hreq.
  - intros Hkeys. split.
    + intros n Hn'. apply Bool.negb_false_iff, Hown, Hkeys, Hn'.
    + intros k Hk. rewrite set_has_strings.
      apply Bool.negb_false_iff, mem_string_In, Hkeys, Hown, own_keys_has_own, Hk.
Qed.

Lemma case_ReadOnlyFields_names (props : list (string * JsVal)) (names : list string) :
  lookup "hasOwnProperty" props = None ->
  case_ReadOnlyFields eng (VObj props) (VArr (map VStr names))
  = Normal (verdict_of
              (option_map read_only_present (find (has_own (VObj props)) names))).
Proof.
  intros Hmethod. unfold case_ReadOnlyFields. cbn [as_list as_array].
  rewrite (for_each_find _ (fun v => match v with
                                     | VStr n => has_own (VObj props) n
                                     | _ => false
                                     end)
             (fun v => match v with
                       | VStr n => read_only_present n
                       | _ => EmptyString
                       end)).
  - cbn [bind]. rewrite find_map. now destruct (find _ names).
  - intros x Hx. apply in_map_iff in Hx. destruct Hx as (n & <- & _).
    unfold hasOwnProperty_method. cbn [is_nullish].
    rewrite (get_hasOwnProperty _ Hmethod). cbn [to_string bind].
    now destruct (has_own (VObj props) n).
Qed.

(** X4: "Read-Only Fields" on a record that has no property named
    [hasOwnProperty] fails at the first listed name the record holds as a
    property of its own, whatever the value, and passes when it holds none
    of them. *)
Theorem read_only_fields_reports_first_present
    (w : W) (props : list (string * JsVal)) (names : list string) :
  lookup "hasOwnProperty" props = None ->
  snd (validateObjectLevel eng W mods w (VObj props) "Read-Only Fields"
         (VArr (map VStr names)))
  = Normal (verdict_of
              (option_map read_only_present (find (has_own (VObj props)) names))).
Proof.
  intros Hmethod. unfold validateObjectLevel.
  change (kind_of "Read-Only Fields") with ReadOnlyFields.
  cbn [pure_case snd]. now apply case_ReadOnlyFields_names.
Qed.

(** X5: "Read-Only Fields" calls the record's own [hasOwnProperty].  On a
    record that holds data under that name the call is a TypeError, whatever
    the listed names are, and the runner reports the assertion as failed with
    the text of the error; "Required Fields", which calls the method of
    [Object.prototype], evaluates the same record. *)
Theorem read_only_fields_throws_on_shadowed_method
    (w : W) (props : list (string * JsVal)) (v first : JsVal)
    (others : list JsVal) :
  lookup "hasOwnProperty" props = Some v ->
  typeof v <> "function" ->
  let err := ErrNotAFunction "hasOwnProperty" in
  snd (validateObjectLevel eng W mods w (VObj props) "Read-Only Fields"
         (VArr (first :: others)))
  = Abrupt err
  /\ snd (runAssertions eng W mods {| world := w; responseData := VObj props |}
            [spec_of "Read-Only Fields" (VArr (first :: others))])
     = [result "Read-Only Fields" false
          (VStr ("Error during assertion " ++ quoted "Read-Only Fields" ++ ": "
                 ++ error_text eng err))]
  /\ snd (validateObjectLevel eng W mods w (VObj props) "Required Fields"
            (VArr [VStr "hasOwnProperty"]))
     = Normal passing.
Proof.
  intros Hheld Htype err.
  assert (case_ReadOnlyFields eng (VObj props) (VArr (first :: others)) = Abrupt err)
    as Hcase.
  { unfold case_ReadOnlyFields. cbn [as_list as_array for_each].
    unfold hasOwnProperty_method. cbn [is_nullish].
    rewrite (get_own _ _ _ Hheld).
    destruct v; try reflexivity. now contradiction Htype. }
  split; [| split].
  - unfold validateObjectLevel.
    change (kind_of "Read-Only Fields") with ReadOnlyFields.
    cbn [pure_case snd]. exact Hcase.
  - rewrite runAssertions_single. cbn [responseData isArray as_array].
    f_equal.
    apply (run_one_catches_on_record eng W mods _ _ _ w (VObj props)
             (VArr (first :: others))).
    unfold validateObjectLevel.
    change (kind_of "Read-Only Fields") with ReadOnlyFields.
    unfold pure_case. cbn [world responseData]. now rewrite Hcase.
  - unfold validateObjectLevel.
    change (kind_of "Required Fields") with RequiredFields.
    cbn [pure_case snd].
    change (VArr [VStr "hasOwnProperty"]) with (VArr (map VStr ["hasOwnProperty"])).
    rewrite case_RequiredFields_names.
    cbn [find has_own]. now rewrite Hheld.
Qed.

End RuleFacts.

Lemma no_additional_and_strict_agree_witness :
  lookup "allowedFields" [("allowedFields", VArr [VStr "id"])]
  = Some (VArr [VStr "id"])
  /\ snd (validateObjectLevel sample_engine nat sample_modules 0
            (VObj [("id", num 1); ("extra", VBool true)]) "No Additional Fields"
            (VArr [VStr "id"]))
     = Normal (failing (unexpected_field_found "extra"))
  /\ snd (validateObjectLevel sample_engine nat sample_modules 0
            (VObj [("id", num 1); ("extra", VBool true)]) "Strict Validation"
            (VObj [("allowedFields", VArr [VStr "id"])]))
     = Normal (failing (strict_unexpected_field "extra")).
Proof.
  split; [reflexivity |].
  exact (no_additional_and_strict_agree sample_engine nat sample_modules 0
           [("id", num 1); ("extra", VBool true)]
           [("allowedFields", VArr [VStr "id"])] [VStr "id"] eq_refl).
Defined.

Lemma read_only_fields_reports_first_present_witness :
  lookup "hasOwnProperty" [("name", VStr "n"); ("id", VNull)] = None
  /\ snd (validateObjectLevel sample_engine nat sample_modules 0
            (VObj [("name", VStr "n"); ("id", VNull)]) "Read-Only Fields"
            (VArr (map VStr ["createdAt"; "id"; "name"])))
     = Normal (failing (read_only_present "id")).
Proof.
  split; [reflexivity |].
  exact (read_only_fields_reports_first_present sample_engine nat sample_modules 0
           [("name", VStr "n"); ("id", VNull)] ["createdAt"; "id"; "name"] eq_refl).
Defined.

Lemma read_only_fields_throws_on_shadowed_method_witness :
  lookup "hasOwnProperty" [("hasOwnProperty", VBool true)] = Some (VBool true)
  /\ typeof (VBool true) <> "function"
  /\ snd (runAssertions sample_engine nat sample_modules
            (sample_store (VObj [("hasOwnProperty", VBool true)]))
            [spec_of "Read-Only Fields" (VArr [VStr "id"])])
     = [result "Read-Only Fields" false
          (VStr ("Error during assertion " ++ quoted "Read-Only Fields"
                 ++ ": hasOwnProperty is not a function"))].
Proof.
  assert (typeof (VBool true) <> "function") as Htype by discriminate.
  split; [reflexivity | split; [exact Htype |]].
  exact (proj1 (proj2
           (read_only_fields_throws_on_shadowed_method sample_engine nat
              sample_modules 0 [("hasOwnProperty", VBool true)] (VBool true)
              (VStr "id") [] eq_refl Htype))).
Defined.

(** ** Typed fields, arrays and patterns *)


Lemma set_size_from_le (xs : list JsVal) :
  forall seen, set_size_from seen xs <= length xs.
Proof.
  induction xs as [| x rest IH]; intros seen; cbn [set_size_from length]; [lia |].
  destruct (set_has seen x).
  - specialize (IH seen). lia.
  - specialize (IH (x :: seen)). lia.
Qed.

Lemma set_size_from_repeated (mid post : list JsVal) (y : JsVal) :
  forall seen,
    set_has seen y = true ->
    set_size_from seen (mid ++ y :: post) < length (mid ++ y :: post).
Proof.
  induction mid as [| m rest IH]; intros seen Hseen.
  - cbn [app set_size_from length]. rewrite Hseen.
    pose proof (set_size_from_le post seen). lia.
  - cbn [app set_size_from length]. destruct (set_has seen m).
    + specialize (IH seen Hseen). lia.
    + assert (set_has (m :: seen) y = true) as Hm
          by (unfold set_has in *; cbn [existsb]; rewrite Hseen;
              apply Bool.orb_true_r).
      specialize (IH (m :: seen) Hm). lia.
Qed.

Lemma set_size_repeated (pre mid post : list JsVal) (x y : JsVal) :
  same_value_zero y x = true ->
  set_size (pre ++ x :: mid ++ y :: post)
  < length (pre ++ x :: mid ++ y :: post).
Proof.
  intros Hsame. unfold set_size. generalize (@nil JsVal) as seen.
  induction pre as [| p rest IH]; intros seen.
  - cbn [app set_size_from length]. destruct (set_has seen x) eqn:Hx.
    + pose proof (set_size_from_le (mid ++ y :: post) seen). lia.
    + assert (set_has (x :: seen) y = true) as Hy
          by (unfold set_has; cbn [existsb]; now rewrite Hsame).
      pose proof (set_size_from_repeated mid post y (x :: seen) Hy). lia.
  - cbn [app set_size_from length]. destruct (set_has seen p).
    + specialize (IH seen). cbn [app length] in IH. lia.
    + specialize (IH (p :: seen)). cbn [app length] in IH. lia.
Qed.

Section FieldFacts.

Variable eng : Engine.
Variable W : Type.
Variable mods : Modules W.

(** Reading a name a record does not hold, and [Object.prototype] neither,
    gives [undefined]. *)
Lemma get_absent (props : list (string * JsVal)) (k : string) :
  lookup k props = None ->
  mem_string k (proto_names CObject) = false ->
  get eng (VObj props) k = VUndefined.
Proof. intros H Hp. unfold get, own_value. rewrite H. cbn [proto_of]. now rewrite Hp. Qed.

(** X6: "Number Field Validation" given a plain list of field names is the
    structured form [{ fields }] with no [min], [max] or [integerOnly]: the
    two give the same verdict, or raise the same error, on every value. *)
Theorem number_fields_list_is_unbounded_structured
    (w : W) (obj : JsVal) (iprops : list (string * JsVal)) (fields : list JsVal) :
  lookup "fields" iprops = Some (VArr fields) ->
  lookup "min" iprops = None ->
  lookup "max" iprops = None ->
  lookup "integerOnly" iprops = None ->
  snd (validateObjectLevel eng W mods w obj "Number Field Validation" (VObj iprops))
  = snd (validateObjectLevel eng W mods w obj "Number Field Validation"
           (VArr fields)).
Proof.
  intros Hfields Hmin Hmax Hint. unfold validateObjectLevel.
  change (kind_of "Number Field Validation") with NumberFieldValidation.
  cbn [pure_case snd]. unfold case_NumberFieldValidation, get_default.
  cbn [as_array destructure is_nullish bind].
  rewrite (get_own eng _ _ _ Hfields).
  rewrite (get_absent _ _ Hmin eq_refl), (get_absent _ _ Hmax eq_refl),
    (get_absent _ _ Hint eq_refl).
  cbn [iterate bind truthy andb]. reflexivity.
Qed.

(** X7: the two forms of "String Field Validation" disagree on a blank
    string.  The plain list of names rejects a field whose text is empty
    once trimmed; the structured form [{ fields }] without a [minLength]
    accepts it. *)
Theorem string_fields_blank_flat_versus_structured
    (w : W) (props : list (string * JsVal)) (name s : string) :
  lookup name props = Some (VStr s) ->
  trim s = EmptyString ->
  snd (validateObjectLevel eng W mods w (VObj props) "String Field Validation"
         (VArr [VStr name]))
  = Normal (failing (cannot_be_empty name))
  /\ snd (validateObjectLevel eng W mods w (VObj props) "String Field Validation"
            (VObj [("fields", VArr [VStr name])]))
     = Normal passing.
Proof.
  intros Hheld Hblank. unfold validateObjectLevel.
  change (kind_of "String Field Validation") with StringFieldValidation.
  cbn [pure_case snd]. unfold case_StringFieldValidation.
  cbn [as_array destructure is_nullish bind].
  rewrite (get_own eng [("fields", VArr [VStr name])] "fields" (VArr [VStr name]) eq_refl).
  rewrite (get_absent [("fields", VArr [VStr name])] "minLength" eq_refl eq_refl),
    (get_absent [("fields", VArr [VStr name])] "maxLength" eq_refl eq_refl),
    (get_absent [("fields", VArr [VStr name])] "pattern" eq_refl eq_refl).
  cbn [iterate bind for_each]. unfold get_prop.
  cbn [is_nullish to_string bind]. rewrite (get_own eng _ _ _ Hheld).
  rewrite Hblank. split; reflexivity.
Qed.


(** X9: with [enforceUnique], "Array Validation" on a field of a record
    fails, naming the field, as soon as some element of the array is the
    same value as an earlier one (as [SameValueZero] has it). *)
Theorem array_validation_rejects_repeated_value
    (w : W) (props iprops : list (string * JsVal)) (name : string)
    (pre mid post : list JsVal) (x y : JsVal) :
  lookup "field" iprops = Some (VStr name) ->
  lookup "enforceUnique" iprops = Some (VBool true) ->
  lookup "minLength" iprops = None ->
  lookup "maxLength" iprops = None ->
  lookup name props = Some (VArr (pre ++ x :: mid ++ y :: post)) ->
  same_value_zero y x = true ->
  snd (validateObjectLevel eng W mods w (VObj props) "Array Validation" (VObj iprops))
  = Normal (failing (contains_duplicates name)).
Proof.
  intros Hfield Hunique Hmin Hmax Hheld Hsame. unfold validateObjectLevel.
  change (kind_of "Array Validation") with ArrayValidation.
  cbn [pure_case snd]. unfold case_ArrayValidation.
  cbn [destructure is_nullish bind].
  rewrite (get_own eng _ _ _ Hfield), (get_own eng _ _ _ Hunique),
    (get_absent _ _ Hmin eq_refl), (get_absent _ _ Hmax eq_refl).
  unfold get_prop. cbn [is_nullish to_string bind].
  rewrite (get_own eng _ _ _ Hheld).
  cbn [as_array below_bound above_bound truthy andb].
  pose proof (set_size_repeated pre mid post x y Hsame) as Hlt.
  destruct (Nat.eqb_spec (set_size (pre ++ x :: mid ++ y :: post))
              (length (pre ++ x :: mid ++ y :: post))) as [Heq | _]; [lia |].
  reflexivity.
Qed.

End FieldFacts.

Lemma number_fields_list_is_unbounded_structured_witness :
  lookup "fields" [("fields", VArr [VStr "a"])] = Some (VArr [VStr "a"])
  /\ lookup "min" [("fields", VArr [VStr "a"])] = None
  /\ lookup "max" [("fields", VArr [VStr "a"])] = None
  /\ lookup "integerOnly" [("fields", VArr [VStr "a"])] = None
  /\ snd (validateObjectLevel sample_engine nat sample_modules 0
            (VObj [("a", VStr "x")]) "Number Field Validation"
            (VObj [("fields", VArr [VStr "a"])]))
     = snd (validateObjectLevel sample_engine nat sample_modules 0
              (VObj [("a", VStr "x")]) "Number Field Validation"
              (VArr [VStr "a"])).
Proof.
  repeat (split; [reflexivity |]).
  exact (number_fields_list_is_unbounded_structured sample_engine nat
           sample_modules 0 (VObj [("a", VStr "x")])
           [("fields", VArr [VStr "a"])] [VStr "a"]
           eq_refl eq_refl eq_refl eq_refl).
Defined.

Lemma string_fields_blank_flat_versus_structured_witness :
  lookup "title" [("title", VStr "  ")] = Some (VStr "  ")
  /\ trim "  " = EmptyString
  /\ snd (validateObjectLevel sample_engine nat sample_modules 0
            (VObj [("title", VStr "  ")]) "String Field Validation"
            (VArr [VStr "title"]))
     = Normal (failing (cannot_be_empty "title"))
  /\ snd (validateObjectLevel sample_engine nat sample_modules 0
            (VObj [("title", VStr "  ")]) "String Field Validation"
            (VObj [("fields", VArr [VStr "title"])]))
     = Normal passing.
Proof.
  split; [reflexivity | split; [reflexivity |]].
  exact (string_fields_blank_flat_versus_structured sample_engine nat
           sample_modules 0 [("title", VStr "  ")] "title" "  " eq_refl eq_refl).
Defined.


Lemma array_validation_rejects_repeated_value_witness :
  let ins := [("field", VStr "tags"); ("enforceUnique", VBool true)] in
  let tags := ([VStr "a"] ++ VStr "b" :: [VStr "c"] ++ VStr "b" :: [])%list in
  lookup "field" ins = Some (VStr "tags")
  /\ lookup "enforceUnique" ins = Some (VBool true)
  /\ lookup "minLength" ins = None
  /\ lookup "maxLength" ins = None
  /\ lookup "tags" [("tags", VArr tags)] = Some (VArr tags)
  /\ same_value_zero (VStr "b") (VStr "b") = true
  /\ snd (validateObjectLevel sample_engine nat sample_modules 0
            (VObj [("tags", VArr tags)]) "Array Validation" (VObj ins))
     = Normal (failing (contains_duplicates "tags")).
Proof.
  cbv zeta. repeat (split; [reflexivity |]).
  exact (array_validation_rejects_repeated_value sample_engine nat sample_modules 0
           [("tags", VArr ([VStr "a"] ++ VStr "b" :: [VStr "c"] ++ VStr "b" :: [])%list)]
           [("field", VStr "tags"); ("enforceUnique", VBool true)] "tags"
           [VStr "a"] [VStr "c"] [] (VStr "b") (VStr "b")
           eq_refl eq_refl eq_refl eq_refl eq_refl eq_refl).
Defined.

(** ** Rules that are one another's special case or opposite *)

Section RelatedRules.

Variable eng : Engine.
Variable W : Type.
Variable mods : Modules W.

(** X10: the second check of "Nullability".  With no [nonNullable] list,
    the assertion fails at the first name of [nullable] that the record
    holds with a value other than [null]; a listed name the record does not
    hold passes. *)
Theorem nullability_nullable_reports_first_value
    (w : W) (props iprops : list (string * JsVal)) (names : list string) :
  lookup "nonNullable" iprops = None ->
  lookup "nullable" iprops = Some (VArr (map VStr names)) ->
  snd (validateObjectLevel eng W mods w (VObj props) "Nullability" (VObj iprops))
  = Normal (verdict_of
              (option_map must_be_null
                 (find (fun n => has_own (VObj props) n
                                 && negb (exactly_null props n)) names))).
Proof.
  intros Hnon Hnullable. unfold validateObjectLevel.
  change (kind_of "Nullability") with Nullability. cbn [pure_case snd].
  unfold case_Nullability, get_default.
  rewrite (get_absent eng _ _ Hnon eq_refl), (get_own eng _ _ _ Hnullable).
  cbn [destructure is_nullish bind iterate for_each].
  rewrite (for_each_find _
             (fun v => match v with
                       | VStr n => has_own (VObj props) n
                                   && negb (exactly_null props n)
                       | _ => false
                       end)
             (fun v => match v with
                       | VStr n => must_be_null n
                       | _ => EmptyString
                       end)).
  - cbn [bind]. rewrite find_map. now destruct (find _ names).
  - intros x Hx. apply in_map_iff in Hx. destruct Hx as (n & <- & _).
    unfold hasOwnProperty_call, get_prop. cbn [to_string bind is_nullish].
    rewrite get_is_null.
    destruct (has_own (VObj props) n); [| reflexivity].
    now destruct (exactly_null props n).
Qed.

(** X11: strict "Schema Compliance" is the plain one together with "No
    Additional Fields" for the names of the schema: a record passes the
    strict assertion exactly when it passes those two. *)
Theorem strict_schema_is_schema_and_no_additional
    (w : W) (props sprops : list (string * JsVal)) :
  lookup "hasOwnProperty" sprops = None ->
  let ins strict := VObj [("schema", VObj sprops); ("strict", VBool strict)] in
  snd (validateObjectLevel eng W mods w (VObj props) "Schema Compliance" (ins true))
  = Normal passing
  <-> snd (validateObjectLevel eng W mods w (VObj props) "Schema Compliance"
             (ins false))
      = Normal passing
      /\ snd (validateObjectLevel eng W mods w (VObj props) "No Additional Fields"
                (VArr (map VStr (own_keys (VObj sprops)))))
         = Normal passing.
Proof.
  intros Hmethod ins. unfold validateObjectLevel.
  change (kind_of "Schema Compliance") with SchemaCompliance.
  change (kind_of "No Additional Fields") with NoAdditionalFields.
  cbn [pure_case snd]. rewrite case_NoAdditionalFields_list.
  unfold case_SchemaCompliance, ins.
  change (get_default eng (VObj [("schema", VObj sprops); ("strict", VBool true)])
            "strict" (VBool false)) with (VBool true).
  change (get_default eng (VObj [("schema", VObj sprops); ("strict", VBool false)])
            "strict" (VBool false)) with (VBool false).
  change (get eng (VObj [("schema", VObj sprops); ("strict", VBool true)]) "schema")
    with (VObj sprops).
  change (get eng (VObj [("schema", VObj sprops); ("strict", VBool false)]) "schema")
    with (VObj sprops).
  cbn [destructure is_nullish bind truthy typeof negb orb String.eqb Ascii.eqb
       Bool.eqb].
  match goal with
  | |- context [bind (for_each ?body (own_keys (VObj sprops)))] =>
      destruct (for_each body (own_keys (VObj sprops))) as [[m |] | e]
  end; cbn [bind].
  - split; [discriminate | intros [H _]; discriminate].
  - unfold object_keys. cbn [is_nullish bind].
    rewrite (for_each_find _ (fun k => negb (has_own (VObj sprops) k))
               (fun k => "Strict schema compliance failed. Unexpected field "
                         ++ quoted k ++ ".")).
    + cbn [bind].
      assert (forall v, Normal v = Normal passing <-> v = passing) as Hn
          by (intros v; split; [now intros [= ->] | now intros ->]).
      rewrite !Hn, !verdict_of_find_passing.
      split.
      * intros Hall. split; [reflexivity |]. intros k Hk.
        rewrite set_has_strings. apply Bool.negb_false_iff, mem_string_In.
        apply own_keys_has_own. specialize (Hall k Hk).
        now apply Bool.negb_false_iff in Hall.
      * intros [_ Hall] k Hk. specialize (Hall k Hk).
        rewrite set_has_strings in Hall.
        apply Bool.negb_false_iff, mem_string_In, own_keys_has_own in Hall.
        now apply Bool.negb_false_iff.
    + intros k _. unfold hasOwnProperty_method. cbn [is_nullish].
      rewrite (get_hasOwnProperty eng _ Hmethod). cbn [to_string bind].
      now destruct (has_own (VObj sprops) k).
  - split; [discriminate | intros [H _]; discriminate].
Qed.

(** X12: "Disallowed Pattern" is the opposite of "Pattern Matching": for one
    field and one pattern, whenever both give a verdict, one passes exactly
    when the other fails. *)
Theorem disallowed_pattern_negates_pattern_matching
    (w : W) (obj ins : JsVal) (v v' : Verdict) :
  get eng ins "disallowedPattern" = get eng ins "pattern" ->
  snd (validateObjectLevel eng W mods w obj "Pattern Matching" ins) = Normal v ->
  snd (validateObjectLevel eng W mods w obj "Disallowed Pattern" ins) = Normal v' ->
  pass v' = negb (pass v).
Proof.
  intros Hsame. unfold validateObjectLevel.
  change (kind_of "Pattern Matching") with PatternMatching.
  change (kind_of "Disallowed Pattern") with DisallowedPattern.
  cbn [pure_case snd]. unfold case_PatternMatching, case_DisallowedPattern.
  rewrite Hsame.
  destruct (destructure ins); cbn [bind]; [| discriminate].
  destruct (regexp_new eng (get eng ins "pattern")) as [re | e];
    cbn [bind]; [| discriminate].
  destruct (get_prop eng obj (get eng ins "field")) as [x | e];
    cbn [bind]; [| discriminate].
  destruct (regexp_test_value eng re (or_else x (VStr EmptyString)))
    as [matched | e]; cbn [bind]; [| discriminate].
  destruct matched; cbn [negb].
  - intros [= <-].
    destruct (to_string eng (get eng ins "field")); cbn [bind]; [| discriminate].
    destruct (to_string eng (get eng ins "pattern")); cbn [bind]; [| discriminate].
    now intros [= <-].
  - destruct (to_string eng (get eng ins "field")); cbn [bind]; [| discriminate].
    destruct (to_string eng (get eng ins "pattern")); cbn [bind]; [| discriminate].
    now intros [= <-] [= <-].
Qed.

(** X13: "Default Values" never looks at the value of the field or at the
    default it is given: a record passes it exactly when it passes "Required
    Fields" for that one field. *)
Theorem default_values_is_required_field
    (w : W) (props iprops : list (string * JsVal)) (f : string) :
  lookup "field" iprops = Some (VStr f) ->
  snd (validateObjectLevel eng W mods w (VObj props) "Default Values" (VObj iprops))
  = Normal passing
  <-> snd (validateObjectLevel eng W mods w (VObj props) "Required Fields"
             (VArr [VStr f]))
      = Normal passing.
Proof.
  intros Hfield. unfold validateObjectLevel.
  change (kind_of "Default Values") with DefaultValues.
  change (kind_of "Required Fields") with RequiredFields.
  cbn [pure_case snd].
  change (VArr [VStr f]) with (VArr (map VStr [f])).
  rewrite case_RequiredFields_names. unfold case_DefaultValues.
  rewrite (get_own eng _ _ _ Hfield).
  unfold hasOwnProperty_call.
  cbn [destructure is_nullish bind to_string find].
  destruct (has_own (VObj props) f); cbn [negb option_map verdict_of].
  - tauto.
  - destruct (to_string eng (get eng (VObj iprops) "defaultValue"));
      cbn [bind]; split; discriminate.
Qed.

(** X14: "Enumeration Validation" calls [includes] on whatever
    [allowedValues] is.  When it is a text rather than a list, a text field
    passes exactly when its value occurs somewhere inside that text. *)
Theorem enumeration_against_text_is_substring_test
    (w : W) (props iprops : list (string * JsVal)) (f a s : string) :
  lookup "field" iprops = Some (VStr f) ->
  lookup "allowedValues" iprops = Some (VStr a) ->
  lookup f props = Some (VStr s) ->
  exists m,
    snd (validateObjectLevel eng W mods w (VObj props) "Enumeration Validation"
           (VObj iprops))
    = Normal {| pass := string_includes s a; msg := m |}.
Proof.
  intros Hfield Hallowed Hheld. unfold validateObjectLevel.
  change (kind_of "Enumeration Validation") with EnumerationValidation.
  cbn [pure_case snd]. unfold case_EnumerationValidation.
  rewrite (get_own eng _ _ _ Hfield), (get_own eng _ _ _ Hallowed).
  unfold get_prop. cbn [destructure is_nullish bind to_string].
  rewrite (get_own eng _ _ _ Hheld). cbn [includes_method to_string bind].
  destruct (string_includes s a); cbn [negb]; eexists; reflexivity.
Qed.

(** X15: every rule that begins by reading names out of its inputs raises a
    TypeError when the assertion object has no inputs; on a record response
    the runner turns it into a failed result that carries the text of the
    error. *)
Theorem missing_inputs_raise_type_error
    (st : Store W) (kind : string) (ins : JsVal) :
  In kind destructuring_kinds ->
  is_nullish ins = true ->
  isArray (responseData st) = false ->
  snd (validateObjectLevel eng W mods (world st) (responseData st) kind ins)
  = Abrupt (ErrDestructure ins)
  /\ snd (runAssertions eng W mods st [spec_of kind ins])
     = [result kind false
          (VStr ("Error during assertion " ++ quoted kind ++ ": "
                 ++ error_text eng (ErrDestructure ins)))].
Proof.
  intros Hkind Hnull Hrecord.
  assert (validateObjectLevel eng W mods (world st) (responseData st) kind ins
          = (world st, responseData st, ins, Abrupt (ErrDestructure ins))) as Hraise.
  { unfold destructuring_kinds in Hkind. cbn [In] in Hkind.
    destruct ins; try discriminate Hnull;
      repeat (destruct Hkind as [<- | Hkind]; [reflexivity |]);
      contradiction. }
  split; [now rewrite Hraise |].
  rewrite runAssertions_single, Hrecord. f_equal.
  now apply (run_one_catches_on_record eng W mods st kind ins _ _ _ _ Hraise).
Qed.

End RelatedRules.

Lemma nullability_nullable_reports_first_value_witness :
  let ins := [("nullable", VArr (map VStr ["deletedAt"; "note"]))] in
  lookup "nonNullable" ins = None
  /\ lookup "nullable" ins = Some (VArr (map VStr ["deletedAt"; "note"]))
  /\ snd (validateObjectLevel sample_engine nat sample_modules 0
            (VObj [("note", VStr "n")]) "Nullability" (VObj ins))
     = Normal (failing (must_be_null "note")).
Proof.
  cbv zeta. split; [reflexivity | split; [reflexivity |]].
  exact (nullability_nullable_reports_first_value sample_engine nat sample_modules
           0 [("note", VStr "n")]
           [("nullable", VArr (map VStr ["deletedAt"; "note"]))]
           ["deletedAt"; "note"] eq_refl eq_refl).
Defined.

Lemma strict_schema_is_schema_and_no_additional_witness :
  let schema := [("id", VStr "number")] in
  let record := VObj [("id", num 1)] in
  lookup "hasOwnProperty" schema = None
  /\ (snd (validateObjectLevel sample_engine nat sample_modules 0 record
             "Schema Compliance"
             (VObj [("schema", VObj schema); ("strict", VBool true)]))
      = Normal passing
      <-> snd (validateObjectLevel sample_engine nat sample_modules 0 record
                 "Schema Compliance"
                 (VObj [("schema", VObj schema); ("strict", VBool false)]))
          = Normal passing
          /\ snd (validateObjectLevel sample_engine nat sample_modules 0 record
                    "No Additional Fields"
                    (VArr (map VStr (own_keys (VObj schema)))))
             = Normal passing).
Proof.
  cbv zeta. split; [reflexivity |].
  exact (strict_schema_is_schema_and_no_additional sample_engine nat sample_modules
           0 [("id", num 1)] [("id", VStr "number")] eq_refl).
Defined.

Lemma disallowed_pattern_negates_pattern_matching_witness :
  let ins := VObj [("field", VStr "name"); ("pattern", VStr "ab");
                   ("disallowedPattern", VStr "ab")] in
  let record := VObj [("name", VStr "cab")] in
  let found := failing ("Field " ++ quoted "name"
                        ++ " has disallowed characters matching: ab") in
  get sample_engine ins "disallowedPattern" = get sample_engine ins "pattern"
  /\ snd (validateObjectLevel sample_engine nat sample_modules 0 record
            "Pattern Matching" ins) = Normal passing
  /\ snd (validateObjectLevel sample_engine nat sample_modules 0 record
            "Disallowed Pattern" ins) = Normal found
  /\ pass found = negb (pass passing).
Proof.
  cbv zeta. repeat (split; [reflexivity |]).
  exact (disallowed_pattern_negates_pattern_matching sample_engine nat
           sample_modules 0 (VObj [("name", VStr "cab")])
           (VObj [("field", VStr "name"); ("pattern", VStr "ab");
                  ("disallowedPattern", VStr "ab")])
           passing
           (failing ("Field " ++ quoted "name"
                     ++ " has disallowed characters matching: ab"))
           eq_refl eq_refl eq_refl).
Defined.

Lemma default_values_is_required_field_witness :
  let ins := [("field", VStr "role"); ("defaultValue", VStr "user")] in
  let record := [("role", VStr "admin")] in
  lookup "field" ins = Some (VStr "role")
  /\ (snd (validateObjectLevel sample_engine nat sample_modules 0 (VObj record)
             "Default Values" (VObj ins))
      = Normal passing
      <-> snd (validateObjectLevel sample_engine nat sample_modules 0 (VObj record)
                 "Required Fields" (VArr [VStr "role"]))
          = Normal passing).
Proof.
  cbv zeta. split; [reflexivity |].
  exact (default_values_is_required_field sample_engine nat sample_modules 0
           [("role", VStr "admin")]
           [("field", VStr "role"); ("defaultValue", VStr "user")] "role" eq_refl).
Defined.

Lemma enumeration_against_text_is_substring_test_witness :
  let ins := [("field", VStr "status"); ("allowedValues", VStr "inactive")] in
  let record := [("status", VStr "act")] in
  lookup "field" ins = Some (VStr "status")
  /\ lookup "allowedValues" ins = Some (VStr "inactive")
  /\ lookup "status" record = Some (VStr "act")
  /\ string_includes "act" "inactive" = true
  /\ exists m,
       snd (validateObjectLevel sample_engine nat sample_modules 0 (VObj record)
              "Enumeration Validation" (VObj ins))
       = Normal {| pass := string_includes "act" "inactive"; msg := m |}.
Proof.
  cbv zeta. repeat (split; [reflexivity |]).
  exact (enumeration_against_text_is_substring_test sample_engine nat
           sample_modules 0 [("status", VStr "act")]
           [("field", VStr "status"); ("allowedValues", VStr "inactive")]
           "status" "inactive" "act" eq_refl eq_refl eq_refl).
Defined.

Lemma missing_inputs_raise_type_error_witness :
  In "Date Field Validation" destructuring_kinds
  /\ is_nullish VUndefined = true
  /\ isArray (responseData (sample_store (VObj [("a", num 1)]))) = false
  /\ snd (runAssertions sample_engine nat sample_modules
            (sample_store (VObj [("a", num 1)]))
            [spec_of "Date Field Validation" VUndefined])
     = [result "Date Field Validation" false
          (VStr ("Error during assertion " ++ quoted "Date Field Validation"
                 ++ ": Cannot destructure"))].
Proof.
  assert (In "Date Field Validation" destructuring_kinds) as Hkind
      by (unfold destructuring_kinds; cbn [In]; tauto).
  split; [exact Hkind | split; [reflexivity | split; [reflexivity |]]].
  exact (proj2
           (missing_inputs_raise_type_error sample_engine nat sample_modules
              (sample_store (VObj [("a", num 1)])) "Date Field Validation"
              VUndefined Hkind eq_refl eq_refl)).
Defined.

(** ** The runner, on any list of assertions *)

Section RunnerInvariants.

Variable eng : Engine.
Variable W : Type.
Variable mods : Modules W.

(** What holds of the result of every turn holds of every result of the
    loop. *)
Lemma run_loop_Forall (P : AssertionResult -> Prop) (isArr : bool) :
  (forall st a, P (snd (run_one eng W mods isArr st a))) ->
  forall assertions st results,
    Forall P results ->
    Forall P (snd (run_loop eng W mods isArr st results assertions)).
Proof.
  intros Hturn. induction assertions as [| a rest IH]; intros st results Hres.
  - exact Hres.
  - rewrite run_loop_cons_eq. cbv zeta. cbn [snd]. apply IH.
    unfold push. apply Forall_app. split; [exact Hres |].
    constructor; [apply Hturn | constructor].
Qed.

Lemma outcome_of_passed (kind : string) (p m : JsVal) :
  passed (outcome_of kind p m) = true ->
  message (outcome_of kind p m) = VStr "Assertion passed.".
Proof. unfold outcome_of. now destruct (truthy p). Qed.

Lemma run_one_passed (isArr : bool) (st : Store W) (a : AssertionObj) :
  passed (snd (run_one eng W mods isArr st a)) = true ->
  message (snd (run_one eng W mods isArr st a)) = VStr "Assertion passed.".
Proof.
  destruct a as [kind ins]. unfold run_one. destruct isArr.
  - unfold classifyAssertion.
    destruct (mem_string kind arrayAssertions); cbn [negb snd].
    + destruct (validateArrayLevel eng _ kind ins); cbn [snd];
        [apply outcome_of_passed | discriminate].
    + apply outcome_of_passed.
  - destruct (validateObjectLevel eng W mods (world st) (responseData st) kind ins)
      as [[[w' obj'] ins'] [v | err]]; cbn [snd];
      [apply outcome_of_passed | discriminate].
Qed.

(** X16: whatever the response and the assertions, a result that passed
    carries the message "Assertion passed.": the message a rule gives with a
    passing verdict, such as the note that a kind is not recognized, never
    reaches the caller. *)
Theorem passed_results_carry_one_message
    (st : Store W) (assertions : list AssertionObj) :
  Forall (fun r => passed r = true -> message r = VStr "Assertion passed.")
         (snd (runAssertions eng W mods st assertions)).
Proof.
  unfold runAssertions.
  apply (run_loop_Forall
           (fun r => passed r = true -> message r = VStr "Assertion passed."));
    [| constructor].
  intros st' a. apply run_one_passed.
Qed.

(** X17: on a response that is not an array the message of every result is
    a text: a verdict's message, the fixed passing message, or the text of a
    caught error. *)
Theorem record_results_carry_text
    (st : Store W) (assertions : list AssertionObj) :
  isArray (responseData st) = false ->
  Forall (fun r => exists m, message r = VStr m)
         (snd (runAssertions eng W mods st assertions)).
Proof.
  intros Hrecord. unfold runAssertions. rewrite Hrecord.
  apply (run_loop_Forall (fun r => exists m, message r = VStr m));
    [| constructor].
  intros st' [kind ins]. unfold run_one.
  destruct (validateObjectLevel eng W mods (world st') (responseData st') kind ins)
    as [[[w' obj'] ins'] [v | err]]; cbn [snd].
  - unfold outcome_of. cbn [truthy]. destruct (pass v); cbn [negb]; eexists; reflexivity.
  - eexists; reflexivity.
Qed.

(** On an array response a turn of the loop leaves the store and the
    assertion object as they were, whatever the kind. *)
Lemma run_one_on_collection (st : Store W) (a : AssertionObj) :
  fst (run_one eng W mods true st a) = (st, a).
Proof.
  destruct a as [kind ins]. unfold run_one, classifyAssertion.
  destruct (mem_string kind arrayAssertions); cbn [negb];
    [destruct (validateArrayLevel eng _ kind ins) |]; reflexivity.
Qed.

Lemma validateArrayLevel_length (xs ys : list JsVal) (kind : string) (ins : JsVal) :
  length xs = length ys ->
  validateArrayLevel eng xs kind ins = validateArrayLevel eng ys kind ins.
Proof. intros H. unfold validateArrayLevel. now rewrite H. Qed.

Lemma run_one_collection_length
    (w w' : W) (items items' : list JsVal) (a : AssertionObj) :
  length items = length items' ->
  snd (run_one eng W mods true {| world := w; responseData := VArr items |} a)
  = snd (run_one eng W mods true {| world := w'; responseData := VArr items' |} a).
Proof.
  intros Hlen. destruct a as [kind ins]. unfold run_one, classifyAssertion.
  cbn [responseData as_array].
  destruct (mem_string kind arrayAssertions); cbn [negb].
  - rewrite (validateArrayLevel_length items items' kind ins Hlen).
    now destruct (validateArrayLevel eng items' kind ins).
  - reflexivity.
Qed.

Lemma run_loop_collection_length
    (w w' : W) (items items' : list JsVal) (assertions : list AssertionObj) :
  length items = length items' ->
  forall results,
    snd (run_loop eng W mods true {| world := w; responseData := VArr items |}
           results assertions)
    = snd (run_loop eng W mods true {| world := w'; responseData := VArr items' |}
             results assertions).
Proof.
  intros Hlen. induction assertions as [| a rest IH]; intros results; [reflexivity |].
  rewrite !run_loop_cons_eq. cbv zeta. cbn [snd].
  rewrite !run_one_on_collection. cbn [fst].
  rewrite (run_one_collection_length w w' items items' a Hlen). apply IH.
Qed.

(** X18: on an array response the results of a run depend on one thing
    only, the number of elements.  Two arrays of the same length get the
    same results for every list of assertions, whatever their elements are
    and whatever the world outside the engine is. *)
Theorem collection_results_depend_on_length_only
    (w w' : W) (items items' : list JsVal) (assertions : list AssertionObj) :
  length items = length items' ->
  snd (runAssertions eng W mods {| world := w; responseData := VArr items |}
         assertions)
  = snd (runAssertions eng W mods {| world := w'; responseData := VArr items' |}
           assertions).
Proof.
  intros Hlen. unfold runAssertions. cbn [responseData isArray as_array].
  now apply run_loop_collection_length.
Qed.

(** A validator can change what a record or an array holds, not whether
    the response is an array. *)
Lemma isArray_mutated (before after : JsVal) :
  isArray (mutated before after) = isArray before.
Proof. destruct before; try reflexivity; now destruct after. Qed.

Lemma run_one_keeps_isArray (isArr : bool) (st : Store W) (a : AssertionObj) :
  isArray (responseData (fst (fst (run_one eng W mods isArr st a))))
  = isArray (responseData st).
Proof.
  destruct isArr; [now rewrite run_one_on_collection |].
  destruct a as [kind ins]. unfold run_one.
  destruct (String.eqb_spec kind "Custom") as [-> | Hk].
  - unfold validateObjectLevel. change (kind_of "Custom") with Custom.
    unfold case_Custom.
    destruct (destructure ins); [| reflexivity].
    destruct (to_string eng (get eng ins "path")) as [specifier | e];
      [| now destruct (custom_catch eng (ThrowEngine e))].
    destruct (import_module mods specifier (world st)) as [w1 [err | [| | validate]]].
    + now destruct (custom_catch eng err).
    + reflexivity.
    + reflexivity.
    + cbn [fst snd responseData].
      destruct (outcome (validate w1 (responseData st) (rest_without_path eng ins)))
        as [r | err]; [| destruct (custom_catch eng err)];
        cbn [fst snd responseData]; apply isArray_mutated.
  - rewrite (validateObjectLevel_pure eng W mods _ _ _ _ Hk).
    now destruct (snd (validateObjectLevel eng W mods (world st) (responseData st)
                         kind ins)).
Qed.

Lemma run_loop_keeps_isArray (isArr : bool) (assertions : list AssertionObj) :
  forall st results,
    isArray (responseData
               (fst (fst (run_loop eng W mods isArr st results assertions))))
    = isArray (responseData st).
Proof.
  induction assertions as [| a rest IH]; intros st results; [reflexivity |].
  rewrite run_loop_cons_eq. cbv zeta. cbn [fst snd].
  now rewrite IH, run_one_keeps_isArray.
Qed.

Lemma run_loop_app (isArr : bool) (first : list AssertionObj) :
  forall st results second,
    snd (run_loop eng W mods isArr st results (first ++ second))
    = snd (run_loop eng W mods isArr
             (fst (fst (run_loop eng W mods isArr st results first)))
             (snd (run_loop eng W mods isArr st results first)) second).
Proof.
  induction first as [| a rest IH]; intros st results second; [reflexivity |].
  cbn [app]. rewrite !run_loop_cons_eq. cbv zeta. cbn [fst snd]. apply IH.
Qed.

(** X19: a run is the runs of its parts in sequence.  Running a list of
    assertions gives the results of running a first part of the list,
    followed by the results of running the rest on the store the first part
    left behind. *)
Theorem runAssertions_in_parts
    (st : Store W) (first second : list AssertionObj) :
  let before := runAssertions eng W mods st first in
  snd (runAssertions eng W mods st (first ++ second))
  = (snd before ++ snd (runAssertions eng W mods (fst (fst before)) second))%list.
Proof.
  cbv zeta. unfold runAssertions.
  rewrite run_loop_keeps_isArray, run_loop_app.
  now rewrite run_loop_results.
Qed.

End RunnerInvariants.

Lemma record_results_carry_text_witness :
  isArray (responseData (sample_store (VObj [("id", VNull)]))) = false
  /\ Forall (fun r => exists m, message r = VStr m)
            (snd (runAssertions sample_engine nat sample_modules
                    (sample_store (VObj [("id", VNull)])) pure_assertions)).
Proof.
  split; [reflexivity |].
  exact (record_results_carry_text sample_engine nat sample_modules
           (sample_store (VObj [("id", VNull)])) pure_assertions eq_refl).
Defined.

Lemma collection_results_depend_on_length_only_witness :
  let good := [VObj [("id", num 1)]; VObj [("id", num 2)]] in
  let bad := [VNull; VStr "x"] in
  let assertions :=
    [spec_of "Required Fields" (VArr [VStr "id"]);
     spec_of "Array Validation" (VObj [("minLength", num 1)])] in
  length good = length bad
  /\ snd (runAssertions sample_engine nat sample_modules
            {| world := 0; responseData := VArr good |} assertions)
     = snd (runAssertions sample_engine nat sample_modules
              {| world := 5; responseData := VArr bad |} assertions).
Proof.
  cbv zeta. split; [reflexivity |].
  exact (collection_results_depend_on_length_only sample_engine nat
           sample_modules 0 5
           [VObj [("id", num 1)]; VObj [("id", num 2)]] [VNull; VStr "x"]
           [spec_of "Required Fields" (VArr [VStr "id"]);
            spec_of "Array Validation" (VObj [("minLength", num 1)])]
           eq_refl).
Defined.

(** ** The fan-out over the elements of an array, awaited *)

Lemma failed_indices_cons (v : Verdict) (rest : list Verdict) :
  failed_indices (v :: rest)
  = ((if pass v then [] else [0]) ++ map S (failed_indices rest))%list.
Proof.
  unfold failed_indices. cbn [length seq]. rewrite <- seq_shift.
  cbn [filter]. change (nth 0 (v :: rest) passing) with v.
  assert (forall l,
             filter (fun j => negb (pass (nth j (v :: rest) passing))) (map S l)
             = map S (filter (fun j => negb (pass (nth j rest passing))) l)) as Hshift.
  { induction l as [| j l IH]; [reflexivity |].
    cbn [map filter]. change (nth (S j) (v :: rest) passing) with (nth j rest passing).
    rewrite IH. now destruct (negb (pass (nth j rest passing))). }
  rewrite Hshift. now destruct (pass v).
Qed.

(** The failing entries are the failing indices, each with the message of
    its verdict. *)
Lemma failing_entries_by_index (verdicts : list Verdict) :
  forall i,
    failing_entries i verdicts
    = map (fun j => (i + j, msg (nth j verdicts passing))) (failed_indices verdicts).
Proof.
  induction verdicts as [| v rest IH]; intros i; [reflexivity |].
  cbn [failing_entries]. rewrite failed_indices_cons, map_app, map_map, IH.
  assert (map (fun j => (S i + j, msg (nth j rest passing))) (failed_indices rest)
          = map (fun j => (i + S j, msg (nth (S j) (v :: rest) passing)))
                (failed_indices rest)) as ->
      by (apply map_ext; intros j; cbn [nth]; f_equal; lia).
  destruct (pass v); cbn [map app nth]; [reflexivity |].
  now rewrite Nat.add_0_r.
Qed.

Section FanOutMore.

Variable eng : Engine.
Variable W : Type.
Variable mods : Modules W.

Lemma item_record_is_object (item : JsVal) :
  not_an_object (item_record item) = false.
Proof.
  unfold item_record. destruct (not_an_object item) eqn:H; [reflexivity | exact H].
Qed.

Lemma item_record_idempotent (item : JsVal) :
  item_record (item_record item) = item_record item.
Proof. unfold item_record at 1. now rewrite item_record_is_object. Qed.

(** The answer of the fan-out is read from the two lists of the loop. *)
Lemma validateOnArrayItems_snd
    (w : W) (items : list JsVal) (kind : string) (ins : JsVal) :
  snd (validateOnArrayItems eng W mods w items kind ins)
  = let* lists := snd (items_loop eng W mods w kind ins 0 items [] []) in
    if (0 <? length (fst lists))%nat then
      Normal (failing ("Item(s) at index ["
                       ++ concat_with ", " (map string_of_nat (fst lists))
                       ++ "] failed. Reasons: "
                       ++ concat_with " | " (snd lists)))
    else Normal passing.
Proof.
  unfold validateOnArrayItems.
  destruct (items_loop eng W mods w kind ins 0 items [] [])
    as [[[w' items'] ins'] [[failedIndices subMessages] | e]]; reflexivity.
Qed.

(** One turn of the loop, for a kind other than "Custom": the element is
    evaluated as its record, and an error ends the loop. *)
Lemma items_loop_turn
    (w : W) (kind : string) (ins : JsVal) (i : nat) (item : JsVal)
    (rest : list JsVal) (failedIndices : list nat) (subMessages : list string) :
  kind <> "Custom" ->
  snd (items_loop eng W mods w kind ins i (item :: rest) failedIndices subMessages)
  = match snd (validateObjectLevel eng W mods w (item_record item) kind ins) with
    | Abrupt e => Abrupt e
    | Normal v =>
        if negb (pass v) then
          snd (items_loop eng W mods w kind ins (S i) rest
                 (push failedIndices i)
                 (push subMessages
                       ("Index " ++ string_of_nat i ++ ": " ++ msg v)))
        else
          snd (items_loop eng W mods w kind ins (S i) rest
                 failedIndices subMessages)
    end.
Proof.
  intros Hk. cbn [items_loop]. unfold item_record.
  destruct (not_an_object item);
    match goal with
    | |- context [validateObjectLevel eng W mods w ?obj kind ins] =>
        pose proof (validateObjectLevel_pure eng W mods w obj kind ins Hk) as E;
        destruct (validateObjectLevel eng W mods w obj kind ins)
          as [[[w1 obj1] ins1] [v | e]];
        cbn [snd] in E |- *; injection E as -> -> ->; [| reflexivity]
    end;
    destruct (pass v); cbn [negb];
    match goal with
    | |- context [items_loop eng W mods w kind ins (S i) rest ?fi ?sm] =>
        now destruct (items_loop eng W mods w kind ins (S i) rest fi sm)
          as [[[w2 rest'] ins2] r]
    end.
Qed.

Lemma items_loop_first_error
    (w : W) (kind : string) (ins : JsVal) (item : JsVal) (post : list JsVal)
    (e : EngineError) :
  kind <> "Custom" ->
  snd (validateObjectLevel eng W mods w (item_record item) kind ins) = Abrupt e ->
  forall pre verdicts i failedIndices subMessages,
    map (fun x => snd (validateObjectLevel eng W mods w (item_record x) kind ins))
        pre
    = map Normal verdicts ->
    snd (items_loop eng W mods w kind ins i (pre ++ item :: post)
           failedIndices subMessages)
    = Abrupt e.
Proof.
  intros Hk Herr.
  induction pre as [| x pre' IH];
    intros [| v verdicts] i failedIndices subMessages Hall;
    try discriminate Hall; cbn [app]; rewrite (items_loop_turn _ _ _ _ _ _ _ _ Hk).
  - now rewrite Herr.
  - cbn [map] in Hall. injection Hall as Hhead Htail. rewrite Hhead.
    destruct (negb (pass v)); now apply (IH verdicts).
Qed.

(** X20: the fan-out stops at the first element whose evaluation raises an
    error.  For a kind other than "Custom", when the elements before it are
    evaluated to verdicts, the awaited call raises that error, whatever
    those verdicts are and whatever elements follow. *)
Theorem fan_out_stops_at_first_error
    (w : W) (kind : string) (ins : JsVal) (pre post : list JsVal) (item : JsVal)
    (verdicts : list Verdict) (e : EngineError) :
  kind <> "Custom" ->
  map (fun x => snd (validateObjectLevel eng W mods w (item_record x) kind ins)) pre
  = map Normal verdicts ->
  snd (validateObjectLevel eng W mods w (item_record item) kind ins) = Abrupt e ->
  snd (validateOnArrayItems eng W mods w (pre ++ item :: post) kind ins) = Abrupt e.
Proof.
  intros Hk Hall Herr. rewrite validateOnArrayItems_snd.
  now rewrite (items_loop_first_error w kind ins item post e Hk Herr
                 pre verdicts 0 [] [] Hall).
Qed.

Lemma items_loop_on_records (w : W) (kind : string) (ins : JsVal) :
  kind <> "Custom" ->
  forall items i failedIndices subMessages,
    snd (items_loop eng W mods w kind ins i items failedIndices subMessages)
    = snd (items_loop eng W mods w kind ins i (map item_record items)
             failedIndices subMessages).
Proof.
  intros Hk. induction items as [| item rest IH];
    intros i failedIndices subMessages; [reflexivity |].
  cbn [map]. rewrite !(items_loop_turn _ _ _ _ _ _ _ _ Hk), item_record_idempotent.
  destruct (snd (validateObjectLevel eng W mods w (item_record item) kind ins))
    as [v | e]; [| reflexivity].
  destruct (negb (pass v)); apply IH.
Qed.

(** X21: an element that is not an object is evaluated as the record
    [{ value: element }].  For a kind other than "Custom" the awaited
    fan-out answers on an array as it does on the array of those records;
    so an array of numbers passes "Number Field Validation" of the field
    [value]. *)
Theorem fan_out_wraps_scalars
    (w : W) (kind : string) (ins : JsVal) (items : list JsVal)
    (numbers : list number) :
  kind <> "Custom" ->
  snd (validateOnArrayItems eng W mods w items kind ins)
  = snd (validateOnArrayItems eng W mods w (map item_record items) kind ins)
  /\ snd (validateOnArrayItems eng W mods w (map VNum numbers)
            "Number Field Validation" (VArr [VStr "value"]))
     = Normal passing.
Proof.
  intros Hk. split.
  - rewrite !validateOnArrayItems_snd.
    now rewrite (items_loop_on_records w kind ins Hk items 0 [] []).
  - rewrite (validateOnArrayItems_aggregates eng W mods w
               "Number Field Validation" (VArr [VStr "value"]) (map VNum numbers)
               (map (fun _ => passing) numbers)).
    + cbn [snd]. f_equal. unfold aggregate.
      assert (failing_entries 0 (map (fun _ : number => passing) numbers) = [])
        as -> by (apply failing_entries_nil; now induction numbers).
      reflexivity.
    + discriminate.
    + rewrite !map_map. apply map_ext. reflexivity.
Qed.

(** X22: the awaited fan-out, for a kind other than "Custom" and elements
    that are each evaluated to a verdict: it passes when no verdict fails,
    and otherwise fails with a message that lists the indices of the failing
    elements, ascending, and then, for each of them in that order, its index
    and the message of its verdict. *)
Theorem fan_out_lists_failing_indices
    (w : W) (kind : string) (ins : JsVal) (items : list JsVal)
    (verdicts : list Verdict) :
  kind <> "Custom" ->
  map (fun x => snd (validateObjectLevel eng W mods w (item_record x) kind ins))
      items
  = map Normal verdicts ->
  snd (validateOnArrayItems eng W mods w items kind ins)
  = Normal
      (match failed_indices verdicts with
       | [] => passing
       | failed =>
           failing
             ("Item(s) at index [" ++ concat_with ", " (map string_of_nat failed)
              ++ "] failed. Reasons: "
              ++ concat_with " | "
                   (map (fun j => "Index " ++ string_of_nat j ++ ": "
                                  ++ msg (nth j verdicts passing))
                        failed))
       end).
Proof.
  intros Hk Hall.
  rewrite (validateOnArrayItems_aggregates eng W mods w kind ins items verdicts
             Hk Hall).
  cbn [snd]. f_equal. unfold aggregate.
  rewrite failing_entries_by_index.
  destruct (failed_indices verdicts) as [| j rest]; [reflexivity |].
  cbn [map]. unfold index_message. cbn [fst snd Nat.add].
  now rewrite !map_map.
Qed.

End FanOutMore.

Lemma fan_out_stops_at_first_error_witness :
  let kind := "Enumeration Validation" in
  let ins := VObj [("field", VStr "value"); ("allowedValues", VArr [num 1])] in
  "Enumeration Validation" <> "Custom"
  /\ map (fun x => snd (validateObjectLevel sample_engine nat sample_modules 0
                          (item_record x) kind ins)) [num 1]
     = map Normal [passing]
  /\ snd (validateObjectLevel sample_engine nat sample_modules 0
            (item_record (VObj [("value", VObj [("toString", num 1)])])) kind ins)
     = Abrupt (ErrToPrimitive (VObj [("toString", num 1)]))
  /\ snd (validateOnArrayItems sample_engine nat sample_modules 0
            ([num 1] ++ VObj [("value", VObj [("toString", num 1)])] :: [num 2])%list
            kind ins)
     = Abrupt (ErrToPrimitive (VObj [("toString", num 1)])).
Proof.
  cbv zeta.
  assert ("Enumeration Validation" <> "Custom") as Hk by discriminate.
  split; [exact Hk | split; [reflexivity | split; [reflexivity |]]].
  exact (fan_out_stops_at_first_error sample_engine nat sample_modules 0
           "Enumeration Validation"
           (VObj [("field", VStr "value"); ("allowedValues", VArr [num 1])])
           [num 1] [num 2] (VObj [("value", VObj [("toString", num 1)])])
           [passing] (ErrToPrimitive (VObj [("toString", num 1)]))
           Hk eq_refl eq_refl).
Defined.

Lemma fan_out_wraps_scalars_witness :
  "Required Fields" <> "Custom"
  /\ snd (validateOnArrayItems sample_engine nat sample_modules 0
            [VStr "a"; VNull] "Required Fields" (VArr [VStr "value"]))
     = snd (validateOnArrayItems sample_engine nat sample_modules 0
              (map item_record [VStr "a"; VNull]) "Required Fields"
              (VArr [VStr "value"])).
Proof.
  assert ("Required Fields" <> "Custom") as Hk by discriminate.
  split; [exact Hk |].
  exact (proj1
           (fan_out_wraps_scalars sample_engine nat sample_modules 0
              "Required Fields" (VArr [VStr "value"]) [VStr "a"; VNull] [] Hk)).
Defined.

Lemma fan_out_lists_failing_indices_witness :
  let kind := "Number Field Validation" in
  let items := [VObj [("a", VStr "x")]; VObj [("a", num 1)]; num 3] in
  let bad := failing ("Field " ++ quoted "a" ++ " is not a number.") in
  "Number Field Validation" <> "Custom"
  /\ map (fun x => snd (validateObjectLevel sample_engine nat sample_modules 0
                          (item_record x) kind (VArr [VStr "a"]))) items
     = map Normal [bad; passing; bad]
  /\ snd (validateOnArrayItems sample_engine nat sample_modules 0 items kind
            (VArr [VStr "a"]))
     = Normal (failing ("Item(s) at index [0, 2] failed. Reasons: "
                        ++ "Index 0: Field " ++ quoted "a" ++ " is not a number."
                        ++ " | Index 2: Field " ++ quoted "a"
                        ++ " is not a number.")).
Proof.
  cbv zeta.
  assert ("Number Field Validation" <> "Custom") as Hk by discriminate.
  split; [exact Hk | split; [reflexivity |]].
  exact (fan_out_lists_failing_indices sample_engine nat sample_modules 0
           "Number Field Validation" (VArr [VStr "a"])
           [VObj [("a", VStr "x")]; VObj [("a", num 1)]; num 3]
           [failing ("Field " ++ quoted "a" ++ " is not a number."); passing;
            failing ("Field " ++ quoted "a" ++ " is not a number.")]
           Hk eq_refl).
Defined.

(** ** What a custom validator is handed *)

Lemma lookup_map_keys (f : string -> JsVal) (keys : list string) (k : string) :
  lookup k (map (fun x => (x, f x)) keys)
  = if mem_string k keys then Some (f k) else None.
Proof.
  unfold mem_string. induction keys as [| x rest IH]; [reflexivity |].
  cbn [map lookup existsb]. destruct (String.eqb_spec k x) as [-> | Hne];
    [reflexivity | exact IH].
Qed.

Section BridgeMore.

Variable eng : Engine.

(** X23: the configuration a custom validator is handed holds every own
    property of the inputs except [path], each with the value the inputs
    hold, and nothing else. *)
Theorem rest_holds_inputs_without_path
    (iprops : list (string * JsVal)) (k : string) :
  own_value eng (rest_without_path eng (VObj iprops)) k
  = if String.eqb k "path" then None else lookup k iprops.
Proof.
  unfold rest_without_path. cbn [own_value own_keys]. rewrite lookup_map_keys.
  destruct (mem_string k _) eqn:Hmem.
  - apply mem_string_In, filter_In in Hmem. destruct Hmem as [Hin Hk].
    apply Bool.negb_true_iff in Hk. rewrite Hk.
    apply ordered_keys_In, lookup_In in Hin.
    destruct (lookup k iprops) as [v |] eqn:Hv; [| contradiction].
    now rewrite (get_own eng _ _ _ Hv).
  - destruct (String.eqb k "path") eqn:Hk; [reflexivity |].
    destruct (lookup k iprops) as [v |] eqn:Hv; [| reflexivity].
    assert (mem_string k
              (filter (fun x => negb (String.eqb x "path")) (ordered_keys iprops))
            = true) as Hyes.
    { apply mem_string_In, filter_In. split.
      - apply ordered_keys_In, lookup_In. congruence.
      - now rewrite Hk. }
    congruence.
Qed.

End BridgeMore.

(** ** Request headers *)

Lemma find_app_first {A} (cond : A -> bool) (xs ys : list A) :
  find cond (xs ++ ys)
  = match find cond xs with
    | Some x => Some x
    | None => find cond ys
    end.
Proof.
  induction xs as [| x rest IH]; [reflexivity |].
  cbn [app find]. destruct (cond x); [reflexivity | exact IH].
Qed.

Lemma lookup_put (k k' : string) (v : JsVal) (props : list (string * JsVal)) :
  lookup k (Headers.put k' v props)
  = if String.eqb k k' then Some v else lookup k props.
Proof.
  induction props as [| [k0 v0] rest IH]; [reflexivity |].
  cbn [Headers.put]. destruct (String.eqb_spec k' k0) as [-> | Hne]; cbn [lookup].
  - now destruct (String.eqb k k0).
  - rewrite IH. destruct (String.eqb_spec k k0) as [-> | Hk]; [| reflexivity].
    destruct (String.eqb_spec k0 k'); [congruence | reflexivity].
Qed.

Lemma lookup_assigned (k : string) (headersArr : list Headers.HeaderEntry) :
  forall result,
    lookup k (fold_left Headers.assign_text headersArr result)
    = if String.eqb k "__proto__" then lookup k result
      else match find (fun h => String.eqb (Headers.key h) k) (rev headersArr) with
           | Some h => Some (VStr (Headers.value h))
           | None => lookup k result
           end.
Proof.
  induction headersArr as [| h rest IH]; intros result.
  - cbn. now destruct (String.eqb k "__proto__").
  - cbn [fold_left rev]. rewrite IH, find_app_first.
    unfold Headers.assign_text. cbn [find].
    destruct (String.eqb_spec k "__proto__") as [-> | Hk].
    + destruct (String.eqb_spec (Headers.key h) "__proto__") as [_ | Hh];
        [reflexivity |].
      rewrite lookup_put.
      destruct (String.eqb_spec "__proto__" (Headers.key h)); [congruence | reflexivity].
    + destruct (find _ (rev rest)); [reflexivity |].
      destruct (String.eqb_spec (Headers.key h) k) as [Hhk | Hhk].
      * destruct (String.eqb_spec (Headers.key h) "__proto__"); [congruence |].
        rewrite lookup_put, <- Hhk. now rewrite String.eqb_refl.
      * destruct (String.eqb_spec (Headers.key h) "__proto__"); [reflexivity |].
        rewrite lookup_put.
        destruct (String.eqb_spec k (Headers.key h)); [congruence | reflexivity].
Qed.

Section HeaderFacts.

Variable eng : Engine.

(** X24: in the object [buildHeaders] makes of a list of entries, a header
    holds the value of the last entry with its name, and an entry named
    [__proto__] leaves no header. *)
Theorem buildHeaders_last_entry_wins
    (headersArr : list Headers.HeaderEntry) (k : string) :
  own_value eng (Headers.buildHeaders headersArr) k
  = if String.eqb k "__proto__" then None
    else option_map (fun h => VStr (Headers.value h))
           (find (fun h => String.eqb (Headers.key h) k) (rev headersArr)).
Proof.
  unfold Headers.buildHeaders. cbn [own_value]. rewrite lookup_assigned.
  cbn [lookup]. destruct (String.eqb k "__proto__"); [reflexivity |].
  now destruct (find _ (rev headersArr)).
Qed.

End HeaderFacts.

(** ** The figures of the report *)

Lemma count_test_cases (testResults : list Report.TestCaseResult) :
  forall c,
    let passes tc := forallb passed (Report.assertions tc) in
    fold_left Report.count_test_case testResults c
    = {| Report.totalTests := Report.totalTests c + length testResults;
         Report.totalPassedTests :=
           Report.totalPassedTests c + length (filter passes testResults);
         Report.totalFailedTests :=
           Report.totalFailedTests c
           + length (filter (fun tc => negb (passes tc)) testResults);
         Report.totalSkippedTests := Report.totalSkippedTests c |}.
Proof.
  cbv zeta. induction testResults as [| tc rest IH]; intros c.
  - cbn. destruct c. cbn. f_equal; lia.
  - cbn [fold_left]. rewrite IH. unfold Report.count_test_case.
    cbn [filter length].
    destruct (forallb passed (Report.assertions tc)); cbn [negb length];
      cbn [Report.totalTests Report.totalPassedTests Report.totalFailedTests
           Report.totalSkippedTests];
      f_equal; lia.
Qed.

Lemma none_filtered {A} (cond : A -> bool) (xs : list A) :
  length (filter (fun x => negb (cond x)) xs) = 0 <-> forallb cond xs = true.
Proof.
  induction xs as [| x rest IH]; [cbn; tauto |].
  cbn [filter forallb]. destruct (cond x); cbn [negb andb length].
  - exact IH.
  - split; discriminate.
Qed.

Section ReportFacts.

Variable eng : Engine.
Variable W : Type.
Variable mods : Modules W.

(** X25: the figures of the report.  Every test case is counted once, as
    passed when each of its assertion results passed (so also when it has
    none) and as failed otherwise; none is counted as skipped; and the
    report says that all tests passed exactly when no test case holds a
    failed assertion result. *)
Theorem report_counts_test_cases
    (testResults : list Report.TestCaseResult) (testSuiteName : JsVal) :
  let figures := Report.buildReportData eng testResults testSuiteName in
  let passes tc := forallb passed (Report.assertions tc) in
  Report.ALL_TESTS_TOTAL figures = length testResults
  /\ Report.ALL_TESTS_PASS figures = length (filter passes testResults)
  /\ Report.ALL_TESTS_PASS figures + Report.ALL_TESTS_FAIL figures
     = Report.ALL_TESTS_TOTAL figures
  /\ Report.ALL_TESTS_SKIP figures = 0
  /\ (Report.STATUS_TEXT figures = "All tests passed"
      <-> forallb passes testResults = true).
Proof.
  cbv zeta. unfold Report.buildReportData. rewrite count_test_cases.
  cbn [Report.totalTests Report.totalPassedTests Report.totalFailedTests
       Report.totalSkippedTests Report.ALL_TESTS_TOTAL Report.ALL_TESTS_PASS
       Report.ALL_TESTS_FAIL Report.ALL_TESTS_SKIP Report.STATUS_TEXT Nat.add].
  repeat split; try reflexivity.
  - apply filter_length.
  - intros Htext. apply none_filtered.
    destruct (Nat.eqb_spec
                (length (filter (fun tc => negb (forallb passed (Report.assertions tc)))
                           testResults)) 0) as [H0 | _]; [exact H0 | discriminate].
  - intros Hall. apply none_filtered in Hall. now rewrite Hall.
Qed.

(** On an array response the results of a run are those of its turns, each
    on the response as it was given. *)
Lemma run_loop_collection_map (st : Store W) (assertions : list AssertionObj) :
  forall results,
    snd (run_loop eng W mods true st results assertions)
    = (results ++ map (fun a => snd (run_one eng W mods true st a)) assertions)%list.
Proof.
  induction assertions as [| a rest IH]; intros results.
  - cbn. now rewrite app_nil_r.
  - rewrite run_loop_cons_eq. cbv zeta. cbn [snd map].
    rewrite run_one_on_collection. cbn [fst]. rewrite IH.
    unfold push. now rewrite <- app_assoc.
Qed.

(** X26: a test case whose response is an array and whose assertions
    include one of a kind other than "Array Validation" is counted as
    failed, whatever the array holds, and the report of a suite with that
    test case says that some tests failed. *)
Theorem collection_test_case_is_reported_failed
    (w : W) (items : list JsVal) (assertions : list AssertionObj)
    (a : AssertionObj) (description testSuiteName : JsVal) :
  In a assertions ->
  assertion a <> "Array Validation" ->
  let results :=
    snd (runAssertions eng W mods {| world := w; responseData := VArr items |}
           assertions) in
  let figures :=
    Report.buildReportData eng
      [{| Report.testCase := description; Report.assertions := results |}]
      testSuiteName in
  Report.ALL_TESTS_FAIL figures = 1
  /\ Report.ALL_TESTS_PASS figures = 0
  /\ Report.STATUS_TEXT figures = "Some tests failed".
Proof.
  intros Hin Hkind. cbv zeta.
  assert (forallb passed
            (snd (runAssertions eng W mods
                    {| world := w; responseData := VArr items |} assertions))
          = false) as Hfailed.
  { unfold runAssertions. cbn [responseData isArray as_array].
    rewrite run_loop_collection_map. cbn [app].
    destruct (forallb passed _) eqn:Hall; [| reflexivity].
    rewrite forallb_forall in Hall.
    specialize (Hall _ (in_map _ _ _ Hin)).
    destruct a as [kind ins]. cbn [assertion] in Hkind.
    change {| assertion := kind; inputs := ins |} with (spec_of kind ins) in Hall.
    rewrite run_one_item_level_on_array in Hall; [discriminate |].
    now apply String.eqb_neq. }
  unfold Report.buildReportData. cbn [fold_left].
  unfold Report.count_test_case. cbn [Report.assertions]. rewrite Hfailed.
  repeat split; reflexivity.
Qed.

End ReportFacts.

Lemma collection_test_case_is_reported_failed_witness :
  let a := spec_of "Required Fields" (VArr [VStr "id"]) in
  let items := [VObj [("id", num 1)]] in
  In a [a]
  /\ assertion a <> "Array Validation"
  /\ Report.STATUS_TEXT
       (Report.buildReportData sample_engine
          [{| Report.testCase := VStr "list users";
              Report.assertions :=
                snd (runAssertions sample_engine nat sample_modules
                       {| world := 0; responseData := VArr items |} [a]) |}]
          (VStr "suite"))
     = "Some tests failed".
Proof.
  cbv zeta.
  assert (In (spec_of "Required Fields" (VArr [VStr "id"]))
             [spec_of "Required Fields" (VArr [VStr "id"])]) as Hin by now left.
  assert (assertion (spec_of "Required Fields" (VArr [VStr "id"]))
          <> "Array Validation") as Hkind by discriminate.
  split; [exact Hin | split; [exact Hkind |]].
  exact (proj2 (proj2
           (collection_test_case_is_reported_failed sample_engine nat
              sample_modules 0 [VObj [("id", num 1)]]
              [spec_of "Required Fields" (VArr [VStr "id"])]
              (spec_of "Required Fields" (VArr [VStr "id"]))
              (VStr "list users") (VStr "suite") Hin Hkind))).
Defined.

(** The percentages of a report: two of three test cases passed. *)
Example report_percentages :
  let passed_case :=
    {| Report.testCase := VStr "a"; Report.assertions := [] |} in
  let failed_case :=
    {| Report.testCase := VStr "b";
       Report.assertions := [result "Required Fields" false (VStr "m")] |} in
  let figures :=
    Report.buildReportData sample_engine [passed_case; failed_case; passed_case]
      (VStr "suite") in
  Report.ALL_TESTS_PASS_PERCENT figures = "67"
  /\ Report.ALL_TESTS_FAIL_PERCENT figures = "33"
  /\ Report.ALL_TESTS_SKIP_PERCENT figures = "0"
  /\ Report.ALL_TESTS_PASS_PERCENT
       (Report.buildReportData sample_engine [] (VStr "suite")) = "0".
Proof. repeat split; reflexivity. Qed.

(** ** Kinds, types and text *)

Lemma ordered_keys_single (k : string) (v : JsVal) : ordered_keys [(k, v)] = [k].
Proof.
  unfold ordered_keys.
  cbn [map fst dedup mem_string existsb fold_right filter].
  now destruct (array_index k).
Qed.

Lemma trim_end_idempotent (s : string) : trim_end (trim_end s) = trim_end s.
Proof.
  induction s as [| c s' IH]; [reflexivity |].
  cbn [trim_end]. destruct (trim_end s') as [| d t] eqn:Ht.
  - destruct (is_space c) eqn:Hc; [reflexivity |].
    cbn [trim_end]. now rewrite Hc.
  - change (trim_end (String c (String d t)))
      with (match trim_end (String d t) with
            | EmptyString => if is_space c then EmptyString else String c EmptyString
            | String a b => String c (String a b)
            end).
    now rewrite IH.
Qed.

Lemma trim_start_shape (s : string) :
  trim_start s = EmptyString
  \/ exists c r, trim_start s = String c r /\ is_space c = false.
Proof.
  induction s as [| c s' IH]; [now left |].
  cbn [trim_start]. destruct (is_space c) eqn:Hc; [exact IH |].
  right. now exists c, s'.
Qed.

Lemma trim_end_keeps_head (c : ascii) (r : string) :
  is_space c = false -> exists r', trim_end (String c r) = String c r'.
Proof.
  intros Hc. cbn [trim_end]. destruct (trim_end r) as [| d t].
  - rewrite Hc. now exists EmptyString.
  - now exists (String d t).
Qed.

(** Trimming a trimmed text changes nothing. *)
Lemma trim_idempotent (s : string) : trim (trim s) = trim s.
Proof.
  unfold trim. destruct (trim_start_shape s) as [-> | (c & r & -> & Hc)];
    [reflexivity |].
  destruct (trim_end_keeps_head c r Hc) as [r' Hr'].
  rewrite Hr' at 1. cbn [trim_start]. rewrite Hc, <- Hr'.
  apply trim_end_idempotent.
Qed.

Section KindFacts.

Variable eng : Engine.
Variable W : Type.
Variable mods : Modules W.

(** X27: kinds are matched against the case labels exactly.  On a response
    that is not an array, an assertion of any kind that is not one of the
    labels is reported as passed, with the fixed message, and nothing is
    evaluated or changed. *)
Theorem kinds_outside_catalog_pass_on_record
    (st : Store W) (kind : string) (ins : JsVal) :
  recognized kind = false ->
  isArray (responseData st) = false ->
  runAssertions eng W mods st [spec_of kind ins]
  = (st, [spec_of kind ins], [result kind true (VStr "Assertion passed.")]).
Proof.
  intros Hout Hrecord. apply unrecognized_iff_outside_catalog in Hout.
  unfold runAssertions. rewrite Hrecord. cbn [run_loop].
  now rewrite (run_one_unrecognized_on_record eng W mods st kind ins Hout).
Qed.

(** X28: three ways to check the type of one field agree.  On a record,
    "Data Transformation" with a type name, "Multi-Type Fields" with that
    one name allowed, and "Schema Compliance" with a schema of that one
    field pass together: exactly when [typeof] of the field is the name. *)
Theorem single_field_type_checks_agree
    (w : W) (props : list (string * JsVal)) (f t : string) :
  let record := VObj props in
  let transformed :=
    snd (validateObjectLevel eng W mods w record "Data Transformation"
           (VObj [("field", VStr f); ("expectedTypeAfterCoercion", VStr t)])) in
  let multi :=
    snd (validateObjectLevel eng W mods w record "Multi-Type Fields"
           (VObj [("field", VStr f); ("allowedTypes", VArr [VStr t])])) in
  let schema :=
    snd (validateObjectLevel eng W mods w record "Schema Compliance"
           (VObj [("schema", VObj [(f, VStr t)])])) in
  (transformed = Normal passing <-> typeof (get eng record f) = t)
  /\ (multi = Normal passing <-> typeof (get eng record f) = t)
  /\ (schema = Normal passing <-> typeof (get eng record f) = t).
Proof.
  cbv zeta. unfold validateObjectLevel.
  change (kind_of "Data Transformation") with DataTransformation.
  change (kind_of "Multi-Type Fields") with MultiTypeFields.
  change (kind_of "Schema Compliance") with SchemaCompliance.
  cbn [pure_case snd].
  assert (get eng (VObj [(f, VStr t)]) f = VStr t) as Hschema
      by (apply get_own; cbn [lookup]; now rewrite String.eqb_refl).
  split; [| split].
  - unfold case_DataTransformation.
    change (get eng (VObj [("field", VStr f);
                           ("expectedTypeAfterCoercion", VStr t)]) "field")
      with (VStr f).
    change (get eng (VObj [("field", VStr f);
                           ("expectedTypeAfterCoercion", VStr t)])
                "expectedTypeAfterCoercion")
      with (VStr t).
    unfold get_prop.
    cbn [destructure is_nullish bind to_string is_string].
    destruct (String.eqb_spec (typeof (get eng (VObj props) f)) t) as [Heq | Hne];
      cbn [negb]; split; intros H; try assumption; try reflexivity;
      try discriminate H; contradiction.
  - unfold case_MultiTypeFields.
    change (get eng (VObj [("field", VStr f); ("allowedTypes", VArr [VStr t])])
                "field")
      with (VStr f).
    change (get eng (VObj [("field", VStr f); ("allowedTypes", VArr [VStr t])])
                "allowedTypes")
      with (VArr [VStr t]).
    unfold get_prop, includes_method, set_has, join_method, array_join.
    cbn [destructure is_nullish bind to_string existsb same_value_zero
         map_completion].
    rewrite Bool.orb_false_r.
    destruct (String.eqb_spec (typeof (get eng (VObj props) f)) t) as [Heq | Hne];
      cbn [negb bind]; split; intros H; try assumption; try reflexivity;
      try discriminate H; contradiction.
  - unfold case_SchemaCompliance, get_default.
    change (get eng (VObj [("schema", VObj [(f, VStr t)])]) "schema")
      with (VObj [(f, VStr t)]).
    change (get eng (VObj [("schema", VObj [(f, VStr t)])]) "strict")
      with VUndefined.
    cbn [destructure is_nullish bind truthy typeof negb orb String.eqb Ascii.eqb
         Bool.eqb own_keys].
    rewrite ordered_keys_single. cbn [for_each]. rewrite Hschema.
    unfold get_prop.
    cbn [is_nullish bind to_string is_string].
    destruct (String.eqb_spec (typeof (get eng (VObj props) f)) t) as [Heq | Hne];
      cbn [negb bind]; split; intros H; try assumption; try reflexivity;
      try discriminate H; contradiction.
Qed.

(** X29: "Nested Object Validation" is "Required Fields" one level down.
    When the record holds an object under the field, the assertion passes
    exactly when that object passes "Required Fields" for the listed names,
    and it fails at the same name. *)
Theorem nested_object_is_required_fields_inside
    (w : W) (props nested : list (string * JsVal)) (f : string)
    (names : list string) :
  lookup f props = Some (VObj nested) ->
  let missing := find (fun n => negb (has_own (VObj nested) n)) names in
  snd (validateObjectLevel eng W mods w (VObj props) "Nested Object Validation"
         (VObj [("field", VStr f); ("requiredFields", VArr (map VStr names))]))
  = Normal (verdict_of (option_map (missing_nested_field f) missing))
  /\ snd (validateObjectLevel eng W mods w (VObj nested) "Required Fields"
            (VArr (map VStr names)))
     = Normal (verdict_of (option_map missing_required_field missing)).
Proof.
  intros Hheld missing. unfold validateObjectLevel.
  change (kind_of "Nested Object Validation") with NestedObjectValidation.
  change (kind_of "Required Fields") with RequiredFields.
  cbn [pure_case snd]. split; [| apply case_RequiredFields_names].
  unfold case_NestedObjectValidation.
  change (get eng (VObj [("field", VStr f);
                         ("requiredFields", VArr (map VStr names))]) "field")
    with (VStr f).
  change (get eng (VObj [("field", VStr f);
                         ("requiredFields", VArr (map VStr names))])
              "requiredFields")
    with (VArr (map VStr names)).
  unfold get_prop. cbn [destructure is_nullish bind to_string].
  rewrite (get_own eng _ _ _ Hheld).
  cbn [typeof is_null isArray as_array negb orb String.eqb Ascii.eqb Bool.eqb
       iterate bind].
  rewrite (for_each_find _ (fun v => match v with
                                     | VStr n => negb (has_own (VObj nested) n)
                                     | _ => false
                                     end)
             (fun v => match v with
                       | VStr n => missing_nested_field f n
                       | _ => EmptyString
                       end)).
  - cbn [bind]. rewrite find_map. unfold missing. now destruct (find _ names).
  - intros x Hx. apply in_map_iff in Hx. destruct Hx as (n & <- & _).
    unfold hasOwnProperty_call. cbn [to_string bind is_nullish].
    now destruct (has_own (VObj nested) n).
Qed.

(** X30: "String Field Validation" sees a text field only through its
    trimmed form.  In either form of the inputs, a record that holds a text
    under the field and a record that holds the trimmed text get the same
    verdict, with the same message. *)
Theorem string_fields_see_trimmed_text
    (w : W) (props props' iprops : list (string * JsVal)) (name s : string) :
  lookup name props = Some (VStr s) ->
  lookup name props' = Some (VStr (trim s)) ->
  lookup "fields" iprops = Some (VArr [VStr name]) ->
  snd (validateObjectLevel eng W mods w (VObj props) "String Field Validation"
         (VArr [VStr name]))
  = snd (validateObjectLevel eng W mods w (VObj props') "String Field Validation"
           (VArr [VStr name]))
  /\ snd (validateObjectLevel eng W mods w (VObj props) "String Field Validation"
            (VObj iprops))
     = snd (validateObjectLevel eng W mods w (VObj props') "String Field Validation"
              (VObj iprops)).
Proof.
  intros Hheld Hheld' Hfields. unfold validateObjectLevel.
  change (kind_of "String Field Validation") with StringFieldValidation.
  cbn [pure_case snd]. unfold case_StringFieldValidation.
  cbn [as_array destructure is_nullish bind].
  rewrite (get_own eng _ _ _ Hfields). cbn [iterate bind for_each].
  unfold get_prop. cbn [is_nullish to_string bind].
  rewrite (get_own eng _ _ _ Hheld), (get_own eng _ _ _ Hheld').
  now rewrite trim_idempotent.
Qed.

End KindFacts.

Lemma kinds_outside_catalog_pass_on_record_witness :
  recognized "required fields" = false
  /\ isArray (responseData (sample_store (VObj []))) = false
  /\ runAssertions sample_engine nat sample_modules (sample_store (VObj []))
       [spec_of "required fields" (VArr [VStr "id"])]
     = (sample_store (VObj []),
        [spec_of "required fields" (VArr [VStr "id"])],
        [result "required fields" true (VStr "Assertion passed.")]).
Proof.
  split; [reflexivity | split; [reflexivity |]].
  exact (kinds_outside_catalog_pass_on_record sample_engine nat sample_modules
           (sample_store (VObj [])) "required fields" (VArr [VStr "id"])
           eq_refl eq_refl).
Defined.

Lemma nested_object_is_required_fields_inside_witness :
  let record := [("address", VObj [("city", VStr "Cairo")])] in
  lookup "address" record = Some (VObj [("city", VStr "Cairo")])
  /\ snd (validateObjectLevel sample_engine nat sample_modules 0 (VObj record)
            "Nested Object Validation"
            (VObj [("field", VStr "address");
                   ("requiredFields", VArr (map VStr ["city"; "zip"]))]))
     = Normal (failing (missing_nested_field "address" "zip")).
Proof.
  cbv zeta. split; [reflexivity |].
  exact (proj1
           (nested_object_is_required_fields_inside sample_engine nat
              sample_modules 0 [("address", VObj [("city", VStr "Cairo")])]
              [("city", VStr "Cairo")] "address" ["city"; "zip"] eq_refl)).
Defined.

Lemma string_fields_see_trimmed_text_witness :
  let ins := [("fields", VArr [VStr "title"]); ("minLength", num 3)] in
  lookup "title" [("title", VStr " ab ")] = Some (VStr " ab ")
  /\ lookup "title" [("title", VStr "ab")] = Some (VStr (trim " ab "))
  /\ lookup "fields" ins = Some (VArr [VStr "title"])
  /\ snd (validateObjectLevel sample_engine nat sample_modules 0
            (VObj [("title", VStr " ab ")]) "String Field Validation" (VObj ins))
     = snd (validateObjectLevel sample_engine nat sample_modules 0
              (VObj [("title", VStr "ab")]) "String Field Validation" (VObj ins)).
Proof.
  cbv zeta. repeat (split; [reflexivity |]).
  exact (proj2
           (string_fields_see_trimmed_text sample_engine nat sample_modules 0
              [("title", VStr " ab ")] [("title", VStr "ab")]
              [("fields", VArr [VStr "title"]); ("minLength", num 3)]
              "title" " ab " eq_refl eq_refl eq_refl)).
Defined.
